(** * supplychainlib: a shallow embedding of the AWS convenience adapters

    The library wraps four remote services (DynamoDB tables, S3 buckets,
    Lambda functions, SNS topics) and a few pure helpers.  The embedding
    follows the Python sources module by module:

    - [Py]        the fragment of Python the sources rely on: exceptions,
                  values, [str.strip], [int()], [decimal.Decimal] and
                  binary64 floats with [repr];
    - [DynamoDB]  [aws_dynamodb.py];
    - [S3]        [aws_s3.py];
    - [Lambda]    [aws_lambda.py];
    - [SNS]       [aws_sns.py];
    - [Utility]   [utility.py].

    Remote services are parameters: every adapter is a function of a
    client record whose operations act on an abstract service state and
    may raise.  Printing appends to a [stdout] list, and every remote
    call is recorded in a trace, so "no remote call" is a statement about
    the trace. *)

From Stdlib Require Import ZArith NArith List String Ascii Bool Lia.
From Stdlib Require Import SpecFloat DecimalString DecimalN DecimalPos.
From stdpp Require Import gmap strings.

#[local] Set Warnings "-register-all".

Local Open Scope string_scope.
Local Open Scope list_scope.
Local Open Scope Z_scope.

(** ** Python fragment *)

Module Py.

(** Exception classes that the sources raise, catch or can receive from
    the libraries they call.  All of them derive from [Exception]. *)
Inductive ExnClass :=
| ValueError
| TypeError
| OverflowError
| RuntimeError
| KeyError
| AttributeError
| InvalidOperation      (* decimal.InvalidOperation, an ArithmeticError *)
| DecimalOverflow       (* decimal.Overflow, an ArithmeticError *)
| DecimalUnderflow      (* decimal.Underflow *)
| DecimalInexact        (* decimal.Inexact *)
| DecimalRounded        (* decimal.Rounded *)
| DecimalClamped        (* decimal.Clamped *)
| ClientError           (* botocore.exceptions.ClientError *)
| BotoCoreError.        (* botocore.exceptions.BotoCoreError and subclasses,
                           e.g. EndpointConnectionError, ParamValidationError *)

Definition ExnClass_eqb (a b : ExnClass) : bool :=
  match a, b with
  | ValueError, ValueError | TypeError, TypeError
  | OverflowError, OverflowError | RuntimeError, RuntimeError
  | KeyError, KeyError | AttributeError, AttributeError
  | InvalidOperation, InvalidOperation | DecimalOverflow, DecimalOverflow
  | DecimalUnderflow, DecimalUnderflow | DecimalInexact, DecimalInexact
  | DecimalRounded, DecimalRounded | DecimalClamped, DecimalClamped
  | ClientError, ClientError | BotoCoreError, BotoCoreError => true
  | _, _ => false
  end.

Record exn := Exn { exn_class : ExnClass; exn_msg : string }.

(** [isinstance(e, cls)] for the classes above: none of them derives from
    another one of the list. *)
Definition isinstance_exn (e : exn) (cls : ExnClass) : bool :=
  ExnClass_eqb (exn_class e) cls.

(** The result of evaluating an expression: a value or a raised exception. *)
Inductive Outcome (A : Type) :=
| Return (a : A)
| Raise (e : exn).
Arguments Return {A} a.
Arguments Raise {A} e.

Definition obind {A B} (m : Outcome A) (k : A -> Outcome B) : Outcome B :=
  match m with
  | Return a => k a
  | Raise e => Raise e
  end.

Definition raises {A} (m : Outcome A) : bool :=
  match m with Return _ => false | Raise _ => true end.

(** Map a fallible function over a list, left to right, stopping at the
    first exception (a list comprehension). *)
Section OutcomeMap.
Context {A B : Type}.
Variable f : A -> Outcome B.

Fixpoint omap_list (l : list A) : Outcome (list B) :=
  match l with
  | [] => Return []
  | x :: l' =>
      obind (f x) (fun y => obind (omap_list l') (fun ys => Return (y :: ys)))
  end.

(** The same over the values of an association list (a dict
    comprehension [{k: f(v) for k, v in d.items()}]). *)
Fixpoint omap_values {K : Type} (l : list (K * A)) : Outcome (list (K * B)) :=
  match l with
  | [] => Return []
  | (k, v) :: l' =>
      obind (f v) (fun v' => obind (omap_values l') (fun r => Return ((k, v') :: r)))
  end.
End OutcomeMap.

(** *** Strings

    A [str] is a Rocq [string]; each character stands for the code point
    of the same number (0..255). *)

(** [c.isspace()] on code points below 256. *)
Definition isspace (c : ascii) : bool :=
  let n := N_of_ascii c in
  ((9 <=? n) && (n <=? 13) || (28 <=? n) && (n <=? 32)
   || (n =? 133) || (n =? 160))%N.

(** Removal of the leading and of the trailing characters that satisfy
    [space]. *)
Section StripWith.
Variable space : ascii -> bool.

Fixpoint lstrip_with (s : string) : string :=
  match s with
  | EmptyString => EmptyString
  | String c s' => if space c then lstrip_with s' else s
  end.

Fixpoint rstrip_with (s : string) : string :=
  match s with
  | EmptyString => EmptyString
  | String c s' =>
      match rstrip_with s' with
      | EmptyString => if space c then EmptyString else String c EmptyString
      | r => String c r
      end
  end.
End StripWith.

(** [s.strip()] *)
Definition strip (s : string) : string :=
  rstrip_with isspace (lstrip_with isspace s).

Fixpoint all_space (s : string) : bool :=
  match s with
  | EmptyString => true
  | String c s' => isspace c && all_space s'
  end.

Definition string_of_N (n : N) : string := NilZero.string_of_uint (N.to_uint n).

Definition string_of_Z (z : Z) : string :=
  match z with
  | Zneg p => "-" +:+ string_of_N (Npos p)
  | _ => string_of_N (Z.to_N z)
  end.

Definition is_digit (c : ascii) : bool :=
  let n := N_of_ascii c in ((48 <=? n) && (n <=? 57))%N.

Definition digit_val (c : ascii) : N := (N_of_ascii c - 48)%N.

Fixpoint all_digits (s : string) : bool :=
  match s with
  | EmptyString => true
  | String c s' => is_digit c && all_digits s'
  end.

(** Value of a string of decimal digits, most significant first. *)
Fixpoint digits_val (acc : N) (s : string) : N :=
  match s with
  | EmptyString => acc
  | String c s' => digits_val (10 * acc + digit_val c)%N s'
  end.

(** *** decimal.Decimal

    A finite decimal is [(-1)^sign * coeff * 10^exp]; signalling NaNs are
    not modelled.  The arithmetic context is the default one:
    precision 28, Emin -999999, Emax 999999, ROUND_HALF_EVEN, and the
    traps InvalidOperation, DivisionByZero and Overflow. *)
Inductive Decimal :=
| DFinite (sign : bool) (coeff : N) (exp : Z)
| DInfinity (sign : bool)
| DNaN.

Definition ctx_prec : Z := 28.
Definition ctx_Emin : Z := -999999.
Definition ctx_Emax : Z := 999999.
Definition ctx_Etiny : Z := ctx_Emin - ctx_prec + 1.
Definition ctx_Etop : Z := ctx_Emax - ctx_prec + 1.

(** Number of decimal digits of [n] ([0] for [n <= 0]). *)
Fixpoint ndigits_fuel (fuel : nat) (n : Z) : Z :=
  match fuel with
  | O => 0
  | S fuel' => if n <=? 0 then 0 else 1 + ndigits_fuel fuel' (n / 10)
  end.

Definition ndigits (n : Z) : Z := ndigits_fuel (S (Z.to_nat (Z.log2 n))) n.

(** [len(self._int)]: the coefficient 0 is the one-digit string "0". *)
Definition coeff_len (c : N) : Z := Z.max 1 (ndigits (Z.of_N c)).

(** [self.adjusted()] *)
Definition adjusted (c : N) (e : Z) : Z := e + coeff_len c - 1.

(** Round [c * 10^e] to the exponent [e + k] ([0 < k]), ties to even. *)
Definition round_half_even_shift (c : Z) (k : Z) : Z :=
  let p := 10 ^ k in
  let q := c / p in
  let r := c mod p in
  match Z.compare (2 * r) p with
  | Lt => q
  | Gt => q + 1
  | Eq => if Z.even q then q else q + 1
  end.

(** [Decimal._fix]: round a finite result to the context. *)
Definition Decimal_fix (s : bool) (c : N) (e : Z) : Outcome Decimal :=
  if (c =? 0)%N then
    Return (DFinite s 0 (Z.min (Z.max e ctx_Etiny) ctx_Emax))
  else
    let exp_min0 := coeff_len c + e - ctx_prec in
    if ctx_Etop <? exp_min0 then
      Raise (Exn DecimalOverflow "above Emax")
    else
      let exp_min := Z.max exp_min0 ctx_Etiny in
      if e <? exp_min then
        let c' := round_half_even_shift (Z.of_N c) (exp_min - e) in
        let '(c'', exp_min') :=
          if ctx_prec <? ndigits c' then (c' / 10, exp_min + 1) else (c', exp_min) in
        if ctx_Etop <? exp_min' then Raise (Exn DecimalOverflow "above Emax")
        else Return (DFinite s (Z.to_N c'') exp_min')
      else Return (DFinite s c e).

(** [Decimal.__mod__]: [self % other]. *)
Definition Decimal_mod (self other : Decimal) : Outcome Decimal :=
  match self, other with
  | DNaN, _ | _, DNaN => Return DNaN
  | DInfinity _, _ => Raise (Exn InvalidOperation "INF % x")
  | DFinite s c e, DInfinity _ => Decimal_fix s c e
  | DFinite s c e, DFinite s' c' e' =>
      if (c' =? 0)%N then
        Raise (Exn InvalidOperation (if (c =? 0)%N then "0 % 0" else "x % 0"))
      else
        let ideal_exp := Z.min e e' in
        let expdiff := adjusted c e - adjusted c' e' in
        if (c =? 0)%N then Decimal_fix s 0 ideal_exp
        else if expdiff <=? -2 then
          Decimal_fix s (c * N.pow 10 (Z.to_N (e - ideal_exp))) ideal_exp
        else
          let op1 := Z.of_N c * 10 ^ (e - ideal_exp) in
          let op2 := Z.of_N c' * 10 ^ (e' - ideal_exp) in
          let q := op1 / op2 in
          let r := op1 mod op2 in
          if (expdiff <=? ctx_prec) && (q <? 10 ^ ctx_prec) then
            Decimal_fix s (Z.to_N r) ideal_exp
          else
            Raise (Exn InvalidOperation "quotient too large in //, % or divmod")
  end.

(** [Decimal(n)] for an [int] [n]. *)
Definition Decimal_of_Z (n : Z) : Decimal := DFinite (n <? 0) (Z.abs_N n) 0.

(** [d == n] for an [int] [n]: a numeric comparison; a NaN equals nothing. *)
Definition Decimal_eq_Z (d : Decimal) (n : Z) : bool :=
  match d with
  | DFinite s c e =>
      let v := if s then - Z.of_N c else Z.of_N c in
      if 0 <=? e then v * 10 ^ e =? n else v =? n * 10 ^ (- e)
  | _ => false
  end.

(** [int(d)]: truncation towards zero. *)
Definition Decimal_int (d : Decimal) : Outcome Z :=
  match d with
  | DNaN => Raise (Exn ValueError "cannot convert NaN to integer")
  | DInfinity _ => Raise (Exn OverflowError "cannot convert Infinity to integer")
  | DFinite s c e =>
      let a := if 0 <=? e then Z.of_N c * 10 ^ e else Z.of_N c / 10 ^ (- e) in
      Return (if s then - a else a)
  end.

(** The longest prefix of decimal digits of [s], and the rest. *)
Fixpoint span_digits (s : string) : string * string :=
  match s with
  | String c s' =>
      if is_digit c then let '(d, r) := span_digits s' in (String c d, r)
      else (EmptyString, s)
  | EmptyString => (EmptyString, EmptyString)
  end.

Fixpoint remove_underscores (s : string) : string :=
  match s with
  | EmptyString => EmptyString
  | String c s' =>
      if Ascii.eqb c "_" then remove_underscores s' else String c (remove_underscores s')
  end.

Definition lower (c : ascii) : ascii :=
  let n := N_of_ascii c in
  if ((65 <=? n) && (n <=? 90))%N then ascii_of_N (n + 32) else c.

Fixpoint lowercase (s : string) : string :=
  match s with
  | EmptyString => EmptyString
  | String c s' => String (lower c) (lowercase s')
  end.

Definition split_sign (s : string) : bool * string :=
  match s with
  | String "-" r => (true, r)
  | String "+" r => (false, r)
  | _ => (false, s)
  end.

Definition conversion_syntax {A} : Outcome A :=
  Raise (Exn InvalidOperation "Invalid literal for Decimal").

(** [Decimal(s)] for a string: the literal is stripped, underscores are
    removed, and the rest is [sign? (digits [. digits]? | . digits)
    (E sign? digits)?] or an infinity or a NaN, case-insensitively. *)
Definition Decimal_of_string (s : string) : Outcome Decimal :=
  let '(sign, body) := split_sign (lowercase (remove_underscores (strip s))) in
  if String.eqb body "inf" || String.eqb body "infinity" then Return (DInfinity sign)
  else if String.eqb body "nan" then Return DNaN
  else
    let '(ip, r1) := span_digits body in
    let '(fp, r2) :=
      match r1 with
      | String "." r => span_digits r
      | _ => (EmptyString, r1)
      end in
    if (String.length ip =? 0)%nat && (String.length fp =? 0)%nat then conversion_syntax
    else
      let coeff := digits_val 0 (ip +:+ fp) in
      let flen := Z.of_nat (String.length fp) in
      match r2 with
      | EmptyString => Return (DFinite sign coeff (- flen))
      | String "e" r =>
          let '(esign, ed) := split_sign r in
          if (String.length ed =? 0)%nat || negb (all_digits ed) then conversion_syntax
          else
            let ev := Z.of_N (digits_val 0 ed) in
            Return (DFinite sign coeff ((if esign then - ev else ev) - flen))
      | _ => conversion_syntax
      end.

(** *** float (IEEE 754 binary64)

    Floats are the standard library's [spec_float] at precision 53 and
    maximal exponent 1024; a well-formed float satisfies [valid_binary]. *)
Definition float := spec_float.
Definition prec : Z := 53.
Definition emax : Z := 1024.


Definition float_valid (f : float) : bool := valid_binary prec emax f.

(** Structural equality of floats (distinguishes the two zeros). *)
Definition float_same (a b : float) : bool :=
  match a, b with
  | S754_zero s, S754_zero s' => Bool.eqb s s'
  | S754_infinity s, S754_infinity s' => Bool.eqb s s'
  | S754_nan, S754_nan => true
  | S754_finite s m e, S754_finite s' m' e' =>
      Bool.eqb s s' && Pos.eqb m m' && Z.eqb e e'
  | _, _ => false
  end.

(** [a == b] on floats. *)
Definition float_eq (a b : float) : bool := SFeqb a b.

(** The float nearest to [(-1)^s * c * 10^e], ties to even; overflow
    gives an infinity. *)
Definition float_of_decimal_parts (s : bool) (c : N) (e : Z) : float :=
  match c with
  | N0 => S754_zero s
  | Npos p =>
      if 0 <=? e then
        match Zpos p * 10 ^ e with
        | Zpos m => binary_round prec emax s m 0
        | _ => S754_nan
        end
      else
        let '(mz, ez, lz) := SFdiv_core_binary prec emax (Zpos p) 0 (10 ^ (- e)) 0 in
        binary_round_aux prec emax s mz ez lz
  end.

(** [float(d)] for a [Decimal]: the correctly rounded conversion of its
    literal. *)
Definition float_of_Decimal (d : Decimal) : float :=
  match d with
  | DNaN => S754_nan
  | DInfinity s => S754_infinity s
  | DFinite s c e => float_of_decimal_parts s c e
  end.

(** [float(n)] for an [int]. *)
Definition float_of_Z (n : Z) : Outcome float :=
  match float_of_decimal_parts (n <? 0) (Z.abs_N n) 0 with
  | S754_infinity _ => Raise (Exn OverflowError "int too large to convert to float")
  | f => Return f
  end.

(** [int(f)] for a float: truncation towards zero. *)
Definition float_int (f : float) : Outcome Z :=
  match f with
  | S754_nan => Raise (Exn ValueError "cannot convert float NaN to integer")
  | S754_infinity _ => Raise (Exn OverflowError "cannot convert float infinity to integer")
  | S754_zero _ => Return 0
  | S754_finite s m e =>
      let a := if 0 <=? e then Zpos m * 2 ^ e else Zpos m / 2 ^ (- e) in
      Return (if s then - a else a)
  end.

(** **** [repr] of a float

    [repr] prints the shortest decimal digit string that converts back to
    the same float and, among those, the one closest to the exact value. *)

(** The exact value of the finite float [m * 2^e] as a fraction. *)
Definition float_fraction (m : positive) (e : Z) : Z * Z :=
  if 0 <=? e then (Zpos m * 2 ^ e, 1) else (Zpos m, 2 ^ (- e)).

(** The [k] with [10^(k-1) <= num/den < 10^k]. *)
Definition decimal_exponent (num den : Z) : Z :=
  let k0 := ndigits num - ndigits den in
  let ge := if 0 <=? k0 then den * 10 ^ k0 <=? num else den <=? num * 10 ^ (- k0) in
  if ge then k0 + 1 else k0.

(** The [n]-digit neighbours of [num/den], the closer one first (ties: the
    even one first); one candidate when the value has [n] digits exactly. *)
Definition repr_candidates (num den k n : Z) : list Z :=
  let shift := n - k in
  let N' := num * 10 ^ (Z.max shift 0) in
  let D' := den * 10 ^ (Z.max (- shift) 0) in
  let lo := N' / D' in
  let r := N' mod D' in
  if r =? 0 then [lo]
  else
    match Z.compare (2 * r) D' with
    | Lt => [lo; lo + 1]
    | Gt => [lo + 1; lo]
    | Eq => if Z.even lo then [lo; lo + 1] else [lo + 1; lo]
    end.

(** Drop trailing zero digits of the coefficient. *)
Fixpoint strip_zeros (fuel : nat) (c e : Z) : Z * Z :=
  match fuel with
  | O => (c, e)
  | S fuel' =>
      if (c mod 10 =? 0) && negb (c =? 0) then strip_zeros fuel' (c / 10) (e + 1)
      else (c, e)
  end.

(** Whether the digits [c] at the exponent [q], written without their
    trailing zeros, convert back to [f]. *)
Definition converts_back (f : float) (s : bool) (c q : Z) : bool :=
  let '(c', q') := strip_zeros 17 c q in
  float_same (float_of_decimal_parts s (Z.to_N c') q') f.

(** Try the digit counts [n], [n + 1], ... in turn and stop at the first
    one with a candidate that converts back to [f].  The search ends: the
    decimal expansion of a float is finite, and [fuel] is taken large
    enough to reach it (17 digits identify a binary64 value, so it ends
    long before). *)
Fixpoint repr_search (fuel : nat) (f : float) (s : bool) (num den k n : Z) : Z * Z :=
  let cands := repr_candidates num den k n in
  match List.find (fun c => converts_back f s c (k - n)) cands with
  | Some c => (c, k - n)
  | None =>
      match fuel with
      | O => (hd 0 cands, k - n)
      | S fuel' => repr_search fuel' f s num den k (n + 1)
      end
  end.

(** The shortest digits of a finite non-zero float: [(c, q)] stands for
    [c * 10^q], and [c] has no trailing zero.  The expansion of
    [m * 2^e] has at most [k - min e 0] digits. *)
Definition shortest_digits (s : bool) (m : positive) (e : Z) : Z * Z :=
  let '(num, den) := float_fraction m e in
  let k := decimal_exponent num den in
  let '(c, q) :=
    repr_search (Z.to_nat (k - Z.min e 0)) (S754_finite s m e) s num den k 1 in
  strip_zeros 17 c q.

Fixpoint zeros (n : nat) : string :=
  match n with
  | O => EmptyString
  | S n' => String "0" (zeros n')
  end.

(** The layout of [repr]: positional notation when the decimal point
    position [decpt] satisfies [-4 < decpt <= 16], scientific notation
    with an exponent of at least two digits otherwise. *)
Definition format_digits (c q : Z) : string :=
  let ds := string_of_N (Z.to_N c) in
  let nd := Z.of_nat (String.length ds) in
  let decpt := q + nd in
  if (decpt <=? -4) || (16 <? decpt) then
    let mant :=
      match ds with
      | String d EmptyString => String d EmptyString
      | String d rest => String d ("." +:+ rest)
      | EmptyString => EmptyString
      end in
    let x := decpt - 1 in
    let xs := string_of_N (Z.abs_N x) in
    mant +:+ "e" +:+ (if x <? 0 then "-" else "+")
         +:+ (if (String.length xs <? 2)%nat then "0" +:+ xs else xs)
  else if decpt <=? 0 then "0." +:+ zeros (Z.to_nat (- decpt)) +:+ ds
  else if decpt <? nd then
    substring 0 (Z.to_nat decpt) ds +:+ "."
      +:+ substring (Z.to_nat decpt) (Z.to_nat (nd - decpt)) ds
  else ds +:+ zeros (Z.to_nat (decpt - nd)) +:+ ".0".

(** [repr(f)], which is also [str(f)]. *)
Definition float_repr (f : float) : string :=
  match f with
  | S754_nan => "nan"
  | S754_infinity s => if s then "-inf" else "inf"
  | S754_zero s => if s then "-0.0" else "0.0"
  | S754_finite s m e =>
      let '(c, q) := shortest_digits s m e in
      (if s then "-" else "") +:+ format_digits c q
  end.

(** *** Values *)

(** The values that reach the adapters.  A [dict] with string keys is an
    association list in insertion order (keys are pairwise distinct in a
    well-formed dict). *)
Inductive PyVal :=
| VNone
| VBool (b : bool)
| VInt (n : Z)
| VFloat (f : float)
| VDecimal (d : Decimal)
| VStr (s : string)
| VBytes (s : string)
| VList (l : list PyVal)
| VTuple (l : list PyVal)
| VDict (kvs : list (string * PyVal)).

(** Truth value of an object ([if v], [not v], [v or w]). *)
Definition truthy (v : PyVal) : bool :=
  match v with
  | VNone => false
  | VBool b => b
  | VInt n => negb (n =? 0)
  | VFloat f => negb (float_eq f (S754_zero false))
  | VDecimal d => match d with DFinite _ c _ => negb (c =? 0)%N | _ => true end
  | VStr s | VBytes s => negb (String.length s =? 0)%nat
  | VList l | VTuple l => negb (length l =? 0)%nat
  | VDict kvs => negb (length kvs =? 0)%nat
  end.

Definition type_name (v : PyVal) : string :=
  match v with
  | VNone => "NoneType"
  | VBool _ => "bool"
  | VInt _ => "int"
  | VFloat _ => "float"
  | VDecimal _ => "Decimal"
  | VStr _ => "str"
  | VBytes _ => "bytes"
  | VList _ => "list"
  | VTuple _ => "tuple"
  | VDict _ => "dict"
  end.

(** Lookup in an association list: the first binding of the key. *)
Fixpoint assoc (k : string) (kvs : list (string * PyVal)) : option PyVal :=
  match kvs with
  | [] => None
  | (k', v) :: kvs' => if String.eqb k k' then Some v else assoc k kvs'
  end.

(** [d.get(k, default)] *)
Definition dict_get (d : PyVal) (k : string) (default : PyVal) : Outcome PyVal :=
  match d with
  | VDict kvs => Return (match assoc k kvs with Some v => v | None => default end)
  | _ => Raise (Exn AttributeError ("'" +:+ type_name d +:+ "' object has no attribute 'get'"))
  end.

(** [d[k]] for a string key. *)
Definition dict_item (d : PyVal) (k : string) : Outcome PyVal :=
  match d with
  | VDict kvs =>
      match assoc k kvs with
      | Some v => Return v
      | None => Raise (Exn KeyError k)
      end
  | _ => Raise (Exn TypeError ("'" +:+ type_name d +:+ "' object is not subscriptable"))
  end.

Fixpoint string_chars (s : string) : list PyVal :=
  match s with
  | EmptyString => []
  | String c s' => VStr (String c EmptyString) :: string_chars s'
  end.

(** The elements produced by iterating over a value ([for x in v],
    [items.extend(v)]). *)
Definition py_iter (v : PyVal) : Outcome (list PyVal) :=
  match v with
  | VList l | VTuple l => Return l
  | VDict kvs => Return (map (fun kv => VStr (fst kv)) kvs)
  | VStr s => Return (string_chars s)
  | _ => Raise (Exn TypeError ("'" +:+ type_name v +:+ "' object is not iterable"))
  end.

(** [k in d] for a string key and a dict. *)
Definition dict_contains (d : PyVal) (k : string) : Outcome bool :=
  match d with
  | VDict kvs => Return (match assoc k kvs with Some _ => true | None => false end)
  | _ => obind (py_iter d) (fun l =>
           Return (existsb (fun x => match x with VStr s => String.eqb s k | _ => false end) l))
  end.

(** **** [int(x)] *)

(** The white space that [int] strips from a [str] literal, and from a
    [bytes] literal. *)
Definition isspace_int (c : ascii) : bool :=
  let n := N_of_ascii c in
  ((9 <=? n) && (n <=? 13) || (n =? 32) || (n =? 133) || (n =? 160))%N.

Definition isspace_bytes (c : ascii) : bool :=
  let n := N_of_ascii c in ((9 <=? n) && (n <=? 13) || (n =? 32))%N.

(** Digits separated by single underscores: [d (_? d)*].  [after_digit]
    tells whether the previous character was a digit. *)
Fixpoint int_digits (after_digit : bool) (s : string) : option string :=
  match s with
  | EmptyString => if after_digit then Some EmptyString else None
  | String c s' =>
      if is_digit c then
        match int_digits true s' with
        | Some d => Some (String c d)
        | None => None
        end
      else if Ascii.eqb c "_" && after_digit then
        match s' with
        | String c' _ => if is_digit c' then int_digits false s' else None
        | EmptyString => None
        end
      else None
  end.

(** [sys.get_int_max_str_digits()] *)
Definition int_max_str_digits : nat := 4300.

Definition invalid_literal {A} (s : string) : Outcome A :=
  Raise (Exn ValueError ("invalid literal for int() with base 10: " +:+ s)).

(** [int(s)] in base 10 for a literal [s] whose white space is [space]. *)
Definition int_of_string (space : ascii -> bool) (s : string) : Outcome Z :=
  let '(sign, body) := split_sign (rstrip_with space (lstrip_with space s)) in
  match int_digits false body with
  | None => invalid_literal s
  | Some ds =>
      if (int_max_str_digits <? String.length ds)%nat then
        Raise (Exn ValueError "Exceeds the limit (4300 digits) for integer string conversion")
      else
        let n := Z.of_N (digits_val 0 ds) in
        Return (if sign then - n else n)
  end.

(** [int(v)] *)
Definition py_int (v : PyVal) : Outcome Z :=
  match v with
  | VBool b => Return (if b then 1 else 0)
  | VInt n => Return n
  | VFloat f => float_int f
  | VDecimal d => Decimal_int d
  | VStr s => int_of_string isspace_int s
  | VBytes s => int_of_string isspace_bytes s
  | VNone | VList _ | VTuple _ | VDict _ =>
      Raise (Exn TypeError
        ("int() argument must be a string, a bytes-like object or a real number, not '"
           +:+ type_name v +:+ "'"))
  end.

(** **** Equality ([==])

    Numbers compare by exact value across [bool], [int], [float] and
    [Decimal]; a NaN equals nothing. *)

(** A finite number as a fraction [(num, den)] with [0 < den]. *)
Definition numeric_value (v : PyVal) : option (Z * Z) :=
  match v with
  | VBool b => Some (if b then 1 else 0, 1)
  | VInt n => Some (n, 1)
  | VFloat (S754_zero _) => Some (0, 1)
  | VFloat (S754_finite s m e) =>
      let v := if s then Zneg m else Zpos m in
      Some (if 0 <=? e then (v * 2 ^ e, 1) else (v, 2 ^ (- e)))
  | VDecimal (DFinite s c e) =>
      let v := if s then - Z.of_N c else Z.of_N c in
      Some (if 0 <=? e then (v * 10 ^ e, 1) else (v, 10 ^ (- e)))
  | _ => None
  end.

(** The sign of an infinite number. *)
Definition infinite_sign (v : PyVal) : option bool :=
  match v with
  | VFloat (S754_infinity s) | VDecimal (DInfinity s) => Some s
  | _ => None
  end.

Definition is_number (v : PyVal) : bool :=
  match v with
  | VBool _ | VInt _ | VFloat _ | VDecimal _ => true
  | _ => false
  end.

Definition number_eq (a b : PyVal) : bool :=
  match numeric_value a, numeric_value b with
  | Some (n1, d1), Some (n2, d2) => n1 * d2 =? n2 * d1
  | _, _ =>
      match infinite_sign a, infinite_sign b with
      | Some s1, Some s2 => Bool.eqb s1 s2
      | _, _ => false
      end
  end.

(** [a == b] *)
Fixpoint py_eq (a b : PyVal) : bool :=
  match a, b with
  | VNone, VNone => true
  | VStr x, VStr y | VBytes x, VBytes y => String.eqb x y
  | VList l1, VList l2 | VTuple l1, VTuple l2 =>
      (fix all2 (l1 l2 : list PyVal) : bool :=
         match l1, l2 with
         | [], [] => true
         | x :: l1', y :: l2' => py_eq x y && all2 l1' l2'
         | _, _ => false
         end) l1 l2
  | VDict kvs1, VDict kvs2 =>
      (length kvs1 =? length kvs2)%nat
      && (fix sub (l : list (string * PyVal)) : bool :=
            match l with
            | [] => true
            | (k, v) :: l' =>
                match assoc k kvs2 with
                | Some v' => py_eq v v' && sub l'
                | None => false
                end
            end) kvs1
  | _, _ => is_number a && is_number b && number_eq a b
  end.

(** [x in l] for a list [l]. *)
Definition list_contains (l : list PyVal) (x : PyVal) : bool :=
  existsb (fun y => py_eq y x) l.

(** [a or b] *)
Definition py_or (a b : PyVal) : PyVal := if truthy a then a else b.

(** **** [json.dumps] with the default options *)

Definition dquote : string := String (ascii_of_N 34) EmptyString.

Definition hex_digit (n : N) : string :=
  String (if (n <? 10)%N then ascii_of_N (48 + n) else ascii_of_N (87 + n)) EmptyString.

(** One character of a JSON string ([ensure_ascii=True]). *)
Definition json_escape_char (c : ascii) : string :=
  let n := N_of_ascii c in
  if (n =? 34)%N then "\" +:+ dquote
  else if (n =? 92)%N then "\\"
  else if (n =? 10)%N then "\n"
  else if (n =? 13)%N then "\r"
  else if (n =? 9)%N then "\t"
  else if (n =? 8)%N then "\b"
  else if (n =? 12)%N then "\f"
  else if ((32 <=? n) && (n <=? 126))%N then String c EmptyString
  else "\u00" +:+ hex_digit (n / 16) +:+ hex_digit (n mod 16).

Fixpoint json_escape (s : string) : string :=
  match s with
  | EmptyString => EmptyString
  | String c s' => json_escape_char c +:+ json_escape s'
  end.

Definition json_string (s : string) : string := dquote +:+ json_escape s +:+ dquote.

Definition json_float (f : float) : string :=
  match f with
  | S754_nan => "NaN"
  | S754_infinity s => if s then "-Infinity" else "Infinity"
  | _ => float_repr f
  end.

Definition not_serializable {A} (v : PyVal) : Outcome A :=
  Raise (Exn TypeError ("Object of type " +:+ type_name v +:+ " is not JSON serializable")).

(** [json.dumps(v)] *)
Fixpoint json_dumps (v : PyVal) : Outcome string :=
  match v with
  | VNone => Return "null"
  | VBool b => Return (if b then "true" else "false")
  | VInt n => Return (string_of_Z n)
  | VFloat f => Return (json_float f)
  | VStr s => Return (json_string s)
  | VDecimal _ | VBytes _ => not_serializable v
  | VList l | VTuple l =>
      let fix elems (first : bool) (l : list PyVal) : Outcome string :=
        match l with
        | [] => Return EmptyString
        | x :: l' =>
            obind (json_dumps x) (fun sx =>
            obind (elems false l') (fun sl =>
            Return ((if first then "" else ", ") +:+ sx +:+ sl)))
        end in
      obind (elems true l) (fun body => Return ("[" +:+ body +:+ "]"))
  | VDict kvs =>
      let fix members (first : bool) (l : list (string * PyVal)) : Outcome string :=
        match l with
        | [] => Return EmptyString
        | (k, x) :: l' =>
            obind (json_dumps x) (fun sx =>
            obind (members false l') (fun sl =>
            Return ((if first then "" else ", ") +:+ json_string k +:+ ": " +:+ sx +:+ sl)))
        end in
      obind (members true kvs) (fun body => Return ("{" +:+ body +:+ "}"))
  end.

(** *** Effects

    A method runs in a world made of the remote service's state, the
    trace of the remote calls made so far and the lines printed so far.
    It returns a value or raises, and the world it leaves behind is kept
    in both cases. *)

(** A remote call: the operation's name and its keyword arguments. *)
Record Call := MkCall { call_op : string; call_args : gmap string PyVal }.

(** A remote service over a state [R]: each operation maps keyword
    arguments and a state to a response (or an exception) and a state. *)
Definition Service (R : Type) : Type :=
  string -> gmap string PyVal -> R -> Outcome PyVal * R.

Record World (R : Type) := MkWorld {
  remote : R;
  trace : list Call;
  stdout : list string
}.
Arguments MkWorld {R} _ _ _.
Arguments remote {R} _.
Arguments trace {R} _.
Arguments stdout {R} _.

Definition M (R A : Type) : Type := World R -> Outcome A * World R.

Definition ret {R A} (a : A) : M R A := fun w => (Return a, w).

Definition raise {R A} (e : exn) : M R A := fun w => (Raise e, w).

Definition bind {R A B} (m : M R A) (k : A -> M R B) : M R B :=
  fun w =>
    match m w with
    | (Return a, w') => k a w'
    | (Raise e, w') => (Raise e, w')
    end.

(** Lift a pure, possibly raising, computation. *)
Definition lift {R A} (o : Outcome A) : M R A := fun w => (o, w).

(** [print(line)] *)
Definition print {R} (line : string) : M R unit :=
  fun w => (Return tt, MkWorld (remote w) (trace w) (stdout w ++ [line])).

(** Call the operation [op] of the service with keyword arguments [args]. *)
Definition remote_call {R} (svc : Service R) (op : string) (args : gmap string PyVal)
  : M R PyVal :=
  fun w =>
    let '(o, r') := svc op args (remote w) in
    (o, MkWorld r' (trace w ++ [MkCall op args]) (stdout w)).

(** [try: body except <classes> as e: handler(e)]; [catches] decides
    whether the raised exception is an instance of the listed classes. *)
Definition try_except {R A} (body : M R A) (catches : exn -> bool)
    (handler : exn -> M R A) : M R A :=
  fun w =>
    match body w with
    | (Raise e, w') => if catches e then handler e w' else (Raise e, w')
    | r => r
    end.

(** [except Exception]: every modelled exception is an [Exception]. *)
Definition any_Exception (e : exn) : bool := true.

End Py.

Notation "'do' x <- m ; k" := (Py.bind m (fun x => k))
  (at level 10, x name, m at level 100, k at level 200).
Notation "'do_' m ; k" := (Py.bind m (fun _ => k))
  (at level 10, m at level 100, k at level 200).

(** ** aws_dynamodb.py *)

Module DynamoDB.
Import Py.

Section Manager.
Context {R : Type}.
(** [self.table]: the table resource and its name. *)
Variable table : Service R.
Variable table_name : string.

(** [DynamoDBManager.get_item] *)
Definition get_item (key : PyVal) : M R PyVal :=
  try_except
    (do response <- remote_call table "get_item" {[ "Key" := key ]};
     lift (dict_get response "Item" VNone))
    any_Exception
    (fun e =>
       do_ print ("Get error in " +:+ table_name +:+ ": " +:+ exn_msg e);
       ret VNone).

(** The inner [convert] of [_prepare_for_dynamo]: floats to Decimal. *)
Fixpoint prepare_convert (value : PyVal) : Outcome PyVal :=
  match value with
  | VFloat f =>
      obind (Decimal_of_string (float_repr f)) (fun d => Return (VDecimal d))
  | VDict kvs =>
      obind (omap_values prepare_convert kvs) (fun kvs' => Return (VDict kvs'))
  | VList l =>
      obind (omap_list prepare_convert l) (fun l' => Return (VList l'))
  | _ => Return value
  end.

Definition no_items {A} (v : PyVal) : Outcome A :=
  Raise (Exn AttributeError ("'" +:+ type_name v +:+ "' object has no attribute 'items'")).

(** [DynamoDBManager._prepare_for_dynamo] *)
Definition _prepare_for_dynamo (item : PyVal) : Outcome PyVal :=
  match item with
  | VDict kvs =>
      obind (omap_values prepare_convert kvs) (fun kvs' => Return (VDict kvs'))
  | _ => no_items item
  end.

(** The inner [convert] of [_deserialize_item]: a Decimal becomes an
    [int] when [value % 1 == 0] and a [float] otherwise. *)
Fixpoint deserialize_convert (value : PyVal) : Outcome PyVal :=
  match value with
  | VDecimal d =>
      obind (Decimal_mod d (Decimal_of_Z 1)) (fun r =>
      if Decimal_eq_Z r 0 then obind (Decimal_int d) (fun n => Return (VInt n))
      else Return (VFloat (float_of_Decimal d)))
  | VDict kvs =>
      obind (omap_values deserialize_convert kvs) (fun kvs' => Return (VDict kvs'))
  | VList l =>
      obind (omap_list deserialize_convert l) (fun l' => Return (VList l'))
  | _ => Return value
  end.

(** [DynamoDBManager._deserialize_item] *)
Definition _deserialize_item (item : PyVal) : Outcome PyVal :=
  if negb (truthy item) then Return VNone
  else
    match item with
    | VDict kvs =>
        obind (omap_values deserialize_convert kvs) (fun kvs' => Return (VDict kvs'))
    | _ => no_items item
    end.

(** [DynamoDBManager.put_item] *)
Definition put_item (item : PyVal) : M R unit :=
  try_except
    (do item' <- lift (_prepare_for_dynamo item);
     do _ <- remote_call table "put_item" {[ "Item" := item' ]};
     ret tt)
    any_Exception
    (fun e => print ("Put error in " +:+ table_name +:+ ": " +:+ exn_msg e)).

(** [DynamoDBManager.update_item] *)
Definition update_item (key : PyVal) (update_expr : string) (values : PyVal)
    (names : PyVal) : M R unit :=
  try_except
    (let params : gmap string PyVal :=
       {[ "Key" := key;
          "UpdateExpression" := VStr update_expr;
          "ExpressionAttributeValues" := values ]} in
     let params :=
       if truthy names then <[ "ExpressionAttributeNames" := names ]> params
       else params in
     do _ <- remote_call table "update_item" params;
     ret tt)
    any_Exception
    (fun e => print ("Update error in " +:+ table_name +:+ ": " +:+ exn_msg e)).

(** [DynamoDBManager.delete_item] *)
Definition delete_item (key : PyVal) : M R unit :=
  try_except
    (do _ <- remote_call table "delete_item" {[ "Key" := key ]};
     ret tt)
    any_Exception
    (fun e => print ("Delete error in " +:+ table_name +:+ ": " +:+ exn_msg e)).

(** *** Scan *)

(** The [while "LastEvaluatedKey" in response] loop of [scan_table];
    [None] when [fuel] requests were not enough to reach a response
    without a continuation key. *)
Fixpoint scan_table_loop (fuel : nat) (response : PyVal) (items : list PyVal)
    (w : World R) : option (Outcome (list PyVal) * World R) :=
  match dict_contains response "LastEvaluatedKey" with
  | Raise e => Some (Raise e, w)
  | Return false => Some (Return items, w)
  | Return true =>
      match fuel with
      | O => None
      | S fuel' =>
          match dict_item response "LastEvaluatedKey" with
          | Raise e => Some (Raise e, w)
          | Return key =>
              match remote_call table "scan" {[ "ExclusiveStartKey" := key ]} w with
              | (Raise e, w') => Some (Raise e, w')
              | (Return response', w') =>
                  match obind (dict_get response' "Items" (VList [])) py_iter with
                  | Raise e => Some (Raise e, w')
                  | Return page => scan_table_loop fuel' response' (items ++ page) w'
                  end
              end
          end
      end
  end.

(** The [try] block of [scan_table]. *)
Definition scan_table_body (fuel : nat) (kwargs : gmap string PyVal)
    (w : World R) : option (Outcome (list PyVal) * World R) :=
  match remote_call table "scan" kwargs w with
  | (Raise e, w') => Some (Raise e, w')
  | (Return response, w') =>
      match obind (dict_get response "Items" (VList [])) py_iter with
      | Raise e => Some (Raise e, w')
      | Return page =>
          match scan_table_loop fuel response ([] ++ page) w' with
          | Some (Return items, w'') => Some (omap_list _deserialize_item items, w'')
          | r => r
          end
      end
  end.

(** [DynamoDBManager.scan_table], called with the keyword arguments
    [kwargs]. *)
Definition scan_table (fuel : nat) (kwargs : gmap string PyVal)
    (w : World R) : option (Outcome (list PyVal) * World R) :=
  match scan_table_body fuel kwargs w with
  | Some (Raise e, w') =>
      Some ((do_ print ("Scan error in " +:+ table_name +:+ ": " +:+ exn_msg e);
             ret []) w')
  | r => r
  end.

(** [DynamoDBManager.scan]: an alias. *)
Definition scan := scan_table.

(** *** The scan the specification describes

    Every request carries the caller's arguments; a continuation request
    adds the continuation key to them. *)
Fixpoint scan_all_pages_loop (fuel : nat) (kwargs : gmap string PyVal)
    (response : PyVal) (items : list PyVal)
    (w : World R) : option (Outcome (list PyVal) * World R) :=
  match dict_contains response "LastEvaluatedKey" with
  | Raise e => Some (Raise e, w)
  | Return false => Some (Return items, w)
  | Return true =>
      match fuel with
      | O => None
      | S fuel' =>
          match dict_item response "LastEvaluatedKey" with
          | Raise e => Some (Raise e, w)
          | Return key =>
              match remote_call table "scan" (<[ "ExclusiveStartKey" := key ]> kwargs) w with
              | (Raise e, w') => Some (Raise e, w')
              | (Return response', w') =>
                  match obind (dict_get response' "Items" (VList [])) py_iter with
                  | Raise e => Some (Raise e, w')
                  | Return page =>
                      scan_all_pages_loop fuel' kwargs response' (items ++ page) w'
                  end
              end
          end
      end
  end.

Definition scan_all_pages (fuel : nat) (kwargs : gmap string PyVal)
    (w : World R) : option (Outcome (list PyVal) * World R) :=
  match remote_call table "scan" kwargs w with
  | (Raise e, w') => Some (Raise e, w')
  | (Return response, w') =>
      match obind (dict_get response "Items" (VList [])) py_iter with
      | Raise e => Some (Raise e, w')
      | Return page =>
          match scan_all_pages_loop fuel kwargs response page w' with
          | Some (Return items, w'') => Some (omap_list _deserialize_item items, w'')
          | r => r
          end
      end
  end.

End Manager.

(** *** DistributorInventoryManager *)

Section DistributorInventory.
Context {R : Type}.
Variable table : Service R.

Definition inventory_table_name : string := "DistributorInventory".

Definition add_stock_expr : string :=
  "SET quantity = if_not_exists(quantity, :z) + :q".

(** The key [add_stock] builds: [f"{distributor_id}#{product_id}"]. *)
Definition stock_key (distributor_id product_id : string) : PyVal :=
  VDict [("id", VStr (distributor_id +:+ "#" +:+ product_id))].

(** [DistributorInventoryManager.add_stock] *)
Definition add_stock (distributor_id product_id : string) (quantity : PyVal)
  : M R unit :=
  let key := stock_key distributor_id product_id in
  do q <- lift (py_int quantity);
  update_item table inventory_table_name key add_stock_expr
    (VDict [(":q", VInt q); (":z", VInt 0)]) VNone.

(** The request [add_stock] hands to [update_item] for the composite
    key [key] and the increment [q]. *)
Definition add_stock_call (key : string) (q : Z) : Call :=
  MkCall "update_item"
    {[ "Key" := VDict [("id", VStr key)];
       "UpdateExpression" := VStr "SET quantity = if_not_exists(quantity, :z) + :q";
       "ExpressionAttributeValues" := VDict [(":q", VInt q); (":z", VInt 0)] ]}.

End DistributorInventory.
End DynamoDB.

(** ** A reference model of a DynamoDB table

    The table service is not part of the library; this model follows the
    service's documented behaviour as far as the adapters use it: items
    keyed by one string attribute, numbers held as exact decimals, [SET]
    update expressions with [if_not_exists], [+] and [-], scans that
    evaluate a bounded number of items per request, apply the filter to
    them and hand back a continuation key while items remain. *)

Module DynamoModel.
Import Py.

Inductive token :=
| TName (s : string)
| TLParen | TRParen | TComma | TEq | TPlus | TMinus.

Definition flush (acc : string) (ts : list token) : list token :=
  if (String.length acc =? 0)%nat then ts else TName acc :: ts.

(** Tokens of an expression; [acc] is the name being read. *)
Fixpoint lex (acc : string) (s : string) : list token :=
  match s with
  | EmptyString => flush acc []
  | String c s' =>
      let punct (t : token) := flush acc (t :: lex EmptyString s') in
      if isspace c then flush acc (lex EmptyString s')
      else if Ascii.eqb c "(" then punct TLParen
      else if Ascii.eqb c ")" then punct TRParen
      else if Ascii.eqb c "," then punct TComma
      else if Ascii.eqb c "=" then punct TEq
      else if Ascii.eqb c "+" then punct TPlus
      else if Ascii.eqb c "-" then punct TMinus
      else lex (acc +:+ String c EmptyString) s'
  end.

Inductive operand :=
| OPath (p : string)
| OValue (v : string)
| OIfNotExists (p : string) (o : operand).

Inductive set_value :=
| SOperand (o : operand)
| SPlus (a b : operand)
| SMinus (a b : operand).

Inductive condition :=
| CEq (a b : operand)
| CExists (p : string)
| CNotExists (p : string).

Definition is_placeholder (n : string) : bool :=
  match n with
  | String ":" _ => true
  | _ => false
  end.

Fixpoint parse_operand (fuel : nat) (ts : list token) : option (operand * list token) :=
  match fuel with
  | O => None
  | S fuel' =>
      match ts with
      | TName f :: TLParen :: TName p :: TComma :: rest =>
          if String.eqb f "if_not_exists" then
            match parse_operand fuel' rest with
            | Some (o, TRParen :: rest') => Some (OIfNotExists p o, rest')
            | _ => None
            end
          else None
      | TName n :: rest => Some (if is_placeholder n then OValue n else OPath n, rest)
      | _ => None
      end
  end.

Definition parse_set_value (ts : list token) : option (set_value * list token) :=
  match parse_operand (length ts) ts with
  | Some (a, TPlus :: rest) =>
      match parse_operand (length rest) rest with
      | Some (b, rest') => Some (SPlus a b, rest')
      | None => None
      end
  | Some (a, TMinus :: rest) =>
      match parse_operand (length rest) rest with
      | Some (b, rest') => Some (SMinus a b, rest')
      | None => None
      end
  | Some (a, rest) => Some (SOperand a, rest)
  | None => None
  end.

(** [path = value (, path = value)*] *)
Fixpoint parse_actions (fuel : nat) (ts : list token) : option (list (string * set_value)) :=
  match fuel with
  | O => None
  | S fuel' =>
      match ts with
      | TName p :: TEq :: rest =>
          match parse_set_value rest with
          | Some (v, []) => Some [(p, v)]
          | Some (v, TComma :: rest') =>
              match parse_actions fuel' rest' with
              | Some acts => Some ((p, v) :: acts)
              | None => None
              end
          | _ => None
          end
      | _ => None
      end
  end.

(** An update expression with a single [SET] clause. *)
Definition parse_update (expr : string) : option (list (string * set_value)) :=
  match lex EmptyString expr with
  | TName kw :: ts => if String.eqb kw "SET" then parse_actions (length ts) ts else None
  | _ => None
  end.

(** A filter: [a = b], [attribute_exists(p)] or [attribute_not_exists(p)]. *)
Definition parse_condition (expr : string) : option condition :=
  match lex EmptyString expr with
  | [TName f; TLParen; TName p; TRParen] =>
      if String.eqb f "attribute_exists" then Some (CExists p)
      else if String.eqb f "attribute_not_exists" then Some (CNotExists p)
      else None
  | ts =>
      match parse_operand (length ts) ts with
      | Some (a, TEq :: rest) =>
          match parse_operand (length rest) rest with
          | Some (b, []) => Some (CEq a b)
          | _ => None
          end
      | _ => None
      end
  end.

(** *** Numbers

    The client writes a number through its own decimal context:
    precision 38, Emin -128, Emax 126, with the traps Clamped, Overflow,
    Inexact, Rounded and Underflow.  A number that the context would
    have to round or clamp therefore raises, with the list of the
    trapped signals as its message. *)
Definition number_prec : Z := 38.
Definition number_Emax : Z := 126.
Definition number_Etiny : Z := -165.
Definition number_Etop : Z := 89.

Definition signal (name : string) : string := "<class 'decimal." +:+ name +:+ "'>".

(** [DYNAMODB_CONTEXT.create_decimal(d)] for a finite [d]: [d._fix] in
    that context. *)
Definition create_decimal (s : bool) (c : N) (e : Z) : Outcome Decimal :=
  if (c =? 0)%N then
    if (number_Etiny <=? e) && (e <=? number_Emax) then Return (DFinite s c e)
    else Raise (Exn DecimalClamped ("[" +:+ signal "Clamped" +:+ "]"))
  else
    let exp_min0 := coeff_len c + e - number_prec in
    if number_Etop <? exp_min0 then
      Raise (Exn DecimalOverflow
               ("[" +:+ signal "Overflow" +:+ ", " +:+ signal "Inexact" +:+ ", "
                    +:+ signal "Rounded" +:+ "]"))
    else
      let subnormal := exp_min0 <? number_Etiny in
      let exp_min := Z.max exp_min0 number_Etiny in
      if e <? exp_min then
        let changed := negb (Z.of_N c mod 10 ^ (exp_min - e) =? 0) in
        let to_zero := round_half_even_shift (Z.of_N c) (exp_min - e) =? 0 in
        if changed && subnormal then
          Raise (Exn DecimalUnderflow
                   ("[" +:+ signal "Underflow" +:+ ", " +:+ signal "Inexact" +:+ ", "
                        +:+ signal "Rounded"
                        +:+ (if to_zero then ", " +:+ signal "Clamped" else "") +:+ "]"))
        else if changed then
          Raise (Exn DecimalInexact
                   ("[" +:+ signal "Inexact" +:+ ", " +:+ signal "Rounded" +:+ "]"))
        else Raise (Exn DecimalRounded ("[" +:+ signal "Rounded" +:+ "]"))
      else Return (DFinite s c e).

(** The client-side serializer: [int] and [Decimal] become numbers of
    at most 38 digits, floats are refused. *)
Fixpoint serialize (v : PyVal) : Outcome PyVal :=
  match v with
  | VInt n =>
      obind (create_decimal (n <? 0) (Z.abs_N n) 0) (fun d => Return (VDecimal d))
  | VFloat _ =>
      Raise (Exn TypeError "Float types are not supported. Use Decimal types instead.")
  | VDecimal (DFinite s c e) => obind (create_decimal s c e) (fun d => Return (VDecimal d))
  | VDecimal _ => Raise (Exn TypeError "Infinity and NaN not supported")
  | VList l | VTuple l => obind (omap_list serialize l) (fun l' => Return (VList l'))
  | VDict kvs => obind (omap_values serialize kvs) (fun kvs' => Return (VDict kvs'))
  | _ => Return v
  end.

Definition validation {A} (msg : string) : Outcome A :=
  Raise (Exn ClientError ("ValidationException: " +:+ msg)).

Definition Decimal_signed (s : bool) (c : N) : Z :=
  if s then - Z.of_N c else Z.of_N c.

(** The integers that the client writes: at most 38 digits. *)
Definition storable (n : Z) : bool := Z.abs n <? 10 ^ number_prec.

(** The digits of [v] beyond the 38 most significant ones are zeros. *)
Definition significant (v : Z) : bool :=
  let extra := ndigits (Z.abs v) - number_prec in
  if extra <=? 0 then true else Z.abs v mod 10 ^ extra =? 0.

(** The sum of two finite decimals, at the smaller exponent.  The table
    computes it exactly and refuses a result of more than 38 significant
    digits or of a magnitude outside [1E-130, 1E+126). *)
Definition number_add (a b : PyVal) : Outcome PyVal :=
  match a, b with
  | VDecimal (DFinite s1 c1 e1), VDecimal (DFinite s2 c2 e2) =>
      let e := Z.min e1 e2 in
      let v := Decimal_signed s1 c1 * 10 ^ (e1 - e) + Decimal_signed s2 c2 * 10 ^ (e2 - e) in
      let top := ndigits (Z.abs v) + e - 1 in
      if negb (significant v) then
        validation "Attempting to store more than 38 significant digits in a Number"
      else if negb (v =? 0) && (125 <? top) then
        validation "Number overflow. Attempting to store a number with magnitude larger than supported range"
      else if negb (v =? 0) && (top <? -130) then
        validation "Number underflow. Attempting to store a number with magnitude smaller than supported range"
      else Return (VDecimal (DFinite (v <? 0) (Z.abs_N v) e))
  | _, _ => validation "Incorrect operand type for operator or function"
  end.

Definition number_neg (a : PyVal) : PyVal :=
  match a with
  | VDecimal (DFinite s c e) => VDecimal (DFinite (negb s) c e)
  | _ => a
  end.

(** Equality of attribute values: strings, numbers (by value), booleans. *)
Definition attr_eqb (a b : PyVal) : bool :=
  match a, b with
  | VStr x, VStr y => String.eqb x y
  | VBool x, VBool y => Bool.eqb x y
  | VDecimal (DFinite s1 c1 e1), VDecimal (DFinite s2 c2 e2) =>
      let e := Z.min e1 e2 in
      Decimal_signed s1 c1 * 10 ^ (e1 - e) =? Decimal_signed s2 c2 * 10 ^ (e2 - e)
  | _, _ => false
  end.

Definition Row : Type := list (string * PyVal).

Section Table.
(** The key attribute and the number of items one scan request
    evaluates. *)
Variable hash_key : string.
Variable page_size : nat.

Definition row_key (r : Row) : option string :=
  match assoc hash_key r with
  | Some (VStr k) => Some k
  | _ => None
  end.

Definition has_key (k : string) (r : Row) : bool :=
  match row_key r with
  | Some k' => String.eqb k k'
  | None => false
  end.

Definition lookup_row (k : string) (rows : list Row) : option Row :=
  List.find (has_key k) rows.

(** Replace the row with key [k], or append it. *)
Fixpoint store_row (k : string) (r : Row) (rows : list Row) : list Row :=
  match rows with
  | [] => [r]
  | r' :: rows' => if has_key k r' then r :: rows' else r' :: store_row k r rows'
  end.

Definition remove_row (k : string) (rows : list Row) : list Row :=
  List.filter (fun r => negb (has_key k r)) rows.

(** The rows after the one with key [k]. *)
Fixpoint rows_after (k : string) (rows : list Row) : list Row :=
  match rows with
  | [] => []
  | r :: rows' => if has_key k r then rows' else rows_after k rows'
  end.

Fixpoint set_attr (k : string) (v : PyVal) (r : Row) : Row :=
  match r with
  | [] => [(k, v)]
  | (k', v') :: r' => if String.eqb k k' then (k, v) :: r' else (k', v') :: set_attr k v r'
  end.

Fixpoint eval_operand (item values : Row) (o : operand) : Outcome PyVal :=
  match o with
  | OPath p =>
      match assoc p item with
      | Some v => Return v
      | None => validation "The provided expression refers to an attribute that does not exist in the item"
      end
  | OValue n =>
      match assoc n values with
      | Some v => Return v
      | None => validation "An expression attribute value used in expression is not defined"
      end
  | OIfNotExists p o' =>
      match assoc p item with
      | Some v => Return v
      | None => eval_operand item values o'
      end
  end.

Definition eval_set_value (item values : Row) (v : set_value) : Outcome PyVal :=
  match v with
  | SOperand o => eval_operand item values o
  | SPlus a b =>
      obind (eval_operand item values a) (fun x =>
      obind (eval_operand item values b) (fun y => number_add x y))
  | SMinus a b =>
      obind (eval_operand item values a) (fun x =>
      obind (eval_operand item values b) (fun y => number_add x (number_neg y)))
  end.

(** All values are computed on the item as it was before the update. *)
Definition apply_update (item values : Row) (acts : list (string * set_value))
  : Outcome Row :=
  obind (omap_values (eval_set_value item values) acts) (fun sets =>
  Return (fold_left (fun r kv => set_attr (fst kv) (snd kv) r) sets item)).

Definition eval_condition (values : Row) (c : condition) (item : Row) : bool :=
  match c with
  | CExists p => match assoc p item with Some _ => true | None => false end
  | CNotExists p => match assoc p item with Some _ => false | None => true end
  | CEq a b =>
      match eval_operand item values a, eval_operand item values b with
      | Return x, Return y => attr_eqb x y
      | _, _ => false
      end
  end.

(** The serialized key argument and its key string. *)
Definition key_of (arg : option PyVal) : Outcome (Row * string) :=
  match arg with
  | Some key =>
      obind (serialize key) (fun key' =>
      match key' with
      | VDict kvs =>
          match row_key kvs with
          | Some k => Return (kvs, k)
          | None => validation "The provided key element does not match the schema"
          end
      | _ => validation "The provided key element does not match the schema"
      end)
  | None => validation "Missing required parameter"
  end.

Definition values_of (arg : option PyVal) : Outcome Row :=
  match arg with
  | Some v =>
      obind (serialize v) (fun v' =>
      match v' with
      | VDict kvs => Return kvs
      | _ => validation "Invalid type for parameter ExpressionAttributeValues"
      end)
  | None => Return []
  end.

Definition scan_page (args : gmap string PyVal) (rows : list Row) : Outcome PyVal :=
  obind (values_of (args !! "ExpressionAttributeValues")) (fun values =>
  obind (match args !! "FilterExpression" with
         | None => Return (fun _ : Row => true)
         | Some (VStr expr) =>
             match parse_condition expr with
             | Some c => Return (eval_condition values c)
             | None => validation "Invalid FilterExpression"
             end
         | Some _ => validation "Invalid FilterExpression"
         end) (fun keep =>
  obind (match args !! "ExclusiveStartKey" with
         | None => Return rows
         | Some key => obind (key_of (Some key)) (fun kk => Return (rows_after (snd kk) rows))
         end) (fun pending =>
  let evaluated := firstn page_size pending in
  let items := ("Items", VList (map VDict (List.filter keep evaluated))) in
  match skipn page_size pending, row_key (List.last evaluated []) with
  | _ :: _, Some k =>
      Return (VDict [items; ("LastEvaluatedKey", VDict [(hash_key, VStr k)])])
  | _, _ => Return (VDict [items])
  end))).

(** The table service. *)
Definition table_service : Service (list Row) :=
  fun op args rows =>
    if String.eqb op "get_item" then
      match key_of (args !! "Key") with
      | Raise e => (Raise e, rows)
      | Return (_, k) =>
          match lookup_row k rows with
          | Some r => (Return (VDict [("Item", VDict r)]), rows)
          | None => (Return (VDict []), rows)
          end
      end
    else if String.eqb op "put_item" then
      match values_of (args !! "Item") with
      | Raise e => (Raise e, rows)
      | Return item =>
          match row_key item with
          | Some k => (Return (VDict []), store_row k item rows)
          | None => (validation "Missing the key in the item", rows)
          end
      end
    else if String.eqb op "delete_item" then
      match key_of (args !! "Key") with
      | Raise e => (Raise e, rows)
      | Return (_, k) => (Return (VDict []), remove_row k rows)
      end
    else if String.eqb op "update_item" then
      match key_of (args !! "Key"), values_of (args !! "ExpressionAttributeValues"),
            args !! "UpdateExpression" with
      | Raise e, _, _ | Return _, Raise e, _ => (Raise e, rows)
      | Return (key, k), Return values, Some (VStr expr) =>
          match parse_update expr with
          | None => (validation "Invalid UpdateExpression", rows)
          | Some acts =>
              let item := match lookup_row k rows with Some r => r | None => key end in
              match apply_update item values acts with
              | Raise e => (Raise e, rows)
              | Return item' => (Return (VDict []), store_row k item' rows)
              end
          end
      | _, _, _ => (validation "Invalid UpdateExpression", rows)
      end
    else if String.eqb op "scan" then (scan_page args rows, rows)
    else (Raise (Exn AttributeError op), rows).

End Table.

(** Every row has a key, and no two rows have the same one. *)
Definition well_keyed (rows : list Row) : Prop :=
  Forall (fun r => row_key "id" r <> None) rows
  /\ List.NoDup (map (row_key "id") rows).

(** The response to a scan request without a filter that has the rows
    [pending] left to evaluate. *)
Definition page_response (page_size : nat) (pending : list Row) : PyVal :=
  let evaluated := firstn page_size pending in
  let items := ("Items", VList (map VDict evaluated)) in
  match skipn page_size pending, row_key "id" (List.last evaluated []) with
  | _ :: _, Some k => VDict [items; ("LastEvaluatedKey", VDict [("id", VStr k)])]
  | _, _ => VDict [items]
  end.

(** Three suppliers; the second one has no [flag] attribute. *)
Definition sample_rows : list Row :=
  [ [("id", VStr "a"); ("flag", VBool true); ("rating", VDecimal (DFinite false 40 (-1)))];
    [("id", VStr "b"); ("rating", VDecimal (DFinite false 25 (-1)))];
    [("id", VStr "c"); ("flag", VBool true)] ].

(** A row of the inventory table: the key and a quantity. *)
Definition stock_row (key : string) (q : Z) : Row :=
  [("id", VStr key); ("quantity", VDecimal (Decimal_of_Z q))].

End DynamoModel.

(** ** aws_s3.py *)

Module S3.
Import Py.

Record S3Manager := MkS3Manager {
  bucket_name : string;
  region_name : PyVal
}.

Section Manager.
Context {R : Type}.
(** [boto3.client("s3", ...)] and the client's operations. *)
Variable s3 : Service R.

Definition is_ClientError (e : exn) : bool := isinstance_exn e ClientError.

(** The [Name] of every bucket of the listing:
    [[b['Name'] for b in buckets]]. *)
Definition bucket_names (buckets : PyVal) : Outcome (list PyVal) :=
  obind (py_iter buckets) (omap_list (fun b => dict_item b "Name")).

(** [S3Manager._ensure_bucket_exists] *)
Definition _ensure_bucket_exists (self : S3Manager) : M R unit :=
  try_except
    (do response <- remote_call s3 "list_buckets" ∅;
     do existing_buckets <-
       lift (obind (dict_get response "Buckets" (VList [])) bucket_names);
     if negb (list_contains existing_buckets (VStr (bucket_name self))) then
       do_ print ("Bucket '" +:+ bucket_name self +:+ "' not found. Creating it...");
       do _ <-
         (if py_eq (region_name self) (VStr "us-east-1") then
            remote_call s3 "create_bucket" {[ "Bucket" := VStr (bucket_name self) ]}
          else
            remote_call s3 "create_bucket"
              {[ "Bucket" := VStr (bucket_name self);
                 "CreateBucketConfiguration" :=
                   VDict [("LocationConstraint", region_name self)] ]});
       print ("Bucket '" +:+ bucket_name self +:+ "' created successfully.")
     else ret tt)
    is_ClientError
    (fun e =>
       do_ print ("Error ensuring bucket existence: " +:+ exn_msg e);
       raise e).

(** [S3Manager.__init__(bucket_name, region_name)] *)
Definition __init__ (bucket_name region_name : PyVal) : M R S3Manager :=
  match bucket_name with
  | VStr name =>
      if negb (truthy (VStr (strip name))) then
        raise (Exn ValueError "S3Manager: A valid S3 bucket name (string) must be provided.")
      else
        let self := MkS3Manager (strip name) (py_or region_name (VStr "us-east-1")) in
        do _ <- remote_call s3 "boto3.client"
                  {[ "service_name" := VStr "s3"; "region_name" := S3.region_name self ]};
        do_ _ensure_bucket_exists self;
        ret self
  | _ =>
      raise (Exn ValueError "S3Manager: A valid S3 bucket name (string) must be provided.")
  end.

End Manager.
End S3.

(** ** aws_lambda.py *)

Module Lambda.
Import Py.

Section Invoker.
Context {R : Type}.
(** [self.lambda_client] *)
Variable lambda_client : Service R.

(** [LambdaInvoker.invoke_function] *)
Definition invoke_function (function_name : string) (payload invocation_type : PyVal)
  : M R PyVal :=
  try_except
    (do body <- lift (json_dumps payload);
     do response <- remote_call lambda_client "invoke"
                      {[ "FunctionName" := VStr function_name;
                         "InvocationType" := invocation_type;
                         "Payload" := VBytes body ]};
     do_ print (" Invoked Lambda: " +:+ function_name);
     ret response)
    (fun e => isinstance_exn e ClientError)
    (fun e =>
       do_ print (" Lambda invocation failed: " +:+ exn_msg e);
       ret VNone).

End Invoker.
End Lambda.

(** ** aws_sns.py *)

Module SNS.
Import Py.

(** The manager's only attribute besides the client. *)
Record SNSManager := MkSNSManager { topic_arn : PyVal }.

Section Manager.
Context {R : Type}.
(** [self.sns_client] *)
Variable sns_client : Service R.

Definition is_ClientError (e : exn) : bool := isinstance_exn e ClientError.

(** [SNSManager.create_topic]: returns the handle and the manager with
    its [topic_arn] set to it. *)
Definition create_topic (self : SNSManager) (topic_name : string)
  : M R (PyVal * SNSManager) :=
  try_except
    (do response <- remote_call sns_client "create_topic" {[ "Name" := VStr topic_name ]};
     do arn <- lift (dict_item response "TopicArn");
     ret (arn, MkSNSManager arn))
    is_ClientError
    (fun e => raise (Exn RuntimeError ("Error creating topic: " +:+ exn_msg e))).

(** [SNSManager.list_topics] *)
Definition list_topics (self : SNSManager) : M R (list PyVal) :=
  try_except
    (do response <- remote_call sns_client "list_topics" ∅;
     lift (obind (obind (dict_get response "Topics" (VList [])) py_iter)
             (omap_list (fun t => dict_item t "TopicArn"))))
    is_ClientError
    (fun e => raise (Exn RuntimeError ("Error listing topics: " +:+ exn_msg e))).

(** [SNSManager.subscribe] *)
Definition subscribe (self : SNSManager) (protocol endpoint filter_policy : PyVal)
  : M R PyVal :=
  if negb (truthy (topic_arn self)) then
    raise (Exn ValueError "Topic ARN not set. Set or create a topic before subscribing.")
  else
    do attributes <-
      (if truthy filter_policy then
         do policy <- lift (json_dumps filter_policy);
         ret [("FilterPolicy", VStr policy)]
       else ret []);
    try_except
      (do response <- remote_call sns_client "subscribe"
                        {[ "TopicArn" := topic_arn self;
                           "Protocol" := protocol;
                           "Endpoint" := endpoint;
                           "Attributes" := VDict attributes;
                           "ReturnSubscriptionArn" := VBool true ]};
       lift (dict_item response "SubscriptionArn"))
      is_ClientError
      (fun e => raise (Exn RuntimeError ("Error subscribing endpoint: " +:+ exn_msg e))).

(** [SNSManager.list_subscriptions] *)
Definition list_subscriptions (self : SNSManager) : M R PyVal :=
  if negb (truthy (topic_arn self)) then raise (Exn ValueError "Topic ARN not set.")
  else
    try_except
      (do response <- remote_call sns_client "list_subscriptions_by_topic"
                        {[ "TopicArn" := topic_arn self ]};
       lift (dict_get response "Subscriptions" (VList [])))
      is_ClientError
      (fun e => raise (Exn RuntimeError ("Error listing subscriptions: " +:+ exn_msg e))).

(** [SNSManager.publish_message] *)
Definition publish_message (self : SNSManager) (subject message message_attributes : PyVal)
  : M R PyVal :=
  if negb (truthy (topic_arn self)) then raise (Exn ValueError "Topic ARN not set.")
  else
    let params : gmap string PyVal :=
      {[ "TopicArn" := topic_arn self; "Subject" := subject; "Message" := message ]} in
    let params :=
      if truthy message_attributes then <[ "MessageAttributes" := message_attributes ]> params
      else params in
    try_except
      (remote_call sns_client "publish" params)
      is_ClientError
      (fun e => raise (Exn RuntimeError ("Failed to send SNS message: " +:+ exn_msg e))).

(** [SNSManager.send_low_stock_alert], for a product name and an
    integer quantity. *)
Definition send_low_stock_alert (self : SNSManager) (product_name : string) (quantity : Z)
  : M R PyVal :=
  let message :=
    "Product '" +:+ product_name +:+ "' is below the reorder level ("
      +:+ string_of_Z quantity +:+ " left)." in
  publish_message self (VStr "Low Stock Alert") (VStr message) VNone.

(** The [for sub in existing] loop of [ensure_customer_subscription]:
    the handle of the first subscription whose endpoint equals the
    address, if there is one. *)
Fixpoint find_subscription (customer_email : PyVal) (existing : list PyVal)
  : Outcome (option PyVal) :=
  match existing with
  | [] => Return None
  | sub :: rest =>
      obind (dict_get sub "Endpoint" VNone) (fun endpoint =>
      if py_eq endpoint customer_email then
        obind (dict_get sub "SubscriptionArn" VNone) (fun arn => Return (Some arn))
      else find_subscription customer_email rest)
  end.

(** [SNSManager.ensure_customer_subscription] *)
Definition ensure_customer_subscription (self : SNSManager) (customer_email : string)
  : M R PyVal :=
  if negb (truthy (topic_arn self)) then raise (Exn ValueError "Topic ARN not set.")
  else
    do existing <- list_subscriptions self;
    do found <- lift (obind (py_iter existing) (find_subscription (VStr customer_email)));
    match found with
    | Some arn => ret arn
    | None =>
        let filter_policy := VDict [("customer_email", VList [VStr customer_email])] in
        subscribe self (VStr "email") (VStr customer_email) filter_policy
    end.

End Manager.
End SNS.

(** ** A reference model of an SNS endpoint

    The service keeps the topics and the subscriptions in creation
    order.  [create_topic] and [subscribe] are idempotent, as the
    service's are: a topic of the name, or a subscription of the topic
    with the protocol and the endpoint, is returned when there is one and
    created when there is none.  A listing returns at most 100 entries
    and, when entries are left, a [NextToken] to ask for the next page
    with. *)

Module SNSModel.
Import Py.

Record State := MkState {
  topics : list string;
  subscriptions : list (list (string * PyVal));
  counter : N
}.

Definition service_error {A} (msg : string) : Outcome A :=
  Raise (Exn ClientError msg).

Definition topic_arn_of (name : string) : string := "arn:aws:sns:us-east-1:000000000000:" +:+ name.

Definition of_topic (topic : PyVal) (sub : list (string * PyVal)) : bool :=
  match assoc "TopicArn" sub with
  | Some t => py_eq t topic
  | None => false
  end.

(** The subscription that the [n]-th request creates; its handle is the
    topic's, extended by [n]. *)
Definition make_subscription (topic : string) (protocol endpoint : PyVal) (n : N)
  : list (string * PyVal) :=
  [("SubscriptionArn", VStr (topic +:+ ":" +:+ string_of_N n));
   ("Protocol", protocol); ("Endpoint", endpoint); ("TopicArn", VStr topic)].

(** [sub.get("SubscriptionArn")] *)
Definition handle (sub : list (string * PyVal)) : PyVal :=
  match assoc "SubscriptionArn" sub with
  | Some arn => arn
  | None => VNone
  end.

(** The subscription is the one of the topic for the protocol and the
    endpoint. *)
Definition subscribed (topic : string) (protocol endpoint : PyVal)
    (sub : list (string * PyVal)) : bool :=
  of_topic (VStr topic) sub
  && match assoc "Protocol" sub with Some p => py_eq p protocol | None => false end
  && match assoc "Endpoint" sub with Some e => py_eq e endpoint | None => false end.

(** *** Pages *)

Definition page_size : nat := 100.

(** The position that the [NextToken] of a request stands for: the
    start without a token. *)
Definition position (token : option PyVal) : Outcome nat :=
  match token with
  | None => Return O
  | Some (VStr t) =>
      if negb (String.length t =? 0)%nat && all_digits t
      then Return (N.to_nat (digits_val 0 t))
      else service_error "InvalidParameter: Invalid parameter: NextToken"
  | Some _ => Raise (Exn BotoCoreError "ParamValidationError")
  end.

(** One page of a listing: the entries from the position on, 100 at
    most, under [name], and the token of the next page when entries are
    left. *)
Definition page (name : string) (start : nat) (entries : list PyVal) : PyVal :=
  let pending := skipn start entries in
  VDict ((name, VList (firstn page_size pending))
           :: match skipn page_size pending with
              | [] => []
              | _ :: _ =>
                  [("NextToken", VStr (string_of_N (N.of_nat (start + page_size))))]
              end).

Definition sns_service : Service State :=
  fun op args st =>
    if String.eqb op "create_topic" then
      match args !! "Name" with
      | Some (VStr name) =>
          (Return (VDict [("TopicArn", VStr (topic_arn_of name))]),
           if existsb (String.eqb (topic_arn_of name)) (topics st) then st
           else MkState (topics st ++ [topic_arn_of name]) (subscriptions st) (counter st))
      | _ => (service_error "InvalidParameter", st)
      end
    else if String.eqb op "list_topics" then
      match position (args !! "NextToken") with
      | Return start =>
          (Return (page "Topics" start
                     (map (fun t => VDict [("TopicArn", VStr t)]) (topics st))), st)
      | Raise e => (Raise e, st)
      end
    else if String.eqb op "subscribe" then
      match args !! "TopicArn", args !! "Protocol", args !! "Endpoint" with
      | Some (VStr topic), Some protocol, Some endpoint =>
          match List.find (subscribed topic protocol endpoint) (subscriptions st) with
          | Some sub => (Return (VDict [("SubscriptionArn", handle sub)]), st)
          | None =>
              let sub := make_subscription topic protocol endpoint (counter st) in
              (Return (VDict [("SubscriptionArn", handle sub)]),
               MkState (topics st) (subscriptions st ++ [sub]) (counter st + 1))
          end
      | _, _, _ => (service_error "InvalidParameter", st)
      end
    else if String.eqb op "list_subscriptions_by_topic" then
      match args !! "TopicArn", position (args !! "NextToken") with
      | Some topic, Return start =>
          (Return (page "Subscriptions" start
                     (map VDict (List.filter (of_topic topic) (subscriptions st)))), st)
      | Some _, Raise e => (Raise e, st)
      | None, _ => (service_error "InvalidParameter", st)
      end
    else if String.eqb op "publish" then
      (Return (VDict [("MessageId", VStr (string_of_N (counter st)))]),
       MkState (topics st) (subscriptions st) (counter st + 1))
    else (Raise (Exn AttributeError op), st).

(** The request that lists the subscriptions of a topic. *)
Definition listing_call (topic : string) : Call :=
  MkCall "list_subscriptions_by_topic" {[ "TopicArn" := VStr topic ]}.

Definition has_endpoint (email : string) (sub : list (string * PyVal)) : bool :=
  match assoc "Endpoint" sub with
  | Some e => py_eq e (VStr email)
  | None => false
  end.

(** The first subscription of the topic whose endpoint is the address. *)
Definition subscription_of (topic email : string) (st : State)
  : option (list (string * PyVal)) :=
  List.find (fun sub => of_topic (VStr topic) sub && has_endpoint email sub)
    (subscriptions st).

(** *** A topic with more subscriptions than a page holds *)

(** [n] subscriptions of the topic, for the addresses [user0@...],
    [user1@...], ... *)
Fixpoint subscribers (topic : string) (first : N) (n : nat) : list (list (string * PyVal)) :=
  match n with
  | O => []
  | S n' =>
      make_subscription topic (VStr "email")
        (VStr ("user" +:+ string_of_N first +:+ "@example.org")) first
      :: subscribers topic (first + 1) n'
  end.

(** A topic with [n] subscribers and then one more subscription, of the
    protocol [email-json], for the address of a customer. *)
Definition crowded (topic email : string) (n : nat) : State :=
  MkState [topic]
    (subscribers topic 0 n
       ++ [make_subscription topic (VStr "email-json") (VStr email) (N.of_nat n)])
    (N.of_nat n + 1).

End SNSModel.

(** ** utility.py *)

Module Utility.
Import Py.

(** [InventoryUtility.below_threshold] *)
Definition below_threshold (quantity threshold : PyVal) : Outcome bool :=
  match obind (py_int quantity) (fun q =>
        obind (py_int threshold) (fun t => Return (q <=? t))) with
  | Raise e =>
      if isinstance_exn e TypeError || isinstance_exn e ValueError then Return false
      else Raise e
  | r => r
  end.

(** The exceptions of the [except (TypeError, ValueError)] clause. *)
Definition caught (e : exn) : bool :=
  isinstance_exn e TypeError || isinstance_exn e ValueError.

End Utility.

(** ** A reference model of an S3 endpoint: the names of the buckets. *)

Module S3Model.
Import Py.

Definition s3_service : Service (list string) :=
  fun op args buckets =>
    if String.eqb op "boto3.client" then (Return VNone, buckets)
    else if String.eqb op "list_buckets" then
      (Return (VDict [("Buckets", VList (map (fun b => VDict [("Name", VStr b)]) buckets))]),
       buckets)
    else if String.eqb op "create_bucket" then
      match args !! "Bucket" with
      | Some (VStr b) =>
          if existsb (String.eqb b) buckets then
            (Raise (Exn ClientError "BucketAlreadyOwnedByYou"), buckets)
          else (Return (VDict [("Location", VStr ("/" +:+ b))]), buckets ++ [b])
      | _ => (Raise (Exn BotoCoreError "ParamValidationError"), buckets)
      end
    else (Raise (Exn ClientError "NotImplemented"), buckets).

End S3Model.

(** ** Reference models of a Lambda endpoint

    The state is the list of accepted invocations (function name and
    payload).  The second service cannot be reached: every request fails
    in the client library with an EndpointConnectionError. *)

Module LambdaModel.
Import Py.

Definition lambda_service : Service (list (PyVal * PyVal)) :=
  fun op args log =>
    if String.eqb op "invoke" then
      match args !! "FunctionName", args !! "Payload" with
      | Some (VStr name), Some payload =>
          if String.eqb name "" then
            (Raise (Exn ClientError "ResourceNotFoundException"), log)
          else (Return (VDict [("StatusCode", VInt 202)]), log ++ [(VStr name, payload)])
      | _, _ => (Raise (Exn BotoCoreError "ParamValidationError"), log)
      end
    else (Raise (Exn AttributeError op), log).

Definition unreachable_service : Service (list (PyVal * PyVal)) :=
  fun op args log => (Raise (Exn BotoCoreError "EndpointConnectionError"), log).

End LambdaModel.

(** ** Vocabulary of the statements *)

Module Numeric.
Import Py.

(** A finite decimal that [value % 1] can handle in the default
    context: its exponent is not below the least exponent of the context
    and its magnitude is below [10^28]. *)
Definition in_range (d : Decimal) : bool :=
  match d with
  | DFinite _ c e =>
      (ctx_Etiny <=? e)
      && (if 0 <=? e then Z.of_N c * 10 ^ e <? 10 ^ 28 else Z.of_N c <? 10 ^ (28 - e))
  | _ => false
  end.




(** A finite decimal without a fractional part. *)
Definition integral (d : Decimal) : bool :=
  match d with
  | DFinite _ c e => if 0 <=? e then true else (Z.of_N c mod 10 ^ (- e) =? 0)
  | _ => false
  end.




(** *** Decimal literals and exact values *)











(** Some binary64 values. *)
Definition f_1e23 : float := S754_finite false 5960464477539062 24.
Definition f_1e30 : float := S754_finite false 7105427357601002 47.
Definition f_4 : float := S754_finite false 4503599627370496 (-50).
Definition f_2_5 : float := S754_finite false 5629499534213120 (-51).
Definition f_0_1 : float := S754_finite false 7205759403792794 (-56).

(** An item with floats at the top, in a list and in a nested dict. *)
Definition sample_item : list (string * PyVal) :=
  [("sku", VStr "A-17"); ("price", VFloat f_2_5); ("units", VFloat f_4);
   ("ratios", VList [VFloat f_0_1; VInt 3]);
   ("box", VDict [("mass", VFloat f_1e23); ("fragile", VBool true)])].

End Numeric.

(** ** aws_dynamodb.py: the callers of the table operations *)

Module Managers.
Import Py DynamoDB.

Section Managers.
Context {R : Type}.
Variable table : Service R.

(** The comprehension [[m for m in items if m.get("supplier_id") ==
    supplier_id]] of [list_for_supplier]. *)
Fixpoint select_supplier (supplier_id : PyVal) (items : list PyVal)
  : Outcome (list PyVal) :=
  match items with
  | [] => Return []
  | m :: rest =>
      obind (dict_get m "supplier_id" VNone) (fun s =>
      obind (select_supplier supplier_id rest) (fun r =>
      Return (if py_eq s supplier_id then m :: r else r)))
  end.

(** [RawMaterialManager.list_for_supplier] *)
Definition list_for_supplier (fuel : nat) (supplier_id : string) (w : World R)
  : option (Outcome (list PyVal) * World R) :=
  match scan_table table "RawMaterials" fuel ∅ w with
  | Some (Return items, w') => Some (select_supplier (VStr supplier_id) items, w')
  | r => r
  end.

(** [SupplierManager.list_active] *)
Definition list_active (fuel : nat) (w : World R)
  : option (Outcome (list PyVal) * World R) :=
  scan_table table "Suppliers" fuel ∅ w.

(** [PurchaseOrderManager.get_item] and [PurchaseOrderManager.delete_item] *)
Definition purchase_order_get_item (po_id : string) : M R PyVal :=
  get_item table "PurchaseOrders" (VDict [("po_id", VStr po_id)]).

Definition purchase_order_delete_item (po_id : string) : M R unit :=
  delete_item table "PurchaseOrders" (VDict [("po_id", VStr po_id)]).

(** The calls [add_stock(distributor_id, product_id, q)] for the [q] of
    [quantities], one after the other. *)
Fixpoint add_stock_all (distributor_id product_id : string) (quantities : list Z)
  : M R unit :=
  match quantities with
  | [] => ret tt
  | q :: rest =>
      do_ add_stock table distributor_id product_id (VInt q);
      add_stock_all distributor_id product_id rest
  end.

End Managers.

(** The item is a dict whose [supplier_id] equals the identifier. *)
Definition of_supplier (supplier_id : string) (m : PyVal) : bool :=
  match m with
  | VDict kvs =>
      match assoc "supplier_id" kvs with
      | Some s => py_eq s (VStr supplier_id)
      | None => false
      end
  | _ => false
  end.

Definition is_dict (v : PyVal) : bool :=
  match v with
  | VDict _ => true
  | _ => false
  end.

(** The character [#] occurs in the string. *)
Fixpoint has_hash (s : string) : bool :=
  match s with
  | EmptyString => false
  | String c s' => Ascii.eqb c "#" || has_hash s'
  end.

(** No float is reachable through dicts and lists. *)
Fixpoint float_free (v : PyVal) : bool :=
  match v with
  | VFloat _ => false
  | VList l => forallb float_free l
  | VDict kvs => forallb (fun kv => float_free (snd kv)) kvs
  | _ => true
  end.

(** No Decimal is reachable through dicts and lists. *)
Fixpoint decimal_free (v : PyVal) : bool :=
  match v with
  | VDecimal _ => false
  | VList l => forallb decimal_free l
  | VDict kvs => forallb (fun kv => decimal_free (snd kv)) kvs
  | _ => true
  end.

(** The names of the attributes of an item, in order. *)
Definition keys (item : PyVal) : list string :=
  match item with
  | VDict kvs => map fst kvs
  | _ => []
  end.

(** Every Decimal reachable through dicts and lists is in the range of
    the read-side converter. *)
Fixpoint decimals_in_range (v : PyVal) : bool :=
  match v with
  | VDecimal d => Numeric.in_range d
  | VList l => forallb decimals_in_range l
  | VDict kvs => forallb (fun kv => decimals_in_range (snd kv)) kvs
  | _ => true
  end.

(** Starting from the quantity [q0], every increment and every quantity
    reached has at most 38 digits. *)
Fixpoint bookable (q0 : Z) (quantities : list Z) : bool :=
  match quantities with
  | [] => true
  | q :: rest =>
      DynamoModel.storable q && DynamoModel.storable (q0 + q) && bookable (q0 + q) rest
  end.

(** The sum of the increments. *)
Definition total (quantities : list Z) : Z := fold_right Z.add 0 quantities.

(** Raw materials of two suppliers. *)
Definition sample_materials : list DynamoModel.Row :=
  [ [("id", VStr "m1"); ("supplier_id", VStr "s1"); ("stock", VDecimal (DFinite false 120 0))];
    [("id", VStr "m2"); ("supplier_id", VStr "s2")];
    [("id", VStr "m3"); ("supplier_id", VStr "s1"); ("price", VDecimal (DFinite false 25 (-1)))] ].

End Managers.

(** ** aws_s3.py: the object operations *)

Module S3Objects.
Import Py S3.

Fixpoint has_slash (p : string) : bool :=
  match p with
  | EmptyString => false
  | String c p' => Ascii.eqb c "/" || has_slash p'
  end.

(** [os.path.basename(p)] for a [str] (posixpath): what follows the last
    slash, [p[p.rfind('/') + 1:]]. *)
Fixpoint basename (p : string) : string :=
  match p with
  | EmptyString => EmptyString
  | String c p' =>
      if has_slash p' then basename p'
      else if Ascii.eqb c "/" then p' else p
  end.

(** [str(e)]: a KeyError shows the repr of its key. *)
Definition exn_str (e : exn) : string :=
  match exn_class e with
  | KeyError => "'" +:+ exn_msg e +:+ "'"
  | _ => exn_msg e
  end.

Section Manager.
Context {R : Type}.
(** [self.s3_client] *)
Variable s3 : Service R.

(** [object_name or os.path.basename(file_path)], for an [object_name]
    that is [None] or a [str]. *)
Definition key_for (file_path : string) (object_name : option string) : string :=
  match object_name with
  | Some (String c s) => String c s
  | _ => basename file_path
  end.

(** [S3Manager.upload_file]; the positional arguments of the client's
    method are recorded under the names of its parameters. *)
Definition upload_file (self : S3Manager) (file_path : string)
    (object_name : option string) : M R unit :=
  let object_name := key_for file_path object_name in
  try_except
    (do _ <- remote_call s3 "upload_file"
               {[ "Filename" := VStr file_path;
                  "Bucket" := VStr (bucket_name self);
                  "Key" := VStr object_name ]};
     print ("File uploaded to S3: " +:+ bucket_name self +:+ "/" +:+ object_name))
    is_ClientError
    (fun e =>
       do_ print ("Upload failed: " +:+ exn_msg e);
       raise e).

(** [S3Manager.upload_fileobj] *)
Definition upload_fileobj (self : S3Manager) (file_obj : PyVal) (object_name : string)
  : M R unit :=
  try_except
    (do _ <- remote_call s3 "upload_fileobj"
               {[ "Fileobj" := file_obj;
                  "Bucket" := VStr (bucket_name self);
                  "Key" := VStr object_name ]};
     print ("File object uploaded: " +:+ bucket_name self +:+ "/" +:+ object_name))
    is_ClientError
    (fun e =>
       do_ print ("File upload failed: " +:+ exn_msg e);
       raise e).

(** [S3Manager.download_file] *)
Definition download_file (self : S3Manager) (object_name download_path : string)
  : M R unit :=
  try_except
    (do _ <- remote_call s3 "download_file"
               {[ "Bucket" := VStr (bucket_name self);
                  "Key" := VStr object_name;
                  "Filename" := VStr download_path ]};
     print ("File downloaded: " +:+ bucket_name self +:+ "/" +:+ object_name))
    is_ClientError
    (fun e =>
       do_ print ("Download failed: " +:+ exn_msg e);
       raise e).

(** The comprehension of [list_objects]:
    [[item['Key'] for item in response.get('Contents', [])]]. *)
Definition listed_keys (response : PyVal) : Outcome (list PyVal) :=
  obind (obind (dict_get response "Contents" (VList [])) py_iter)
    (omap_list (fun item => dict_item item "Key")).

(** [S3Manager.list_objects]; [self.bucket_name] is a [str] here, so the
    [isinstance] test of the guard holds. *)
Definition list_objects (self : S3Manager) (prefix : PyVal) : M R (list PyVal) :=
  try_except
    (if negb (truthy (VStr (strip (bucket_name self)))) then
       raise (Exn ValueError "Invalid bucket name provided for list_objects().")
     else
       let prefix := py_or prefix (VStr "") in
       do response <- remote_call s3 "list_objects_v2"
                        {[ "Bucket" := VStr (bucket_name self); "Prefix" := prefix ]};
       lift (listed_keys response))
    any_Exception
    (fun e =>
       do_ print ("S3 list error: " +:+ exn_str e);
       ret []).

(** [S3Manager.delete_file] *)
Definition delete_file (self : S3Manager) (file_key : string) : M R unit :=
  try_except
    (do _ <- remote_call s3 "delete_object"
               {[ "Bucket" := VStr (bucket_name self); "Key" := VStr file_key ]};
     print ("Deleted object: " +:+ bucket_name self +:+ "/" +:+ file_key))
    is_ClientError
    (fun e =>
       do_ print ("Error deleting object: " +:+ exn_msg e);
       raise e).

(** The outcome of a method that sends the one request [call] inside
    [try] and re-raises: [done] is printed after a response; an
    exception of the request reaches the caller, after the line [failed]
    and its message when it is a ClientError and without a line
    otherwise. *)
Definition reraised (call : Call) (done failed : string) (w : World R)
    (res : Outcome unit * World R) : Prop :=
  match s3 (call_op call) (call_args call) (remote w) with
  | (Return _, r) =>
      res = (Return tt, MkWorld r (trace w ++ [call]) (stdout w ++ [done]))
  | (Raise e, r) =>
      res = (Raise e,
             MkWorld r (trace w ++ [call])
               (if is_ClientError e then stdout w ++ [failed +:+ exn_msg e] else stdout w))
  end.

End Manager.
End S3Objects.

(** ** A reference model of the objects of an S3 endpoint

    The state is the list of the stored objects, each a bucket and a key;
    every bucket named in a request exists.  An upload under a key that
    is stored already replaces the object, deleting a key that is not
    stored succeeds.  A listing returns the keys in the order of their
    code points, 1000 at most, tells whether keys are left, and has no
    [Contents] when there is no key to return. *)

Module S3ObjectModel.
Import Py.

Definition Store : Type := list (string * string).

Definition same (b k : string) (o : string * string) : bool :=
  String.eqb b (fst o) && String.eqb k (snd o).

Definition stored (b k : string) (st : Store) : bool := existsb (same b k) st.

Definition put_object (b k : string) (st : Store) : Store :=
  if stored b k st then st else st ++ [(b, k)].

Definition remove_object (b k : string) (st : Store) : Store :=
  List.filter (fun o => negb (same b k o)) st.

(** The keys in order. *)
Fixpoint insert_key (k : string) (l : list string) : list string :=
  match l with
  | [] => [k]
  | k' :: l' => if String.leb k k' then k :: l else k' :: insert_key k l'
  end.

Definition sort_keys (l : list string) : list string := fold_right insert_key [] l.

(** The keys of the bucket that start with the prefix, in order. *)
Definition keys_of (b p : string) (st : Store) : list string :=
  sort_keys
    (map snd (List.filter (fun o => String.eqb b (fst o) && String.prefix p (snd o)) st)).

(** The number of keys that one response holds at most. *)
Definition max_keys : nat := 1000.

Definition object_service : Service Store :=
  fun op args st =>
    if String.eqb op "upload_file" || String.eqb op "upload_fileobj" then
      match args !! "Bucket", args !! "Key" with
      | Some (VStr b), Some (VStr k) => (Return VNone, put_object b k st)
      | _, _ => (Raise (Exn BotoCoreError "ParamValidationError"), st)
      end
    else if String.eqb op "download_file" then
      match args !! "Bucket", args !! "Key" with
      | Some (VStr b), Some (VStr k) =>
          if stored b k st then (Return VNone, st)
          else (Raise (Exn ClientError "An error occurred (404) when calling the HeadObject operation: Not Found"), st)
      | _, _ => (Raise (Exn BotoCoreError "ParamValidationError"), st)
      end
    else if String.eqb op "list_objects_v2" then
      match args !! "Bucket", args !! "Prefix" with
      | Some (VStr b), Some (VStr p) =>
          let ks := keys_of b p st in
          let truncated := (max_keys <? length ks)%nat in
          match firstn max_keys ks with
          | [] => (Return (VDict [("KeyCount", VInt 0); ("IsTruncated", VBool false)]), st)
          | first =>
              (Return (VDict [("Contents", VList (map (fun k => VDict [("Key", VStr k)]) first));
                              ("KeyCount", VInt (Z.of_nat (length first)));
                              ("IsTruncated", VBool truncated)]), st)
          end
      | _, _ => (Raise (Exn BotoCoreError "ParamValidationError"), st)
      end
    else if String.eqb op "delete_object" then
      match args !! "Bucket", args !! "Key" with
      | Some (VStr b), Some (VStr k) => (Return (VDict []), remove_object b k st)
      | _, _ => (Raise (Exn BotoCoreError "ParamValidationError"), st)
      end
    else (Raise (Exn AttributeError op), st).

End S3ObjectModel.

(** * Properties *)

(** ** Python values *)

Module PyProps.
Import Py.

(** Induction over values that reaches the elements of lists, tuples and
    dicts. *)
Lemma PyVal_nested_ind (P : PyVal -> Prop) :
  P VNone ->
  (forall b, P (VBool b)) ->
  (forall n, P (VInt n)) ->
  (forall f, P (VFloat f)) ->
  (forall d, P (VDecimal d)) ->
  (forall s, P (VStr s)) ->
  (forall s, P (VBytes s)) ->
  (forall l, Forall P l -> P (VList l)) ->
  (forall l, Forall P l -> P (VTuple l)) ->
  (forall kvs, Forall (fun kv => P (snd kv)) kvs -> P (VDict kvs)) ->
  forall v, P v.
Proof.
  intros HNone HBool HInt HFloat HDec HStr HBytes HList HTuple HDict.
  fix IH 1. intros [| b | n | f | d | s | s | l | l | kvs].
  - exact HNone.
  - apply HBool.
  - apply HInt.
  - apply HFloat.
  - apply HDec.
  - apply HStr.
  - apply HBytes.
  - apply HList. induction l as [| x l IHl]; constructor; [apply IH | exact IHl].
  - apply HTuple. induction l as [| x l IHl]; constructor; [apply IH | exact IHl].
  - apply HDict. induction kvs as [| [k x] kvs IHl]; constructor; [apply IH | exact IHl].
Qed.

(** [json.dumps] raises nothing but TypeError. *)
Lemma json_dumps_raises v e : json_dumps v = Raise e -> exn_class e = TypeError.
Proof.
  revert e. induction v as [| b | n | f | d | s | s | l IH | l IH | kvs IH]
    using PyVal_nested_ind; intros e; simpl; try discriminate;
    try (intros [= <-]; reflexivity).
  - assert (Hel : forall first e',
        (fix elems (first : bool) (l : list PyVal) : Outcome string :=
           match l with
           | [] => Return EmptyString
           | x :: l' =>
               obind (json_dumps x) (fun sx =>
               obind (elems false l') (fun sl =>
               Return ((if first then "" else ", ") +:+ sx +:+ sl)))
           end) first l = Raise e' -> exn_class e' = TypeError).
    { induction IH as [| x l Hx _ IHl]; intros first e'; [discriminate|].
      destruct (json_dumps x) eqn:Ex; simpl; [|intros [= <-]; eauto].
      match goal with |- obind ?m _ = _ -> _ => destruct m eqn:El end; simpl;
        [discriminate | intros [= <-]; eauto]. }
    match goal with |- obind ?m _ = _ -> _ => destruct m eqn:El end; simpl;
      [discriminate | intros [= <-]; eauto].
  - assert (Hel : forall first e',
        (fix elems (first : bool) (l : list PyVal) : Outcome string :=
           match l with
           | [] => Return EmptyString
           | x :: l' =>
               obind (json_dumps x) (fun sx =>
               obind (elems false l') (fun sl =>
               Return ((if first then "" else ", ") +:+ sx +:+ sl)))
           end) first l = Raise e' -> exn_class e' = TypeError).
    { induction IH as [| x l Hx _ IHl]; intros first e'; [discriminate|].
      destruct (json_dumps x) eqn:Ex; simpl; [|intros [= <-]; eauto].
      match goal with |- obind ?m _ = _ -> _ => destruct m eqn:El end; simpl;
        [discriminate | intros [= <-]; eauto]. }
    match goal with |- obind ?m _ = _ -> _ => destruct m eqn:El end; simpl;
      [discriminate | intros [= <-]; eauto].
  - assert (Hel : forall first e',
        (fix members (first : bool) (l : list (string * PyVal)) : Outcome string :=
           match l with
           | [] => Return EmptyString
           | (k, x) :: l' =>
               obind (json_dumps x) (fun sx =>
               obind (members false l') (fun sl =>
               Return ((if first then "" else ", ") +:+ json_string k +:+ ": " +:+ sx +:+ sl)))
           end) first kvs = Raise e' -> exn_class e' = TypeError).
    { induction IH as [| [k x] l Hx _ IHl]; intros first e'; [discriminate|].
      simpl in Hx.
      destruct (json_dumps x) eqn:Ex; simpl; [|intros [= <-]; eauto].
      match goal with |- obind ?m _ = _ -> _ => destruct m eqn:El end; simpl;
        [discriminate | intros [= <-]; eauto]. }
    match goal with |- obind ?m _ = _ -> _ => destruct m eqn:El end; simpl;
      [discriminate | intros [= <-]; eauto].
Qed.

(** The model of [repr], [Decimal], [float] and [int] on some values
    (the right-hand sides are what CPython 3.11 prints). *)
Example float_repr_examples :
  float_repr Numeric.f_0_1 = "0.1"
  /\ float_repr Numeric.f_4 = "4.0"
  /\ float_repr Numeric.f_1e23 = "1e+23"
  /\ float_repr (S754_finite true 5629499534213120 (-51)) = "-2.5"
  /\ float_repr (S754_finite false 5000000000000000 1) = "1e+16"
  /\ float_repr (S754_finite false 5902958103587057 (-69)) = "1e-05"
  /\ float_repr (S754_finite false 9007199254740991 (-2)) = "2251799813685247.8"
  /\ float_repr (S754_finite false 1 (-1074)) = "5e-324"
  /\ float_repr (S754_zero true) = "-0.0".
Proof. vm_compute. repeat split; reflexivity. Qed.

Example Decimal_of_string_examples :
  Decimal_of_string "1e+23" = Return (DFinite false 1 23)
  /\ Decimal_of_string "4.0" = Return (DFinite false 40 (-1))
  /\ Decimal_of_string " 1_0.5 " = Return (DFinite false 105 (-1))
  /\ Decimal_of_string "-inf" = Return (DInfinity true)
  /\ raises (Decimal_of_string ".") = true.
Proof. vm_compute. repeat split; reflexivity. Qed.

Example float_of_Decimal_examples :
  float_of_Decimal (DFinite false 1 (-1)) = Numeric.f_0_1
  /\ float_of_Decimal (DFinite false 1 23) = Numeric.f_1e23
  /\ float_of_Z (10 ^ 23) = Return Numeric.f_1e23
  /\ float_of_Decimal (DFinite false 1 400) = S754_infinity false.
Proof. vm_compute. repeat split; reflexivity. Qed.

Example py_int_examples :
  py_int (VStr " -1_2 ") = Return (-12)
  /\ py_int (VFloat (S754_finite true 5629499534213120 (-51))) = Return (-2)
  /\ py_int (VDecimal (DFinite false 25 (-1))) = Return 2
  /\ raises (py_int (VStr "1__2")) = true
  /\ raises (py_int VNone) = true.
Proof. vm_compute. repeat split; reflexivity. Qed.

Example Decimal_mod_examples :
  Decimal_mod (DFinite false 25 (-1)) (Decimal_of_Z 1) = Return (DFinite false 5 (-1))
  /\ Decimal_mod (DFinite true 40 (-1)) (Decimal_of_Z 1) = Return (DFinite true 0 (-1))
  /\ Decimal_mod (DFinite false 9 27) (Decimal_of_Z 1) = Return (DFinite false 0 0)
  /\ Decimal_mod DNaN (Decimal_of_Z 1) = Return DNaN
  /\ raises (Decimal_mod (DInfinity false) (Decimal_of_Z 1)) = true.
Proof. vm_compute. repeat split; reflexivity. Qed.

End PyProps.

(** ** utility.py *)

Module UtilityProps.
Import Py Utility.

Lemma int_of_string_raises space s e :
  int_of_string space s = Raise e -> exn_class e = ValueError.
Proof.
  unfold int_of_string, invalid_literal.
  destruct (split_sign _) as [sign body].
  destruct (int_digits false body) as [ds|]; [|intros [= <-]; reflexivity].
  destruct (int_max_str_digits <? String.length ds)%nat; intros [= <-]; reflexivity.
Qed.

(** [int()] raises nothing but TypeError, ValueError and OverflowError. *)
Lemma py_int_raises v e :
  py_int v = Raise e ->
  caught e = true \/ exn_class e = OverflowError.
Proof.
  destruct v as [| b | n | f | d | s | s | l | l | kvs]; simpl;
    try discriminate; try (intros [= <-]; left; reflexivity).
  - destruct f as [sg | sg | | sg m ex]; simpl; try discriminate;
      intros [= <-]; [right | left]; reflexivity.
  - destruct d as [sg c ex | sg |]; simpl; try discriminate;
      intros [= <-]; [right | left]; reflexivity.
  - intros H; left. apply int_of_string_raises in H.
    unfold caught, isinstance_exn. rewrite H. reflexivity.
  - intros H; left. apply int_of_string_raises in H.
    unfold caught, isinstance_exn. rewrite H. reflexivity.
Qed.

(** C10 (as stated, refuted): [below_threshold(float('inf'), 1)] raises
    OverflowError, so the function is not total. *)
Lemma below_threshold_infinity_raises :
  below_threshold (VFloat (S754_infinity false)) (VInt 1)
  = Raise (Exn OverflowError "cannot convert float infinity to integer").
Proof. reflexivity. Qed.

(** C10 (amended): when both arguments coerce, the result is
    [int(quantity) <= int(threshold)]; when the first coercion that fails
    raises TypeError or ValueError, the result is [False]; the only other
    exception [int()] can raise, OverflowError (an infinite float or
    Decimal), is not caught and propagates. *)
Theorem below_threshold_outcome (quantity threshold : PyVal) :
  match py_int quantity, py_int threshold with
  | Return q, Return t => below_threshold quantity threshold = Return (q <=? t)
  | Raise e, _ | Return _, Raise e =>
      if caught e then below_threshold quantity threshold = Return false
      else below_threshold quantity threshold = Raise e
           /\ exn_class e = OverflowError
  end.
Proof.
  unfold below_threshold.
  destruct (py_int quantity) as [q | e] eqn:Hq; simpl.
  - destruct (py_int threshold) as [t | e] eqn:Ht; simpl; [reflexivity|].
    fold (caught e). destruct (caught e) eqn:Hc; [reflexivity|].
    split; [reflexivity|].
    destruct (py_int_raises _ _ Ht) as [H | H]; [congruence | exact H].
  - fold (caught e). destruct (caught e) eqn:Hc; [reflexivity|].
    split; [reflexivity|].
    destruct (py_int_raises _ _ Hq) as [H | H]; [congruence | exact H].
Qed.

End UtilityProps.

(** ** aws_s3.py *)

Module S3Props.
Import Py S3.

Lemma lstrip_all_space s : all_space s = true -> lstrip_with isspace s = EmptyString.
Proof.
  induction s as [| c s IH]; simpl; [reflexivity|].
  destruct (isspace c); simpl; [exact IH | discriminate].
Qed.

Lemma strip_all_space s : all_space s = true -> strip s = EmptyString.
Proof. intros H. unfold strip. rewrite (lstrip_all_space _ H). reflexivity. Qed.

Lemma rstrip_empty s : rstrip_with isspace s = EmptyString -> all_space s = true.
Proof.
  induction s as [| c s IH]; simpl; [reflexivity|].
  destruct (rstrip_with isspace s); [|discriminate].
  destruct (isspace c); [intros _; simpl; auto | discriminate].
Qed.

Lemma lstrip_space_suffix s :
  all_space (lstrip_with isspace s) = true -> all_space s = true.
Proof.
  induction s as [| c s IH]; simpl; [reflexivity|].
  destruct (isspace c) eqn:E; simpl; [exact IH | rewrite E; discriminate].
Qed.

(** A string strips to the empty string exactly when it consists of
    white space. *)
Lemma strip_empty_iff s : strip s = EmptyString <-> all_space s = true.
Proof.
  split; [|apply strip_all_space].
  unfold strip. intros H. apply lstrip_space_suffix, rstrip_empty, H.
Qed.

(** C5: a bucket name that is not a string, or that is empty or made of
    white space only, makes the constructor raise ValueError at once: the
    world is unchanged, so no client was created and no request was sent. *)
Theorem init_rejects_invalid_bucket_name {R} (s3 : Service R)
    (bucket_name region_name : PyVal) (w : World R) :
  match bucket_name with VStr s => all_space s | _ => true end = true ->
  __init__ s3 bucket_name region_name w
  = (Raise (Exn ValueError "S3Manager: A valid S3 bucket name (string) must be provided."), w).
Proof.
  intros H. unfold __init__.
  destruct bucket_name; try reflexivity.
  rewrite (strip_all_space _ H). reflexivity.
Qed.

Lemma init_rejects_blank_name :
  all_space "  " = true
  /\ __init__ S3Model.s3_service (VStr "  ") (VStr "eu-west-1") (MkWorld ["stock"] [] [])
     = (Raise (Exn ValueError "S3Manager: A valid S3 bucket name (string) must be provided."),
        MkWorld ["stock"] [] []).
Proof.
  split; [reflexivity|].
  apply (init_rejects_invalid_bucket_name S3Model.s3_service (VStr "  ")). reflexivity.
Defined.

(** A name with a visible character passes the check: the client is
    created, the buckets are listed and a missing bucket is created. *)
Example init_creates_missing_bucket :
  let '(r, w) := __init__ S3Model.s3_service (VStr " parts ") (VStr "eu-west-1")
                   (MkWorld ["stock"] [] []) in
  r = Return (MkS3Manager "parts" (VStr "eu-west-1"))
  /\ map call_op (trace w) = ["boto3.client"; "list_buckets"; "create_bucket"]
  /\ remote w = ["stock"; "parts"].
Proof. vm_compute. auto. Qed.

End S3Props.

(** ** aws_lambda.py *)

Module LambdaProps.
Import Py Lambda.

(** C9 (as stated, refuted): a payload that holds a Decimal, such as an
    item read from a table, cannot be serialized; the TypeError is not a
    ClientError and reaches the caller.  So does the error of a client
    that cannot reach its endpoint. *)
Lemma invoke_function_propagates :
  invoke_function LambdaModel.lambda_service "reorder"
    (VDict [("qty", VDecimal (DFinite false 4 0))]) (VStr "Event") (MkWorld [] [] [])
  = (Raise (Exn TypeError "Object of type Decimal is not JSON serializable"),
     MkWorld [] [] [])
  /\ fst (invoke_function LambdaModel.unreachable_service "reorder"
            (VDict [("qty", VInt 4)]) (VStr "Event") (MkWorld [] [] []))
     = Raise (Exn BotoCoreError "EndpointConnectionError").
Proof. split; reflexivity. Qed.

(** C9 (amended): the payload is serialized first, and a payload that is
    not serializable raises TypeError before anything is sent.  Otherwise
    exactly one request is made: its response is returned; a ClientError
    is logged and [None] is returned; every other exception propagates.
    In no case is the request repeated. *)
Theorem invoke_function_outcome {R} (client : Service R) (function_name : string)
    (payload invocation_type : PyVal) (w : World R) :
  match json_dumps payload with
  | Raise e =>
      invoke_function client function_name payload invocation_type w = (Raise e, w)
      /\ exn_class e = TypeError
  | Return body =>
      let args : gmap string PyVal :=
        {[ "FunctionName" := VStr function_name;
           "InvocationType" := invocation_type;
           "Payload" := VBytes body ]} in
      let sent := trace w ++ [MkCall "invoke" args] in
      match client "invoke" args (remote w) with
      | (Return response, r) =>
          invoke_function client function_name payload invocation_type w
          = (Return response,
             MkWorld r sent (stdout w ++ [" Invoked Lambda: " +:+ function_name]))
      | (Raise e, r) =>
          invoke_function client function_name payload invocation_type w
          = if isinstance_exn e ClientError then
              (Return VNone,
               MkWorld r sent (stdout w ++ [" Lambda invocation failed: " +:+ exn_msg e]))
            else (Raise e, MkWorld r sent (stdout w))
      end
  end.
Proof.
  unfold invoke_function, try_except, bind, lift, remote_call, print, ret.
  destruct (json_dumps payload) as [body | e] eqn:Hj.
  - cbv zeta. destruct (client "invoke" _ (remote w)) as [[response | e] r]; simpl.
    + reflexivity.
    + destruct (isinstance_exn e ClientError); reflexivity.
  - pose proof (PyProps.json_dumps_raises _ _ Hj) as Hc.
    unfold isinstance_exn. rewrite Hc. simpl. split; reflexivity.
Qed.

End LambdaProps.

(** ** aws_dynamodb.py: get *)

Module GetProps.
Import Py DynamoDB.

(** C4: [get_item] never raises.  It makes one request; the item of the
    response is returned, or [None] when the response has none (the key
    does not exist); when the request raises, or the response is not a
    mapping, the error is printed and [None] is returned. *)
Theorem get_item_never_raises {R} (table : Service R) (table_name : string)
    (key : PyVal) (w : World R) :
  raises (fst (get_item table table_name key w)) = false
  /\ let sent := trace w ++ [MkCall "get_item" {[ "Key" := key ]}] in
     let logged (msg : string) :=
       stdout w ++ ["Get error in " +:+ table_name +:+ ": " +:+ msg] in
     match table "get_item" {[ "Key" := key ]} (remote w) with
     | (Return (VDict kvs), r) =>
         get_item table table_name key w
         = (Return (match assoc "Item" kvs with Some item => item | None => VNone end),
            MkWorld r sent (stdout w))
     | (Return v, r) =>
         get_item table table_name key w
         = (Return VNone,
            MkWorld r sent (logged ("'" +:+ type_name v +:+ "' object has no attribute 'get'")))
     | (Raise e, r) =>
         get_item table table_name key w
         = (Return VNone, MkWorld r sent (logged (exn_msg e)))
     end.
Proof.
  unfold get_item, try_except, bind, lift, remote_call, print, ret, any_Exception.
  destruct (table "get_item" _ (remote w)) as [[v | e] r]; simpl.
  - destruct v; simpl; split; reflexivity.
  - split; reflexivity.
Qed.

(** On the reference table, a key that no row has gives [None], and
    nothing is printed. *)
Lemma get_item_absent (page_size : nat) (rows : list DynamoModel.Row) (k : string)
    (w : World (list DynamoModel.Row)) :
  remote w = rows ->
  DynamoModel.lookup_row "id" k rows = None ->
  get_item (DynamoModel.table_service "id" page_size) "Suppliers" (VDict [("id", VStr k)]) w
  = (Return VNone,
     MkWorld rows (trace w ++ [MkCall "get_item" {[ "Key" := VDict [("id", VStr k)] ]}])
       (stdout w)).
Proof.
  intros Hw Hk.
  unfold get_item, try_except, bind, lift, remote_call, print, ret, any_Exception.
  rewrite Hw. unfold DynamoModel.table_service. simpl.
  rewrite lookup_singleton_eq. simpl. rewrite Hk. reflexivity.
Qed.

End GetProps.

(** ** aws_sns.py *)

Module SNSProps.
Import Py SNS.

(** C6: without a topic handle ([None] or an empty string), [subscribe],
    [list_subscriptions], [publish_message], [send_low_stock_alert] and
    [ensure_customer_subscription] raise ValueError and leave the world
    as it was: nothing is sent and nothing is printed. *)
Theorem operations_require_topic {R} (client : Service R) (self : SNSManager)
    (protocol endpoint filter_policy subject message message_attributes : PyVal)
    (product_name customer_email : string) (quantity : Z) (w : World R) :
  truthy (topic_arn self) = false ->
  subscribe client self protocol endpoint filter_policy w
  = (Raise (Exn ValueError "Topic ARN not set. Set or create a topic before subscribing."), w)
  /\ list_subscriptions client self w = (Raise (Exn ValueError "Topic ARN not set."), w)
  /\ publish_message client self subject message message_attributes w
     = (Raise (Exn ValueError "Topic ARN not set."), w)
  /\ send_low_stock_alert client self product_name quantity w
     = (Raise (Exn ValueError "Topic ARN not set."), w)
  /\ ensure_customer_subscription client self customer_email w
     = (Raise (Exn ValueError "Topic ARN not set."), w).
Proof.
  intros H.
  unfold send_low_stock_alert, subscribe, list_subscriptions, publish_message,
    ensure_customer_subscription.
  rewrite H. simpl. repeat split; reflexivity.
Qed.

Lemma operations_require_topic_unset :
  let self := MkSNSManager VNone in
  let w := MkWorld (SNSModel.MkState [] [] 0) [] [] in
  let unset := (Raise (Exn ValueError "Topic ARN not set."), w) in
  truthy (topic_arn self) = false
  /\ list_subscriptions SNSModel.sns_service self w = unset
  /\ ensure_customer_subscription SNSModel.sns_service self "ana@example.org" w = unset.
Proof.
  split; [reflexivity|].
  pose proof (operations_require_topic SNSModel.sns_service (MkSNSManager VNone)
                VNone VNone VNone VNone VNone VNone "" "ana@example.org" 0
                (MkWorld (SNSModel.MkState [] [] 0) [] []) eq_refl) as H.
  split; [apply H | apply H].
Defined.

(** [create_topic] needs no handle: it sends its request and sets the
    handle. *)
Example create_topic_without_handle :
  let '(r, w) := create_topic SNSModel.sns_service (MkSNSManager VNone) "alerts"
                   (MkWorld (SNSModel.MkState [] [] 0) [] []) in
  r = Return (VStr "arn:aws:sns:us-east-1:000000000000:alerts",
              MkSNSManager (VStr "arn:aws:sns:us-east-1:000000000000:alerts"))
  /\ map call_op (trace w) = ["create_topic"].
Proof. vm_compute. auto. Qed.

Ltac map_lookup :=
  repeat first
    [ rewrite lookup_insert_eq
    | rewrite lookup_singleton_eq
    | rewrite lookup_insert_ne by discriminate ].

Section Listing.
Import SNSModel.
Variable email : string.

(** The loop over the listing finds the first row with the endpoint. *)
Lemma find_subscription_rows (L : list (list (string * PyVal))) :
  find_subscription (VStr email) (map VDict L)
  = Return (option_map handle (List.find (has_endpoint email) L)).
Proof.
  induction L as [| sub L IH]; simpl; [reflexivity|].
  unfold has_endpoint at 1. unfold handle at 1.
  destruct (assoc "Endpoint" sub) as [e|]; simpl.
  - destruct (py_eq e (VStr email)); simpl; [reflexivity | exact IH].
  - exact IH.
Qed.

End Listing.

(** Whatever the endpoint does: when its listing holds a subscription
    with the address, the handle of the first such subscription is
    returned, and the listing is the only request. *)
Lemma ensure_customer_subscription_existing {R} (client : Service R) (topic : PyVal)
    (email : string) (rows : list (list (string * PyVal))) (sub : list (string * PyVal))
    (others : list (string * PyVal)) (r : R) (w : World R) :
  truthy topic = true ->
  client "list_subscriptions_by_topic" {[ "TopicArn" := topic ]} (remote w)
  = (Return (VDict (("Subscriptions", VList (map VDict rows)) :: others)), r) ->
  List.find (SNSModel.has_endpoint email) rows = Some sub ->
  ensure_customer_subscription client (MkSNSManager topic) email w
  = (Return (SNSModel.handle sub),
     MkWorld r
       (trace w ++ [MkCall "list_subscriptions_by_topic" {[ "TopicArn" := topic ]}])
       (stdout w)).
Proof.
  intros Ht Hlist Hfind.
  unfold ensure_customer_subscription, list_subscriptions. cbn [topic_arn]. rewrite Ht.
  unfold bind, try_except, remote_call, lift. cbn [negb]. rewrite Hlist.
  simpl. rewrite find_subscription_rows, Hfind. reflexivity.
Qed.

(** C7 (the code departs from it): [ensure_customer_subscription] looks
    for the address in the first response of the listing and does not
    ask for the pages after it.  On the reference endpoint, a topic with
    100 subscribers and, after them, a subscription for the address of
    the customer: the subscription exists and the listing announces a
    next page, but the call does not find it, sends a [subscribe]
    request and leaves a second subscription for the address, whose
    handle it returns.  With 99 subscribers the same subscription is on
    the first page: the call returns its handle and sends the listing
    only. *)
Theorem ensure_customer_subscription_first_page :
  let topic := "arn:alerts" in
  let email := "ana@example.org" in
  let self := MkSNSManager (VStr topic) in
  let existing := SNSModel.make_subscription topic (VStr "email-json") (VStr email) in
  let added := SNSModel.make_subscription topic (VStr "email") (VStr email) 101%N in
  let listing (st : SNSModel.State) :=
    fst (SNSModel.sns_service "list_subscriptions_by_topic" {[ "TopicArn" := VStr topic ]} st) in
  SNSModel.subscription_of topic email (SNSModel.crowded topic email 100) = Some (existing 100%N)
  /\ SNSModel.handle (existing 100%N) = VStr "arn:alerts:100"
  /\ obind (listing (SNSModel.crowded topic email 100)) (fun r => dict_get r "NextToken" VNone)
     = Return (VStr "100")
  /\ (let '(r, w) := ensure_customer_subscription SNSModel.sns_service self email
                       (MkWorld (SNSModel.crowded topic email 100) [] []) in
      r = Return (VStr "arn:alerts:101")
      /\ map call_op (trace w) = ["list_subscriptions_by_topic"; "subscribe"]
      /\ SNSModel.subscriptions (remote w)
         = SNSModel.subscriptions (SNSModel.crowded topic email 100) ++ [added])
  /\ (let '(r, w) := ensure_customer_subscription SNSModel.sns_service self email
                       (MkWorld (SNSModel.crowded topic email 99) [] []) in
      r = Return (VStr "arn:alerts:99")
      /\ map call_op (trace w) = ["list_subscriptions_by_topic"]
      /\ remote w = SNSModel.crowded topic email 99).
Proof. vm_compute. repeat split; reflexivity. Qed.

End SNSProps.

(** ** aws_dynamodb.py: scan *)

Module ScanProps.
Import Py DynamoDB DynamoModel.

Section Scan.
Context {R : Type}.
Variable table : Service R.
Variable table_name : string.

(** Without arguments, the continuation requests of [scan_table] are the
    ones of the specification, and so is the result. *)
Lemma scan_table_loop_no_kwargs (fuel : nat) (response : PyVal) (items : list PyVal)
    (w : World R) :
  scan_table_loop table fuel response items w
  = scan_all_pages_loop table fuel ∅ response items w.
Proof.
  revert response items w.
  induction fuel as [| fuel IH]; intros response items w; simpl.
  - reflexivity.
  - destruct (dict_contains response "LastEvaluatedKey") as [[|] | e]; try reflexivity.
    destruct (dict_item response "LastEvaluatedKey") as [key | e]; [|reflexivity].
    rewrite insert_empty.
    destruct (remote_call table "scan" _ w) as [[response' | e] w']; [|reflexivity].
    destruct (obind _ py_iter) as [page | e]; [|reflexivity].
    apply IH.
Qed.

Lemma scan_table_body_no_kwargs (fuel : nat) (w : World R) :
  scan_table_body table fuel ∅ w = scan_all_pages table fuel ∅ w.
Proof.
  unfold scan_table_body, scan_all_pages.
  destruct (remote_call table "scan" ∅ w) as [[response | e] w']; [|reflexivity].
  destruct (obind _ py_iter) as [page | e]; [|reflexivity].
  simpl app. rewrite scan_table_loop_no_kwargs. reflexivity.
Qed.

End Scan.

Lemma filter_all {A} (l : list A) : List.filter (fun _ => true) l = l.
Proof. induction l as [| x l IH]; simpl; [reflexivity | rewrite IH; reflexivity]. Qed.

Lemma has_key_iff k r : has_key "id" k r = true <-> row_key "id" r = Some k.
Proof.
  unfold has_key. destruct (row_key "id" r) as [k'|]; [|split; discriminate].
  rewrite String.eqb_eq. split; congruence.
Qed.

Lemma rows_after_split (k : string) (pre post : list Row) (r : Row) :
  List.NoDup (map (row_key "id") (pre ++ r :: post)) ->
  row_key "id" r = Some k ->
  rows_after "id" k (pre ++ r :: post) = post.
Proof.
  intros Hnd Hk. induction pre as [| r0 pre IH]; simpl.
  - apply has_key_iff in Hk. rewrite Hk. reflexivity.
  - simpl in Hnd. apply NoDup_cons_iff in Hnd as [Hnotin Hnd].
    destruct (has_key "id" k r0) eqn:E; [|auto].
    exfalso. apply Hnotin. apply has_key_iff in E. rewrite E, <- Hk.
    apply in_map. apply in_or_app. right. left. reflexivity.
Qed.

Section ReferenceTable.
Variable page_size : nat.
Hypothesis page_pos : (0 < page_size)%nat.

Local Abbreviation table := (table_service "id" page_size).

Lemma scan_first (rows : list Row) tr out :
  remote_call table "scan" ∅ (MkWorld rows tr out)
  = (Return (page_response page_size rows), MkWorld rows (tr ++ [MkCall "scan" ∅]) out).
Proof.
  unfold remote_call, table_service, scan_page. simpl.
  rewrite !lookup_empty. simpl. rewrite filter_all.
  unfold page_response.
  destruct (skipn page_size rows); [reflexivity|].
  destruct (row_key "id" _); reflexivity.
Qed.

Lemma scan_next (rows : list Row) (k : string) tr out :
  remote_call table "scan" {[ "ExclusiveStartKey" := VDict [("id", VStr k)] ]} (MkWorld rows tr out)
  = (Return (page_response page_size (rows_after "id" k rows)),
     MkWorld rows (tr ++ [MkCall "scan" {[ "ExclusiveStartKey" := VDict [("id", VStr k)] ]}]) out).
Proof.
  unfold remote_call, table_service, scan_page. simpl.
  rewrite !lookup_singleton_ne by discriminate. rewrite lookup_singleton_eq.
  simpl. rewrite filter_all.
  unfold page_response.
  destruct (skipn page_size _); [reflexivity|].
  destruct (row_key "id" _); reflexivity.
Qed.

Lemma page_items (pending : list Row) :
  obind (dict_get (page_response page_size pending) "Items" (VList [])) py_iter
  = Return (map VDict (firstn page_size pending)).
Proof.
  unfold page_response.
  destruct (skipn page_size pending); [reflexivity|].
  destruct (row_key "id" _); reflexivity.
Qed.

Lemma page_last (pending : list Row) :
  skipn page_size pending = [] ->
  dict_contains (page_response page_size pending) "LastEvaluatedKey" = Return false.
Proof. unfold page_response. intros ->. reflexivity. Qed.

Lemma page_more (pending : list Row) (k : string) :
  skipn page_size pending <> [] ->
  row_key "id" (List.last (firstn page_size pending) []) = Some k ->
  dict_contains (page_response page_size pending) "LastEvaluatedKey" = Return true
  /\ dict_item (page_response page_size pending) "LastEvaluatedKey"
     = Return (VDict [("id", VStr k)]).
Proof.
  unfold page_response. intros Hne ->.
  destruct (skipn page_size pending); [congruence|]. split; reflexivity.
Qed.

Lemma scan_table_loop_all (rows : list Row) (out : list string) :
  well_keyed rows ->
  forall (fuel : nat) (done pending : list Row) (items : list PyVal) (tr : list Call),
    rows = done ++ pending ->
    (length (skipn page_size pending) <= fuel)%nat ->
    exists tr',
      scan_table_loop table fuel (page_response page_size pending) items (MkWorld rows tr out)
      = Some (Return (items ++ map VDict (skipn page_size pending)), MkWorld rows tr' out).
Proof.
  intros [Hkeys Hnd]. induction fuel as [| fuel IH]; intros done pending items tr Hrows Hlen.
  - destruct (skipn page_size pending) eqn:Hs; [|simpl in Hlen; lia].
    exists tr. simpl. rewrite (page_last _ Hs), app_nil_r. reflexivity.
  - destruct (skipn page_size pending) as [| r1 rest] eqn:Hs.
    + exists tr. simpl. rewrite (page_last _ Hs), app_nil_r. reflexivity.
    + assert (Hfirst : firstn page_size pending <> []).
      { destruct pending; [rewrite skipn_nil in Hs; discriminate|].
        destruct page_size; [lia | discriminate]. }
      destruct (exists_last Hfirst) as (pre & rl & Hpre).
      assert (Hin : In rl rows).
      { rewrite Hrows, <- (firstn_skipn page_size pending), Hpre.
        apply in_or_app. right. apply in_or_app. left. apply in_or_app. right. left.
        reflexivity. }
      destruct (row_key "id" rl) as [k|] eqn:Hk;
        [| exfalso; exact (proj1 (List.Forall_forall _ _) Hkeys rl Hin Hk)].
      assert (Hlast : row_key "id" (List.last (firstn page_size pending) []) = Some k).
      { rewrite Hpre, last_last. exact Hk. }
      assert (Hne : skipn page_size pending <> []) by (rewrite Hs; discriminate).
      destruct (page_more pending k Hne Hlast) as [Hc Hi].
      assert (Hdecomp : rows = (done ++ pre) ++ rl :: skipn page_size pending).
      { rewrite Hrows. rewrite <- (firstn_skipn page_size pending) at 1.
        rewrite Hpre, <- !app_assoc. reflexivity. }
      assert (Hafter : rows_after "id" k rows = r1 :: rest).
      { rewrite <- Hs. rewrite Hdecomp at 1.
        apply rows_after_split; [|exact Hk]. rewrite <- Hdecomp. exact Hnd. }
      destruct (IH (done ++ firstn page_size pending) (r1 :: rest)
                  (items ++ map VDict (firstn page_size (r1 :: rest)))
                  (tr ++ [MkCall "scan" {[ "ExclusiveStartKey" := VDict [("id", VStr k)] ]}]))
        as [tr' Htr'].
      { rewrite Hrows, <- Hs, <- app_assoc, firstn_skipn. reflexivity. }
      { simpl in Hlen. pose proof (length_skipn page_size (r1 :: rest)) as Hl.
        simpl length in Hl. destruct page_size; simpl in *; lia. }
      exists tr'.
      cbn [scan_table_loop]. rewrite Hc, Hi, scan_next, Hafter, page_items, Htr'.
      rewrite <- app_assoc, <- map_app, firstn_skipn. reflexivity.
Qed.

(** X5: without arguments the pagination loop is right: on the reference
    table, whatever the page size, a scan with enough fuel reads every
    row once, in order, and returns the deserialized rows (or the empty
    list and a printed line when a row cannot be deserialized). *)
Lemma scan_table_all_rows (table_name : string) (rows : list Row) (fuel : nat)
    (tr : list Call) (out : list string) :
  well_keyed rows ->
  (length rows <= fuel)%nat ->
  exists tr',
    scan_table table table_name fuel ∅ (MkWorld rows tr out)
    = Some match omap_list _deserialize_item (map VDict rows) with
           | Return items => (Return items, MkWorld rows tr' out)
           | Raise e =>
               (Return [],
                MkWorld rows tr' (out ++ ["Scan error in " +:+ table_name +:+ ": " +:+ exn_msg e]))
           end.
Proof.
  intros Hwk Hfuel.
  destruct (scan_table_loop_all rows out Hwk fuel [] rows
              (map VDict (firstn page_size rows)) (tr ++ [MkCall "scan" ∅]) eq_refl)
    as [tr' Hloop].
  { rewrite length_skipn. lia. }
  exists tr'.
  unfold scan_table, scan_table_body.
  rewrite scan_first, page_items. simpl app. rewrite Hloop.
  rewrite <- map_app, firstn_skipn.
  destruct (omap_list _deserialize_item (map VDict rows)); reflexivity.
Qed.
End ReferenceTable.

(** C2 (the code departs from it): with a filter and a table of more
    than one page, the continuation requests of [scan_table] carry the
    continuation key only.  On the reference table, three rows read one
    per request, the second without the attribute [flag]: the scan for
    [attribute_exists(flag)] returns the second row as well, where the
    scan of the specification returns the first and the third. *)
Theorem scan_table_forgets_filter :
  let kwargs : gmap string PyVal :=
    {[ "FilterExpression" := VStr "attribute_exists(flag)" ]} in
  let w := MkWorld sample_rows [] [] in
  let a := VDict [("id", VStr "a"); ("flag", VBool true); ("rating", VInt 4)] in
  let b := VDict [("id", VStr "b"); ("rating", VFloat Numeric.f_2_5)] in
  let c := VDict [("id", VStr "c"); ("flag", VBool true)] in
  option_map fst (scan_table (table_service "id" 1) "Suppliers" 3 kwargs w)
  = Some (Return [a; b; c])
  /\ option_map (fun r => map call_args (trace (snd r)))
       (scan_table (table_service "id" 1) "Suppliers" 3 kwargs w)
     = Some [ kwargs;
              {[ "ExclusiveStartKey" := VDict [("id", VStr "a")] ]};
              {[ "ExclusiveStartKey" := VDict [("id", VStr "b")] ]} ]
  /\ option_map fst (scan_all_pages (table_service "id" 1) 3 kwargs w)
     = Some (Return [a; c]).
Proof. vm_compute. repeat split; reflexivity. Qed.

End ScanProps.

(** ** decimal.Decimal *)

Module DecimalProps.
Import Py Numeric.

Lemma ndigits_fuel_zero (fuel : nat) : ndigits_fuel fuel 0 = 0.
Proof. destruct fuel; reflexivity. Qed.

Lemma ndigits_fuel_spec (fuel : nat) :
  forall n, 0 < n -> n < 2 ^ Z.of_nat fuel ->
    1 <= ndigits_fuel fuel n
    /\ 10 ^ (ndigits_fuel fuel n - 1) <= n < 10 ^ ndigits_fuel fuel n.
Proof.
  induction fuel as [| fuel IH]; intros n Hpos Hlt.
  - simpl in Hlt. lia.
  - cbn [ndigits_fuel]. destruct (Z.leb_spec n 0) as [|_]; [lia|].
    destruct (Z.lt_ge_cases n 10) as [Hsmall | Hbig].
    + rewrite Z.div_small by lia. rewrite ndigits_fuel_zero. simpl. lia.
    + assert (Hq : 0 < n / 10) by (apply Z.div_str_pos; lia).
      assert (Hq2 : n / 10 < 2 ^ Z.of_nat fuel).
      { apply Z.div_lt_upper_bound; [lia|].
        rewrite Nat2Z.inj_succ, Z.pow_succ_r in Hlt by lia. lia. }
      destruct (IH _ Hq Hq2) as (Hk & Hlo & Hhi).
      set (k := ndigits_fuel fuel (n / 10)) in *.
      replace (1 + k - 1) with (Z.succ (k - 1)) by lia.
      replace (1 + k) with (Z.succ k) by lia.
      rewrite !Z.pow_succ_r by lia.
      pose proof (Z.div_mod n 10 ltac:(lia)) as Hdm.
      pose proof (Z.mod_pos_bound n 10 ltac:(lia)) as Hm.
      lia.
Qed.

Lemma ndigits_spec (n : Z) :
  0 < n -> 1 <= ndigits n /\ 10 ^ (ndigits n - 1) <= n < 10 ^ ndigits n.
Proof.
  intros Hpos. unfold ndigits. apply ndigits_fuel_spec; [exact Hpos|].
  rewrite Nat2Z.inj_succ, Z2Nat.id by apply Z.log2_nonneg.
  apply Z.log2_spec, Hpos.
Qed.

(** A positive number below [10^k] has at most [k] digits. *)
Lemma ndigits_le (n k : Z) : 0 < n -> n < 10 ^ k -> ndigits n <= k.
Proof.
  intros Hpos Hlt. destruct (ndigits_spec n Hpos) as (H1 & Hlo & _).
  destruct (Z.le_gt_cases (ndigits n) k) as [|Hgt]; [assumption|].
  assert (10 ^ k <= 10 ^ (ndigits n - 1)) by (apply Z.pow_le_mono_r; lia).
  lia.
Qed.

(** A positive number with [10^k <= n] has more than [k] digits. *)
Lemma ndigits_gt (n k : Z) : 0 < n -> 10 ^ k <= n -> k < ndigits n.
Proof.
  intros Hpos Hle. destruct (ndigits_spec n Hpos) as (H1 & _ & Hhi).
  destruct (Z.lt_ge_cases k (ndigits n)) as [|Hge]; [assumption|].
  assert (10 ^ ndigits n <= 10 ^ k) by (apply Z.pow_le_mono_r; lia).
  lia.
Qed.

Lemma coeff_len_pos (c : N) : (c <> 0)%N -> coeff_len c = ndigits (Z.of_N c).
Proof.
  intros Hc. unfold coeff_len.
  destruct (ndigits_spec (Z.of_N c)) as (H & _); lia.
Qed.

Lemma Decimal_eq_Z_zero (s : bool) (e : Z) : Decimal_eq_Z (DFinite s 0 e) 0 = true.
Proof. unfold Decimal_eq_Z. destruct s, (0 <=? e); reflexivity. Qed.

Lemma Decimal_eq_Z_nonzero (s : bool) (c : N) (e : Z) :
  (c <> 0)%N -> Decimal_eq_Z (DFinite s c e) 0 = false.
Proof.
  intros Hc. unfold Decimal_eq_Z.
  destruct (Z.leb_spec 0 e).
  - apply Z.eqb_neq. assert (0 < 10 ^ e) by (apply Z.pow_pos_nonneg; lia).
    destruct s; nia.
  - apply Z.eqb_neq. destruct s; lia.
Qed.

Lemma Decimal_fix_zero (s : bool) (e : Z) :
  exists e', Decimal_fix s 0 e = Return (DFinite s 0 e').
Proof. unfold Decimal_fix. simpl. eexists. reflexivity. Qed.

Lemma round_half_even_shift_ge (c k : Z) : c / 10 ^ k <= round_half_even_shift c k.
Proof.
  unfold round_half_even_shift.
  destruct (2 * (c mod 10 ^ k) ?= 10 ^ k); [destruct (Z.even _)|..]; lia.
Qed.

Lemma Decimal_fix_fraction (s : bool) (c : N) (e : Z) :
  (c <> 0)%N -> ctx_Etiny <= e -> Z.of_N c < 10 ^ (- e) ->
  exists c' e', Decimal_fix s c e = Return (DFinite s c' e') /\ (c' <> 0)%N.
Proof.
  intros Hc He Hlt. unfold Decimal_fix.
  destruct (N.eqb_spec c 0) as [|_]; [contradiction|].
  rewrite (coeff_len_pos c Hc).
  assert (Hpos : 0 < Z.of_N c) by lia.
  pose proof (ndigits_le _ _ Hpos Hlt) as Hlen.
  destruct (ndigits_spec _ Hpos) as (Hlen1 & Hlo & _).
  set (len := ndigits (Z.of_N c)) in *.
  cbv [ctx_Etop ctx_Emax ctx_prec ctx_Etiny ctx_Emin] in *.
  destruct (Z.ltb_spec (999999 - 28 + 1) (len + e - 28)) as [|_]; [lia|].
  destruct (Z.ltb_spec e (Z.max (len + e - 28) (-999999 - 28 + 1))) as [Hround | _].
  - rewrite Z.max_l in * by lia.
    set (k := len + e - 28 - e).
    assert (Hk : 0 < k) by (unfold k; lia).
    assert (Hq : 10 ^ 27 <= Z.of_N c / 10 ^ k).
    { apply Z.div_le_lower_bound; [apply Z.pow_pos_nonneg; lia|].
      rewrite <- Z.pow_add_r by lia.
      replace (k + 27) with (len - 1) by (unfold k; lia). exact Hlo. }
    pose proof (round_half_even_shift_ge (Z.of_N c) k) as Hr.
    set (c' := round_half_even_shift (Z.of_N c) k) in *.
    assert (H27 : 10 ^ 27 = 10 * 10 ^ 26) by reflexivity.
    assert (H26 : 0 < 10 ^ 26) by reflexivity.
    destruct (28 <? ndigits c').
    + destruct (Z.ltb_spec (999999 - 28 + 1) (len + e - 28 + 1)) as [|_]; [lia|].
      eexists _, _. split; [reflexivity|].
      assert (10 ^ 26 <= c' / 10) by (apply Z.div_le_lower_bound; lia).
      lia.
    + destruct (Z.ltb_spec (999999 - 28 + 1) (len + e - 28)) as [|_]; [lia|].
      eexists _, _. split; [reflexivity|]. lia.
  - eexists _, _. split; [reflexivity | exact Hc].
Qed.

Lemma adjusted_one : adjusted 1 0 = 0.
Proof. reflexivity. Qed.

Lemma Decimal_mod_one (d : Decimal) :
  in_range d = true ->
  exists r, Decimal_mod d (Decimal_of_Z 1) = Return r
            /\ Decimal_eq_Z r 0 = integral d.
Proof.
  destruct d as [s c e | |]; try discriminate.
  unfold in_range. rewrite andb_true_iff, Z.leb_le. intros [He Hmag].
  change (Decimal_of_Z 1) with (DFinite false 1 0).
  unfold Decimal_mod, integral. change (1 =? 0)%N with false. cbv iota.
  rewrite adjusted_one.
  destruct (N.eqb_spec c 0) as [-> | Hc].
  - destruct (Decimal_fix_zero s (Z.min e 0)) as [e' ->].
    eexists. split; [reflexivity|]. rewrite Decimal_eq_Z_zero.
    destruct (0 <=? e); [reflexivity|]. rewrite Zmod_0_l. reflexivity.
  - assert (Hpos : 0 < Z.of_N c) by lia.
    destruct (ndigits_spec _ Hpos) as (Hlen1 & Hlo & Hhi).
    unfold adjusted. rewrite (coeff_len_pos c Hc).
    set (len := ndigits (Z.of_N c)) in *.
    change (Z.of_N 1) with 1. rewrite Z.mul_1_l.
    destruct (Z.leb_spec 0 e) as [Hnn | Hneg].
    + (* an integer *)
      apply Z.ltb_lt in Hmag.
      rewrite Z.min_r by lia. rewrite !Z.sub_0_r. change (10 ^ 0) with 1.
      rewrite Z.div_1_r, Z.mod_1_r.
      destruct (Z.leb_spec (e + len - 1) (-2)) as [|_]; [lia|].
      assert (Hexp : e + len - 1 < 28).
      { apply (Z.pow_lt_mono_r_iff 10); [lia | lia |].
        apply Z.le_lt_trans with (Z.of_N c * 10 ^ e); [|exact Hmag].
        replace (e + len - 1) with ((len - 1) + e) by lia.
        rewrite Z.pow_add_r by lia.
        apply Z.mul_le_mono_nonneg_r; [apply Z.pow_nonneg; lia | exact Hlo]. }
      unfold ctx_prec.
      destruct (Z.leb_spec (e + len - 1) 28) as [_|]; [|lia].
      destruct (Z.ltb_spec (Z.of_N c * 10 ^ e) (10 ^ 28)) as [_|]; [|lia].
      simpl andb. cbv iota. change (Z.to_N 0) with 0%N.
      destruct (Decimal_fix_zero s 0) as [e' ->].
      eexists. split; [reflexivity | apply Decimal_eq_Z_zero].
    + (* a fraction may be left *)
      apply Z.ltb_lt in Hmag.
      rewrite Z.min_l by lia. rewrite Z.sub_diag, Z.sub_0_r.
      change (10 ^ 0) with 1. rewrite Z.mul_1_r.
      assert (Hp : 0 < 10 ^ (- e)) by (apply Z.pow_pos_nonneg; lia).
      destruct (Z.leb_spec (e + len - 1) (-2)) as [Htiny | Hbig].
      * (* below 0.1: the remainder is the number itself *)
        change (Z.to_N 0) with 0%N. change (N.pow 10 0) with 1%N. rewrite N.mul_1_r.
        assert (Hlt : Z.of_N c < 10 ^ (- e)).
        { apply Z.lt_le_trans with (10 ^ len); [exact Hhi|].
          apply Z.pow_le_mono_r; lia. }
        destruct (Decimal_fix_fraction s c e Hc He Hlt) as (c' & e' & -> & Hc').
        eexists. split; [reflexivity|].
        rewrite (Decimal_eq_Z_nonzero _ _ _ Hc').
        symmetry. apply Z.eqb_neq. rewrite Z.mod_small by lia. lia.
      * assert (Hexp : e + len - 1 < 28).
        { assert (len - 1 < 28 - e); [|lia].
          apply (Z.pow_lt_mono_r_iff 10); [lia | lia |].
          apply Z.le_lt_trans with (Z.of_N c); assumption. }
        assert (Hq : Z.of_N c / 10 ^ (0 - e) < 10 ^ 28).
        { rewrite Z.sub_0_l. apply Z.div_lt_upper_bound; [exact Hp|].
          rewrite <- Z.pow_add_r by lia.
          replace (- e + 28) with (28 - e) by lia. exact Hmag. }
        unfold ctx_prec.
        destruct (Z.leb_spec (e + len - 1) 28) as [_|]; [|lia].
        destruct (Z.ltb_spec (Z.of_N c / 10 ^ (0 - e)) (10 ^ 28)) as [_|]; [|lia].
        simpl andb. cbv iota. rewrite Z.sub_0_l.
        pose proof (Z.mod_pos_bound (Z.of_N c) (10 ^ (- e)) Hp) as Hr.
        destruct (Z.eqb_spec (Z.of_N c mod 10 ^ (- e)) 0) as [Hz | Hnz].
        -- rewrite Hz. change (Z.to_N 0) with 0%N.
           destruct (Decimal_fix_zero s e) as [e' ->].
           eexists. split; [reflexivity | apply Decimal_eq_Z_zero].
        -- assert (Hrc : (Z.to_N (Z.of_N c mod 10 ^ (- e)) <> 0)%N) by lia.
           assert (Hrl : Z.of_N (Z.to_N (Z.of_N c mod 10 ^ (- e))) < 10 ^ (- e)) by lia.
           destruct (Decimal_fix_fraction s _ e Hrc He Hrl) as (c' & e' & -> & Hc').
           eexists. split; [reflexivity | apply Decimal_eq_Z_nonzero, Hc'].
Qed.

End DecimalProps.

(** ** aws_dynamodb.py: add_stock *)

Module StockProps.
Import Py DynamoDB DynamoModel.

#[local] Arguments Decimal_of_Z : simpl never.
#[local] Arguments parse_update : simpl never.
#[local] Arguments apply_update : simpl never.
#[local] Arguments store_row : simpl never.
#[local] Arguments number_add : simpl never.

Ltac map_lookup :=
  repeat first
    [ rewrite lookup_insert_eq
    | rewrite lookup_singleton_eq
    | rewrite lookup_insert_ne by discriminate ].

(** The table reads the expression of [add_stock] as one action:
    [quantity := if_not_exists(quantity, :z) + :q]. *)
Lemma parse_add_stock_expr :
  parse_update add_stock_expr
  = Some [("quantity", SPlus (OIfNotExists "quantity" (OValue ":z")) (OValue ":q"))].
Proof. reflexivity. Qed.

Lemma Decimal_signed_of_Z (n : Z) : Decimal_signed (n <? 0) (Z.abs_N n) = n.
Proof.
  unfold Decimal_signed. rewrite N2Z.inj_abs_N.
  destruct (Z.ltb_spec n 0); lia.
Qed.

Lemma ndigits_storable (n : Z) : storable n = true -> ndigits (Z.abs n) <= 38.
Proof.
  unfold storable, number_prec. intros H. apply Z.ltb_lt in H.
  destruct (Z.eq_dec n 0) as [-> | Hn]; [vm_compute; discriminate|].
  apply DecimalProps.ndigits_le; lia.
Qed.

(** An integer of at most 38 digits is written as it is. *)
Lemma serialize_storable (n : Z) :
  storable n = true -> serialize (VInt n) = Return (VDecimal (Decimal_of_Z n)).
Proof.
  intros H. pose proof (ndigits_storable n H) as Hd.
  cbn [serialize]. unfold create_decimal, Decimal_of_Z.
  destruct (N.eqb_spec (Z.abs_N n) 0) as [-> | Hc]; [reflexivity|].
  rewrite (DecimalProps.coeff_len_pos _ Hc), N2Z.inj_abs_N.
  unfold number_prec, number_Etop, number_Etiny.
  destruct (Z.ltb_spec 89 (ndigits (Z.abs n) + 0 - 38)); [lia|].
  destruct (Z.ltb_spec 0 (Z.max (ndigits (Z.abs n) + 0 - 38) (-165))); [lia|].
  reflexivity.
Qed.

(** An integer of more than 38 digits is refused. *)
Lemma serialize_refused (n : Z) :
  storable n = false -> raises (serialize (VInt n)) = true.
Proof.
  unfold storable, number_prec. intros H. apply Z.ltb_ge in H.
  assert (Hpos : 0 < Z.abs n) by (pose proof (Z.pow_pos_nonneg 10 38); lia).
  pose proof (DecimalProps.ndigits_gt (Z.abs n) 38 Hpos H) as Hd.
  cbn [serialize]. unfold create_decimal.
  destruct (N.eqb_spec (Z.abs_N n) 0) as [Hc | Hc]; [lia|].
  rewrite (DecimalProps.coeff_len_pos _ Hc), N2Z.inj_abs_N.
  unfold number_prec, number_Etop, number_Etiny.
  destruct (Z.ltb_spec 89 (ndigits (Z.abs n) + 0 - 38)); [reflexivity|].
  destruct (Z.ltb_spec 0 (Z.max (ndigits (Z.abs n) + 0 - 38) (-165))); [|lia].
  destruct (negb _ && _); [reflexivity|]. destruct (negb _); reflexivity.
Qed.

Lemma number_add_ints (x y : Z) :
  storable (x + y) = true ->
  number_add (VDecimal (Decimal_of_Z x)) (VDecimal (Decimal_of_Z y))
  = Return (VDecimal (Decimal_of_Z (x + y))).
Proof.
  intros H. pose proof (ndigits_storable _ H) as Hd.
  unfold Decimal_of_Z, number_add. rewrite !Decimal_signed_of_Z.
  rewrite Z.min_id, Z.sub_diag, Z.pow_0_r, !Z.mul_1_r. cbv zeta.
  unfold significant, number_prec.
  destruct (Z.leb_spec (ndigits (Z.abs (x + y)) - 38) 0); [|lia]. cbn [negb].
  destruct (Z.ltb_spec 125 (ndigits (Z.abs (x + y)) + 0 - 1)); [lia|].
  rewrite andb_false_r.
  destruct (Z.eqb_spec (x + y) 0) as [Hz | Hz]; [reflexivity|]. cbn [negb andb].
  assert (0 <= ndigits (Z.abs (x + y))).
  { destruct (DecimalProps.ndigits_spec (Z.abs (x + y))); lia. }
  destruct (Z.ltb_spec (ndigits (Z.abs (x + y)) + 0 - 1) (-130)); [lia|]. reflexivity.
Qed.

Lemma store_row_absent (k : string) (r : Row) (rows : list Row) :
  lookup_row "id" k rows = None -> store_row "id" k r rows = rows ++ [r].
Proof.
  unfold lookup_row. induction rows as [| r' rows IH]; simpl; [reflexivity|].
  unfold store_row. fold (store_row "id" k r rows).
  destruct (has_key "id" k r'); [discriminate|].
  intros H. rewrite (IH H). reflexivity.
Qed.

Lemma lookup_row_last (k : string) (r : Row) (rows : list Row) :
  lookup_row "id" k rows = None -> has_key "id" k r = true ->
  lookup_row "id" k (rows ++ [r]) = Some r.
Proof.
  unfold lookup_row. induction rows as [| r' rows IH]; simpl; intros Hn Hk.
  - rewrite Hk. reflexivity.
  - destruct (has_key "id" k r'); [discriminate | auto].
Qed.

Lemma store_row_last (k : string) (r r' : Row) (rows : list Row) :
  lookup_row "id" k rows = None -> has_key "id" k r = true ->
  store_row "id" k r' (rows ++ [r]) = rows ++ [r'].
Proof.
  unfold lookup_row. induction rows as [| r0 rows IH]; intros Hn Hk.
  - unfold store_row. simpl. rewrite Hk. reflexivity.
  - simpl in Hn. simpl app. unfold store_row. fold (store_row "id" k r' (rows ++ [r])).
    destruct (has_key "id" k r0); [discriminate|].
    rewrite (IH Hn Hk). reflexivity.
Qed.

Lemma has_key_stock_row (k : string) (q : Z) : has_key "id" k (stock_row k q) = true.
Proof. unfold has_key, row_key. simpl. apply String.eqb_refl. Qed.

(** The values of a booking, as the table receives them. *)
Lemma values_of_stock (q : Z) :
  storable q = true ->
  values_of (Some (VDict [(":q", VInt q); (":z", VInt 0)]))
  = Return [(":q", VDecimal (Decimal_of_Z q)); (":z", VDecimal (Decimal_of_Z 0))].
Proof.
  intros Hq. pose proof (serialize_storable q Hq) as Hs. cbn [serialize] in Hs.
  unfold values_of. cbn [serialize omap_values]. rewrite Hs. reflexivity.
Qed.

Section AddStock.
Variable page_size : nat.
Variables distributor_id product_id : string.

Local Abbreviation key := (distributor_id +:+ "#" +:+ product_id).
Local Abbreviation table := (table_service "id" page_size).

(** One call on the reference table, for an increment of at most 38
    digits: the request is the one of [add_stock_call], and its effect is
    the update of the row found under the composite key, or of the key
    alone when there is none. *)
Lemma add_stock_run (rows : list Row) (q : Z) (tr : list Call) (out : list string) :
  storable q = true ->
  add_stock table distributor_id product_id (VInt q) (MkWorld rows tr out)
  = let item :=
      match lookup_row "id" key rows with
      | Some r => r
      | None => [("id", VStr key)]
      end in
    match apply_update item
            [(":q", VDecimal (Decimal_of_Z q)); (":z", VDecimal (Decimal_of_Z 0))]
            [("quantity", SPlus (OIfNotExists "quantity" (OValue ":z")) (OValue ":q"))] with
    | Return item' =>
        (Return tt,
         MkWorld (store_row "id" key item' rows) (tr ++ [add_stock_call key q]) out)
    | Raise e =>
        (Return tt,
         MkWorld rows (tr ++ [add_stock_call key q])
           (out ++ ["Update error in DistributorInventory: " +:+ exn_msg e]))
    end.
Proof.
  intros Hq.
  unfold add_stock, update_item, try_except, bind, lift, remote_call, ret, print, any_Exception.
  simpl py_int. cbv iota beta. simpl truthy. cbv iota.
  unfold table_service. cbn [remote String.eqb Ascii.eqb Bool.eqb].
  map_lookup. rewrite parse_add_stock_expr, (values_of_stock q Hq).
  unfold stock_key, key_of, row_key. simpl.
  destruct (apply_update _ _ _) as [item' | e]; reflexivity.
Qed.

Lemma add_stock_absent (rows : list Row) (q : Z) (tr : list Call) (out : list string) :
  storable q = true ->
  lookup_row "id" key rows = None ->
  add_stock table distributor_id product_id (VInt q) (MkWorld rows tr out)
  = (Return tt, MkWorld (rows ++ [stock_row key q]) (tr ++ [add_stock_call key q]) out).
Proof.
  intros Hq Habsent. rewrite (add_stock_run _ _ _ _ Hq), Habsent. cbv zeta.
  unfold apply_update. cbn. rewrite number_add_ints by exact Hq. cbn.
  rewrite (store_row_absent _ _ _ Habsent). reflexivity.
Qed.

Lemma add_stock_present (rows : list Row) (q0 q : Z) (tr : list Call) (out : list string) :
  storable q = true -> storable (q0 + q) = true ->
  lookup_row "id" key rows = Some (stock_row key q0) ->
  add_stock table distributor_id product_id (VInt q) (MkWorld rows tr out)
  = (Return tt,
     MkWorld (store_row "id" key (stock_row key (q0 + q)) rows)
       (tr ++ [add_stock_call key q]) out).
Proof.
  intros Hq Hsum Hrow. rewrite (add_stock_run _ _ _ _ Hq), Hrow. cbv zeta.
  unfold apply_update. cbn. rewrite number_add_ints by exact Hsum. cbn. reflexivity.
Qed.

(** C3 (amended): [add_stock] sends, under the key
    [distributor_id#product_id], the expression
    [SET quantity = if_not_exists(quantity, :z) + :q] with [:z = 0] and
    [:q] the increment.  On the reference table, two calls with the
    increments [a] and [b] for a key that no row has leave one new row,
    whose quantity is [a + b], and print nothing, provided [a], [b] and
    [a + b] have at most 38 digits, the numbers that the client and the
    table accept. *)
Theorem add_stock_twice (rows : list Row) (a b : Z) (tr : list Call) (out : list string) :
  storable a = true -> storable b = true -> storable (a + b) = true ->
  lookup_row "id" key rows = None ->
  let '(r1, w1) :=
    add_stock table distributor_id product_id (VInt a) (MkWorld rows tr out) in
  let '(r2, w2) := add_stock table distributor_id product_id (VInt b) w1 in
  r1 = Return tt /\ r2 = Return tt
  /\ trace w2 = tr ++ [add_stock_call key a; add_stock_call key b]
  /\ stdout w2 = out
  /\ remote w2 = rows ++ [stock_row key (a + b)].
Proof.
  intros Ha Hb Hab Habsent.
  rewrite (add_stock_absent rows a tr out Ha Habsent).
  rewrite (add_stock_present (rows ++ [stock_row key a]) a b _ _ Hb Hab).
  - rewrite (store_row_last _ _ _ _ Habsent (has_key_stock_row _ _)), <- app_assoc.
    repeat split; reflexivity.
  - apply lookup_row_last; [exact Habsent | apply has_key_stock_row].
Qed.

End AddStock.

Lemma add_stock_3_then_4 :
  storable 3 = true /\ storable 4 = true /\ storable (3 + 4) = true
  /\ lookup_row "id" "d1#p1" [stock_row "d1#p2" 9] = None
  /\ let '(r1, w1) :=
       add_stock (table_service "id" 25) "d1" "p1" (VInt 3)
         (MkWorld [stock_row "d1#p2" 9] [] []) in
     let '(r2, w2) := add_stock (table_service "id" 25) "d1" "p1" (VInt 4) w1 in
     r1 = Return tt /\ r2 = Return tt
     /\ trace w2 = [add_stock_call "d1#p1" 3; add_stock_call "d1#p1" 4]
     /\ stdout w2 = []
     /\ remote w2 = [stock_row "d1#p2" 9; stock_row "d1#p1" 7].
Proof.
  split; [reflexivity|]. split; [reflexivity|]. split; [reflexivity|].
  split; [reflexivity|].
  exact (add_stock_twice 25 "d1" "p1" [stock_row "d1#p2" 9] 3 4 [] []
           eq_refl eq_refl eq_refl eq_refl).
Defined.

(** C3 (as stated, refuted): an increment of 39 digits is not a number
    that the client can write: the first call prints the error of the
    serializer and stores nothing, so that after the increments [10^38]
    and [1] the quantity is [1]. *)
Lemma add_stock_39_digits :
  let '(r1, w1) :=
    add_stock (table_service "id" 25) "d1" "p1" (VInt (10 ^ 38)) (MkWorld [] [] []) in
  let '(r2, w2) := add_stock (table_service "id" 25) "d1" "p1" (VInt 1) w1 in
  r1 = Return tt
  /\ remote w1 = []
  /\ stdout w1 = ["Update error in DistributorInventory: [<class 'decimal.Rounded'>]"]
  /\ remote w2 = [stock_row "d1#p1" 1]
  /\ stock_row "d1#p1" 1 <> stock_row "d1#p1" (10 ^ 38 + 1).
Proof. vm_compute. repeat split; try reflexivity. discriminate. Qed.

End StockProps.

(** ** Strings: concatenation *)

Module StringProps.

Lemma append_nil_r (s : string) : s +:+ "" = s.
Proof.
  induction s as [| c s IH]; [reflexivity|].
  change (String c (s +:+ "") = String c s). rewrite IH. reflexivity.
Qed.

Lemma append_assoc (a b c : string) : (a +:+ b) +:+ c = a +:+ b +:+ c.
Proof.
  induction a as [| x a IH]; [reflexivity|].
  change (String x ((a +:+ b) +:+ c) = String x (a +:+ b +:+ c)). rewrite IH. reflexivity.
Qed.


End StringProps.

(** ** Floats: conversions of exact values, and the search of [repr] *)

Module FloatProps.
Import Py Numeric.





























End FloatProps.

(** ** Decimal literals: what [Decimal] reads in what [repr] prints *)

Module LiteralProps.
Import Py Numeric StringProps.

#[local] Arguments String.append !s1 s2 / : simpl nomatch.
























End LiteralProps.

(** ** aws_dynamodb.py: the numeric round trip *)

Module RoundTripProps.
Import Py DynamoDB Numeric DecimalProps FloatProps LiteralProps.





Lemma Decimal_int_integral (d : Decimal) :
  in_range d = true -> integral d = true ->
  exists n, Decimal_int d = Return n /\ Decimal_eq_Z d n = true.
Proof.
  destruct d as [s c e | |]; try discriminate. intros _. unfold integral, Decimal_int, Decimal_eq_Z.
  destruct (Z.leb_spec 0 e) as [He | He]; intros Hint.
  - eexists. split; [reflexivity|]. apply Z.eqb_eq. destruct s; lia.
  - apply Z.eqb_eq in Hint. eexists. split; [reflexivity|]. apply Z.eqb_eq.
    assert (Hp : 0 < 10 ^ (- e)) by (apply Z.pow_pos_nonneg; lia).
    pose proof (Z.div_mod (Z.of_N c) (10 ^ (- e)) ltac:(lia)) as Hdm.
    destruct s; nia.
Qed.

(** What the read-side converter makes of a decimal in range. *)
Lemma deserialize_convert_Decimal (d : Decimal) :
  in_range d = true ->
  if integral d then
    exists n, deserialize_convert (VDecimal d) = Return (VInt n) /\ Decimal_eq_Z d n = true
  else deserialize_convert (VDecimal d) = Return (VFloat (float_of_Decimal d)).
Proof.
  intros Hr. destruct (Decimal_mod_one d Hr) as (r & Hmod & Hzero).
  cbn [deserialize_convert]. rewrite Hmod. cbn [obind]. rewrite Hzero.
  destruct (integral d) eqn:Hint; [|reflexivity].
  destruct (Decimal_int_integral d Hr Hint) as (n & -> & Hn).
  exists n. split; [reflexivity | exact Hn].
Qed.







(** What comes back for the sample item: 2.5 and 0.1 as floats, 4.0 as
    the int 4, and 1e23 as the int [10^23]. *)
Example roundtrip_sample_item_result :
  obind (_prepare_for_dynamo (VDict sample_item)) _deserialize_item
  = Return (VDict
      [("sku", VStr "A-17"); ("price", VFloat f_2_5); ("units", VInt 4);
       ("ratios", VList [VFloat f_0_1; VInt 3]);
       ("box", VDict [("mass", VInt (10 ^ 23)); ("fragile", VBool true)])]).
Proof. vm_compute. reflexivity. Qed.


(** C8 (the code departs from it): the float 1e30 is integer-valued and
    is written as the decimal [1E+30], which has no fractional part; on
    reading, [value % 1] raises InvalidOperation, since the quotient has
    more digits than the context's precision.  The least such decimal is
    [1E+28].  A scan of a table that holds one such number prints the
    error and returns the empty list. *)
Theorem deserialize_1e30_raises :
  let too_large := Exn InvalidOperation "quotient too large in //, % or divmod" in
  let row := [("id", VStr "a"); ("total", VDecimal (DFinite false 1 30))] in
  float_valid f_1e30 = true
  /\ float_int f_1e30 = Return 1000000000000000019884624838656
  /\ prepare_convert (VFloat f_1e30) = Return (VDecimal (DFinite false 1 30))
  /\ integral (DFinite false 1 30) = true
  /\ deserialize_convert (VDecimal (DFinite false 1 30)) = Raise too_large
  /\ obind (_prepare_for_dynamo (VDict [("total", VFloat f_1e30)])) _deserialize_item
     = Raise too_large
  /\ deserialize_convert (VDecimal (DFinite false 1 28)) = Raise too_large
  /\ deserialize_convert (VDecimal (DFinite false 9999999999999999999999999999 0))
     = Return (VInt 9999999999999999999999999999)
  /\ option_map (fun r => (fst r, stdout (snd r)))
       (scan_table (DynamoModel.table_service "id" 25) "Orders" 2 ∅
          (MkWorld [DynamoModel.stock_row "k" 5; row] [] []))
     = Some (Return [], ["Scan error in Orders: quotient too large in //, % or divmod"]).
Proof. vm_compute. repeat split; reflexivity. Qed.

(** Below the limit the read-side converter does what C8 says: an [int]
    for a decimal without fractional part, a [float] for any other. *)
Example deserialize_convert_in_range :
  deserialize_convert (VDecimal (DFinite false 40 (-1))) = Return (VInt 4)
  /\ deserialize_convert (VDecimal (DFinite true 25 (-1)))
     = Return (VFloat (S754_finite true 5629499534213120 (-51)))
  /\ deserialize_convert (VDecimal (DFinite true 0 (-1))) = Return (VInt 0).
Proof. vm_compute. repeat split; reflexivity. Qed.

End RoundTripProps.

(** ** aws_dynamodb.py: writing and reading one item *)

Module TableProps.
Import Py DynamoDB DynamoModel Managers.

Section ReferenceTable.
(** The key attribute, the page size and the name of the table. *)
Variable hk : string.
Variable page_size : nat.
Variable table_name : string.

Local Abbreviation table := (table_service hk page_size).

Lemma has_key_eq (k : string) (r : Row) :
  has_key hk k r = true <-> row_key hk r = Some k.
Proof.
  unfold has_key. destruct (row_key hk r) as [k'|]; [|split; discriminate].
  rewrite String.eqb_eq. split; congruence.
Qed.

Lemma has_key_other (k k' : string) (r : Row) :
  k' <> k -> has_key hk k r = true -> has_key hk k' r = false.
Proof.
  intros Hne Hk. apply has_key_eq in Hk. unfold has_key. rewrite Hk.
  apply String.eqb_neq. exact Hne.
Qed.

Lemma lookup_store_row (k : string) (r : Row) (rows : list Row) :
  has_key hk k r = true -> lookup_row hk k (store_row hk k r rows) = Some r.
Proof.
  intros Hk. unfold lookup_row. induction rows as [| r0 rows IH]; simpl.
  - rewrite Hk. reflexivity.
  - destruct (has_key hk k r0) eqn:E; simpl.
    + rewrite Hk. reflexivity.
    + rewrite E. exact IH.
Qed.

Lemma lookup_store_row_other (k k' : string) (r : Row) (rows : list Row) :
  k' <> k -> has_key hk k r = true ->
  lookup_row hk k' (store_row hk k r rows) = lookup_row hk k' rows.
Proof.
  intros Hne Hk. pose proof (has_key_other k k' r Hne Hk) as Hr.
  unfold lookup_row. induction rows as [| r0 rows IH]; simpl.
  - rewrite Hr. reflexivity.
  - destruct (has_key hk k r0) eqn:E; simpl.
    + rewrite Hr, (has_key_other k k' r0 Hne E). reflexivity.
    + destruct (has_key hk k' r0); [reflexivity | exact IH].
Qed.

Lemma lookup_remove_row (k : string) (rows : list Row) :
  lookup_row hk k (remove_row hk k rows) = None.
Proof.
  unfold lookup_row, remove_row. induction rows as [| r0 rows IH]; simpl; [reflexivity|].
  destruct (has_key hk k r0) eqn:E; simpl; [exact IH|]. rewrite E. exact IH.
Qed.

Lemma lookup_remove_row_other (k k' : string) (rows : list Row) :
  k' <> k -> lookup_row hk k' (remove_row hk k rows) = lookup_row hk k' rows.
Proof.
  intros Hne. unfold lookup_row, remove_row.
  induction rows as [| r0 rows IH]; simpl; [reflexivity|].
  destruct (has_key hk k r0) eqn:E; simpl.
  - rewrite (has_key_other k k' r0 Hne E). exact IH.
  - destruct (has_key hk k' r0); [reflexivity | exact IH].
Qed.

Lemma row_key_key (k : string) : row_key hk [(hk, VStr k)] = Some k.
Proof. unfold row_key. simpl. rewrite String.eqb_refl. reflexivity. Qed.

(** A read on the reference table: the row under the key as it is
    stored, or [None]; nothing is printed. *)
Lemma get_item_row (k : string) (rows : list Row) (tr : list Call) (out : list string) :
  get_item table table_name (VDict [(hk, VStr k)]) (MkWorld rows tr out)
  = (Return (match lookup_row hk k rows with Some r => VDict r | None => VNone end),
     MkWorld rows (tr ++ [MkCall "get_item" {[ "Key" := VDict [(hk, VStr k)] ]}]) out).
Proof.
  unfold get_item, try_except, bind, lift, remote_call, print, ret, any_Exception.
  unfold table_service. cbn [remote String.eqb Ascii.eqb Bool.eqb].
  rewrite lookup_singleton_eq. unfold key_of. cbn [serialize omap_values obind].
  rewrite row_key_key.
  destruct (lookup_row hk k rows); reflexivity.
Qed.

Lemma delete_item_row (k : string) (rows : list Row) (tr : list Call) (out : list string) :
  delete_item table table_name (VDict [(hk, VStr k)]) (MkWorld rows tr out)
  = (Return tt,
     MkWorld (remove_row hk k rows)
       (tr ++ [MkCall "delete_item" {[ "Key" := VDict [(hk, VStr k)] ]}]) out).
Proof.
  unfold delete_item, try_except, bind, lift, remote_call, ret.
  unfold table_service. cbn [remote String.eqb Ascii.eqb Bool.eqb].
  rewrite lookup_singleton_eq. unfold key_of. cbn [serialize omap_values obind].
  rewrite row_key_key. reflexivity.
Qed.

(** X1: on the reference table, an item that the client can serialize
    and that has the key attribute is stored by [put_item] without a
    printed line, and [get_item] with its key then returns the stored
    row: the prepared and serialized item, with Decimals for the numbers
    (a read does not go through [_deserialize_item]).  The rows under
    other keys are as before. *)
Theorem put_then_get (rows : list Row) (item item1 : PyVal) (row : Row) (k : string)
    (tr : list Call) (out : list string) :
  _prepare_for_dynamo item = Return item1 ->
  serialize item1 = Return (VDict row) ->
  row_key hk row = Some k ->
  let '(r1, w1) := put_item table table_name item (MkWorld rows tr out) in
  let '(r2, w2) := get_item table table_name (VDict [(hk, VStr k)]) w1 in
  r1 = Return tt /\ r2 = Return (VDict row) /\ stdout w2 = out
  /\ forall k', k' <> k -> lookup_row hk k' (remote w2) = lookup_row hk k' rows.
Proof.
  intros Hprep Hser Hkey.
  assert (Hput : put_item table table_name item (MkWorld rows tr out)
                 = (Return tt, MkWorld (store_row hk k row rows)
                                 (tr ++ [MkCall "put_item" {[ "Item" := item1 ]}]) out)).
  { unfold put_item, try_except, bind, lift, remote_call, ret. rewrite Hprep.
    unfold table_service. cbn [remote String.eqb Ascii.eqb Bool.eqb].
    rewrite lookup_singleton_eq.
    unfold values_of. rewrite Hser. cbn [obind]. rewrite Hkey. reflexivity. }
  rewrite Hput, get_item_row.
  apply has_key_eq in Hkey.
  rewrite (lookup_store_row _ _ _ Hkey).
  repeat split. intros k' Hne. simpl. apply lookup_store_row_other; assumption.
Qed.

(** X2: on the reference table, [delete_item] followed by [get_item]
    with the same key gives [None], whether or not the key was there;
    nothing is printed and the rows under other keys are as before. *)
Theorem delete_then_get (rows : list Row) (k : string) (tr : list Call) (out : list string) :
  let key := VDict [(hk, VStr k)] in
  let '(r1, w1) := delete_item table table_name key (MkWorld rows tr out) in
  let '(r2, w2) := get_item table table_name key w1 in
  r1 = Return tt /\ r2 = Return VNone /\ stdout w2 = out
  /\ forall k', k' <> k -> lookup_row hk k' (remote w2) = lookup_row hk k' rows.
Proof.
  cbv zeta. rewrite delete_item_row, get_item_row, lookup_remove_row.
  repeat split. intros k' Hne. simpl. apply lookup_remove_row_other, Hne.
Qed.

End ReferenceTable.

Lemma put_then_get_sample :
  let item := VDict [("id", VStr "m9"); ("price", VFloat Numeric.f_2_5); ("stock", VInt 4)] in
  let row := [("id", VStr "m9"); ("price", VDecimal (DFinite false 25 (-1)));
              ("stock", VDecimal (DFinite false 4 0))] in
  let '(r1, w1) := put_item (table_service "id" 25) "RawMaterials" item
                     (MkWorld sample_materials [] []) in
  let '(r2, w2) := get_item (table_service "id" 25) "RawMaterials"
                     (VDict [("id", VStr "m9")]) w1 in
  r1 = Return tt /\ r2 = Return (VDict row) /\ stdout w2 = []
  /\ forall k', k' <> "m9" ->
       lookup_row "id" k' (remote w2) = lookup_row "id" k' sample_materials.
Proof.
  exact (put_then_get "id" 25 "RawMaterials" sample_materials
           (VDict [("id", VStr "m9"); ("price", VFloat Numeric.f_2_5); ("stock", VInt 4)])
           (VDict [("id", VStr "m9"); ("price", VDecimal (DFinite false 25 (-1)));
                   ("stock", VInt 4)])
           [("id", VStr "m9"); ("price", VDecimal (DFinite false 25 (-1)));
            ("stock", VDecimal (DFinite false 4 0))]
           "m9" [] [] eq_refl eq_refl eq_refl).
Defined.

(** X3: a purchase order that was deleted is not found any more:
    [PurchaseOrderManager.delete_item] and then
    [PurchaseOrderManager.get_item] with the same identifier give [None]
    (the managers wrap the identifier into the key [po_id]), and a read
    of another order finds what it found before. *)
Theorem purchase_order_delete_then_get (page_size : nat) (rows : list Row)
    (po_id other : string) (tr : list Call) (out : list string) :
  let table := table_service "po_id" page_size in
  let '(r1, w1) := purchase_order_delete_item table po_id (MkWorld rows tr out) in
  let '(r2, w2) := purchase_order_get_item table po_id w1 in
  r1 = Return tt /\ r2 = Return VNone /\ stdout w2 = out
  /\ (other <> po_id ->
      fst (purchase_order_get_item table other w2)
      = fst (purchase_order_get_item table other (MkWorld rows tr out))).
Proof.
  cbv zeta. unfold purchase_order_delete_item, purchase_order_get_item.
  rewrite delete_item_row, get_item_row, lookup_remove_row.
  repeat split. intros Hne. rewrite !get_item_row. simpl.
  rewrite (lookup_remove_row_other _ _ _ _ Hne). reflexivity.
Qed.

End TableProps.

(** ** aws_dynamodb.py: the operations that fail soft *)

Module WriteProps.
Import Py DynamoDB DynamoModel Managers.

(** X4: whatever the table answers, [put_item], [update_item] and
    [delete_item] return [None] and never raise.  [put_item] sends the
    prepared item; an item that cannot be prepared costs the line
    [Put error in <table>: <message>] and no request.  [update_item]
    sends the key, the expression and the values, and the names when
    they are not empty; [delete_item] sends the key.  Each sends its one
    request once; when the request raises, the line with the message of
    the exception is printed, and nothing is printed otherwise. *)
Theorem write_operations_outcome {R} (table : Service R) (table_name : string)
    (item key values names : PyVal) (update_expr : string) (w : World R) :
  let result (call : Call) (failed : string) : Outcome unit * World R :=
    match table (call_op call) (call_args call) (remote w) with
    | (Return _, r) => (Return tt, MkWorld r (trace w ++ [call]) (stdout w))
    | (Raise e, r) =>
        (Return tt,
         MkWorld r (trace w ++ [call])
           (stdout w ++ [failed +:+ " error in " +:+ table_name +:+ ": " +:+ exn_msg e]))
    end in
  let params : gmap string PyVal :=
    {[ "Key" := key;
       "UpdateExpression" := VStr update_expr;
       "ExpressionAttributeValues" := values ]} in
  put_item table table_name item w
  = match _prepare_for_dynamo item with
    | Return item' => result (MkCall "put_item" {[ "Item" := item' ]}) "Put"
    | Raise e =>
        (Return tt,
         MkWorld (remote w) (trace w)
           (stdout w ++ ["Put error in " +:+ table_name +:+ ": " +:+ exn_msg e]))
    end
  /\ update_item table table_name key update_expr values names w
     = result (MkCall "update_item"
                 (if truthy names then <[ "ExpressionAttributeNames" := names ]> params
                  else params)) "Update"
  /\ delete_item table table_name key w
     = result (MkCall "delete_item" {[ "Key" := key ]}) "Delete".
Proof.
  cbv zeta.
  unfold put_item, update_item, delete_item, try_except, bind, lift, remote_call,
    print, ret, any_Exception.
  cbn [call_op call_args].
  repeat split.
  - destruct (_prepare_for_dynamo item) as [item' | e]; [|reflexivity].
    destruct (table "put_item" _ (remote w)) as [[v | e] r]; reflexivity.
  - destruct (table "update_item" _ (remote w)) as [[v | e] r]; reflexivity.
  - destruct (table "delete_item" _ (remote w)) as [[v | e] r]; reflexivity.
Qed.

Section Scan.
Context {R : Type}.
Variable table : Service R.
Variable table_name : string.

Lemma remote_call_stdout op args (w : World R) :
  stdout (snd (remote_call table op args w)) = stdout w.
Proof. unfold remote_call. destruct (table op args (remote w)). reflexivity. Qed.

Lemma scan_table_loop_stdout (fuel : nat) :
  forall response items (w : World R) r w',
    scan_table_loop table fuel response items w = Some (r, w') -> stdout w' = stdout w.
Proof.
  induction fuel as [| fuel IH]; intros response items w r w'; simpl.
  - destruct (dict_contains response "LastEvaluatedKey") as [[|] | e];
      [discriminate | intros [= _ <-] | intros [= _ <-]]; reflexivity.
  - destruct (dict_contains response "LastEvaluatedKey") as [[|] | e];
      [| intros [= _ <-]; reflexivity | intros [= _ <-]; reflexivity].
    destruct (dict_item response "LastEvaluatedKey") as [key | e];
      [| intros [= _ <-]; reflexivity].
    pose proof (remote_call_stdout "scan" {[ "ExclusiveStartKey" := key ]} w) as Hs.
    destruct (remote_call table "scan" _ w) as [[response' | e] w1]; simpl in Hs;
      [| intros [= _ <-]; exact Hs].
    destruct (obind _ py_iter) as [page | e]; [| intros [= _ <-]; exact Hs].
    intros H. rewrite (IH _ _ _ _ _ H). exact Hs.
Qed.

(** X6: whatever the table answers and whatever the arguments,
    [scan_table] does not raise: when it returns, it returns a list.
    Either nothing was printed, or one line with the error was printed
    and the list is empty, also when pages had been read before the
    error. *)
Theorem scan_table_never_raises (fuel : nat) (kwargs : gmap string PyVal) (w : World R)
    (r : Outcome (list PyVal)) (w' : World R) :
  scan_table table table_name fuel kwargs w = Some (r, w') ->
  exists items,
    r = Return items
    /\ (stdout w' = stdout w
        \/ items = [] /\ exists e, stdout w' = stdout w ++ ["Scan error in " +:+ table_name +:+ ": " +:+ exn_msg e]).
Proof.
  unfold scan_table.
  assert (Hbody : forall r0 w0, scan_table_body table fuel kwargs w = Some (r0, w0) ->
                                stdout w0 = stdout w).
  { unfold scan_table_body. intros r0 w0.
    pose proof (remote_call_stdout "scan" kwargs w) as Hs.
    destruct (remote_call table "scan" kwargs w) as [[response | e] w1]; simpl in Hs;
      [| intros [= _ <-]; exact Hs].
    destruct (obind _ py_iter) as [page | e]; [| intros [= _ <-]; exact Hs].
    destruct (scan_table_loop table fuel response ([] ++ page) w1) as [[[items | e] w2] |] eqn:Hl;
      [| | discriminate].
    - intros [= _ <-]. rewrite (scan_table_loop_stdout _ _ _ _ _ _ Hl). exact Hs.
    - intros [= _ <-]. rewrite (scan_table_loop_stdout _ _ _ _ _ _ Hl). exact Hs. }
  destruct (scan_table_body table fuel kwargs w) as [[[items | e] w0] |] eqn:Hb;
    [| | discriminate].
  - intros [= <- <-]. exists items. split; [reflexivity|]. left. exact (Hbody _ _ eq_refl).
  - unfold bind, print, ret. simpl. intros [= <- <-]. exists []. split; [reflexivity|].
    right. split; [reflexivity|]. exists e. simpl. rewrite (Hbody _ _ eq_refl). reflexivity.
Qed.
End Scan.

Lemma scan_table_unreachable :
  let w := MkWorld ([] : list (PyVal * PyVal)) [] [] in
  let w' := MkWorld ([] : list (PyVal * PyVal)) [MkCall "scan" ∅]
              ["Scan error in Suppliers: EndpointConnectionError"] in
  scan_table LambdaModel.unreachable_service "Suppliers" 5 ∅ w
  = Some (Return ([] : list PyVal), w')
  /\ exists items : list PyVal,
       Return [] = Return items
       /\ (stdout w' = stdout w
           \/ items = []
              /\ exists e, stdout w' = stdout w ++ ["Scan error in " +:+ "Suppliers" +:+ ": " +:+ exn_msg e]).
Proof.
  cbv zeta. split; [reflexivity|].
  exact (scan_table_never_raises LambdaModel.unreachable_service "Suppliers" 5 ∅
           (MkWorld [] [] []) (Return [])
           (MkWorld [] [MkCall "scan" ∅] ["Scan error in Suppliers: EndpointConnectionError"])
           eq_refl).
Defined.

Lemma well_keyed_sample_materials : well_keyed sample_materials.
Proof.
  split.
  - repeat constructor; discriminate.
  - repeat constructor; simpl; intuition discriminate.
Qed.

Lemma scan_table_all_sample :
  well_keyed sample_materials
  /\ (length sample_materials <= 3)%nat
  /\ exists tr',
       scan_table (table_service "id" 2) "RawMaterials" 3 ∅ (MkWorld sample_materials [] [])
       = Some (Return [VDict [("id", VStr "m1"); ("supplier_id", VStr "s1"); ("stock", VInt 120)];
                       VDict [("id", VStr "m2"); ("supplier_id", VStr "s2")];
                       VDict [("id", VStr "m3"); ("supplier_id", VStr "s1");
                              ("price", VFloat Numeric.f_2_5)]],
               MkWorld sample_materials tr' []).
Proof.
  split; [exact well_keyed_sample_materials|]. split; [simpl; lia|].
  destruct (ScanProps.scan_table_all_rows 2 ltac:(lia) "RawMaterials" sample_materials 3 [] []
              well_keyed_sample_materials ltac:(simpl; lia)) as [tr' H].
  exists tr'. rewrite H. vm_compute. reflexivity.
Defined.

End WriteProps.

(** ** aws_dynamodb.py: the managers of the tables *)

Module ManagerProps.
Import Py DynamoDB DynamoModel Managers.

Lemma select_supplier_dicts (supplier_id : string) (items : list PyVal) :
  forallb is_dict items = true ->
  select_supplier (VStr supplier_id) items
  = Return (List.filter (of_supplier supplier_id) items).
Proof.
  induction items as [| m items IH]; simpl; [reflexivity|].
  destruct m; simpl; try discriminate. intros H. rewrite (IH H). simpl.
  destruct (assoc "supplier_id" kvs) as [s|]; simpl; [|reflexivity].
  destruct (py_eq s (VStr supplier_id)); reflexivity.
Qed.

Lemma select_supplier_raises (supplier_id : PyVal) (items : list PyVal) :
  forallb is_dict items = false ->
  exists e, select_supplier supplier_id items = Raise e /\ exn_class e = AttributeError.
Proof.
  induction items as [| m items IH]; simpl; [discriminate|].
  destruct (is_dict m) eqn:Hm; simpl.
  - intros H. destruct (IH H) as (e & He & Hc).
    destruct m; try discriminate. simpl. rewrite He. simpl. eauto.
  - intros _. destruct m; try discriminate; simpl; eauto.
Qed.

(** X7: [list_for_supplier] scans the table RawMaterials without
    arguments and keeps, in order, the items whose [supplier_id] equals
    the identifier; an item without the attribute is left out.  When the
    scan holds an entry that is not a dict (an item without attributes
    is read as [None]), the selection raises AttributeError; a failed
    scan gives the empty list. *)
Theorem list_for_supplier_selects {R} (table : Service R) (fuel : nat)
    (supplier_id : string) (w : World R) (items : list PyVal) (w' : World R) :
  scan_table table "RawMaterials" fuel ∅ w = Some (Return items, w') ->
  if forallb is_dict items then
    list_for_supplier table fuel supplier_id w
    = Some (Return (List.filter (of_supplier supplier_id) items), w')
  else
    exists e, list_for_supplier table fuel supplier_id w = Some (Raise e, w')
              /\ exn_class e = AttributeError.
Proof.
  intros Hscan. unfold list_for_supplier. rewrite Hscan.
  destruct (forallb is_dict items) eqn:Hd.
  - rewrite (select_supplier_dicts _ _ Hd). reflexivity.
  - destruct (select_supplier_raises (VStr supplier_id) items Hd) as (e & -> & Hc). eauto.
Qed.

Lemma list_for_supplier_sample :
  let w' := MkWorld sample_materials
              [MkCall "scan" ∅;
               MkCall "scan" {[ "ExclusiveStartKey" := VDict [("id", VStr "m2")] ]}] [] in
  let m1 := VDict [("id", VStr "m1"); ("supplier_id", VStr "s1"); ("stock", VInt 120)] in
  let m2 := VDict [("id", VStr "m2"); ("supplier_id", VStr "s2")] in
  let m3 := VDict [("id", VStr "m3"); ("supplier_id", VStr "s1");
                   ("price", VFloat Numeric.f_2_5)] in
  scan_table (table_service "id" 2) "RawMaterials" 3 ∅ (MkWorld sample_materials [] [])
  = Some (Return [m1; m2; m3], w')
  /\ list_for_supplier (table_service "id" 2) 3 "s1" (MkWorld sample_materials [] [])
     = Some (Return [m1; m3], w').
Proof.
  cbv zeta. split; [vm_compute; reflexivity|].
  exact (list_for_supplier_selects (table_service "id" 2) 3 "s1"
           (MkWorld sample_materials [] []) _ _ ltac:(vm_compute; reflexivity)).
Defined.

(** X8: [add_stock] converts the quantity with [int()] before the
    guarded update: a quantity that [int()] refuses raises its
    exception to the caller and nothing is sent.  Otherwise the call
    returns [None], whatever the table answers, and has sent the one
    update request for the key [distributor_id#product_id] and the
    converted quantity. *)
Theorem add_stock_outcome {R} (table : Service R) (distributor_id product_id : string)
    (quantity : PyVal) (w : World R) :
  match py_int quantity with
  | Raise e => add_stock table distributor_id product_id quantity w = (Raise e, w)
  | Return q =>
      let '(r, w') := add_stock table distributor_id product_id quantity w in
      r = Return tt
      /\ trace w' = trace w ++ [add_stock_call (distributor_id +:+ "#" +:+ product_id) q]
  end.
Proof.
  unfold add_stock, bind, lift.
  destruct (py_int quantity) as [q | e]; [|reflexivity].
  unfold update_item, try_except, bind, remote_call, ret, print, any_Exception. simpl.
  destruct (table "update_item" _ (remote w)) as [[v | e] r]; simpl; split; reflexivity.
Qed.

Lemma eqb_hash_false (c : ascii) : Ascii.eqb c "#" = false -> c <> "#"%char.
Proof. intros H. apply Ascii.eqb_neq. exact H. Qed.

Lemma stock_key_prefix (d d' p p' : string) :
  has_hash d = false -> has_hash d' = false ->
  d +:+ "#" +:+ p = d' +:+ "#" +:+ p' -> d = d' /\ p = p'.
Proof.
  revert d'. induction d as [| c d IH]; intros [| c' d'] H H' Heq.
  - change (String "#" p = String "#" p') in Heq. injection Heq as ->. auto.
  - change (String "#" p = String c' (d' +:+ "#" +:+ p')) in Heq.
    simpl in H'. apply orb_false_iff in H' as [Hc _]. injection Heq as Hc' _.
    apply Ascii.eqb_neq in Hc. congruence.
  - change (String c (d +:+ "#" +:+ p) = String "#" p') in Heq.
    simpl in H. apply orb_false_iff in H as [Hc _]. injection Heq as Hc' _.
    apply Ascii.eqb_neq in Hc. congruence.
  - change (String c (d +:+ "#" +:+ p) = String c' (d' +:+ "#" +:+ p')) in Heq.
    simpl in H, H'. apply orb_false_iff in H as [_ H]. apply orb_false_iff in H' as [_ H'].
    injection Heq as -> Heq. destruct (IH d' H H' Heq) as [-> ->]. auto.
Qed.

(** X10: two calls for different (distributor, product) pairs address
    different rows, provided the distributor identifiers hold no [#]. *)
Theorem stock_key_distinct (d d' p p' : string) :
  has_hash d = false -> has_hash d' = false ->
  (d, p) <> (d', p') -> stock_key d p <> stock_key d' p'.
Proof.
  intros H H' Hne. unfold stock_key. intros [= Heq]. apply Hne.
  destruct (stock_key_prefix d d' p p' H H' Heq) as [-> ->]. reflexivity.
Qed.

Lemma stock_key_distinct_products :
  has_hash "d1" = false /\ stock_key "d1" "p1" <> stock_key "d1" "p2".
Proof.
  split; [reflexivity|].
  apply (stock_key_distinct "d1" "d1" "p1" "p2"); [reflexivity | reflexivity | discriminate].
Defined.

(** X11: the separator is not escaped, so a [#] in an identifier makes
    keys collide: the distributor [d#p] with the product [q] and the
    distributor [d] with the product [p#q] share one row, and a booking
    for the one sends the request of a booking for the other. *)
Theorem stock_key_collision {R} (table : Service R) (d p q : string) (quantity : PyVal) :
  stock_key (d +:+ "#" +:+ p) q = stock_key d (p +:+ "#" +:+ q)
  /\ add_stock table (d +:+ "#" +:+ p) q quantity = add_stock table d (p +:+ "#" +:+ q) quantity.
Proof.
  assert (H : stock_key (d +:+ "#" +:+ p) q = stock_key d (p +:+ "#" +:+ q)).
  { unfold stock_key. rewrite !StringProps.append_assoc. reflexivity. }
  split; [exact H|]. unfold add_stock. rewrite H. reflexivity.
Qed.

Section Bookings.
Variable page_size : nat.
Variables distributor_id product_id : string.

Local Abbreviation key := (distributor_id +:+ "#" +:+ product_id).
Local Abbreviation table := (table_service "id" page_size).

Lemma add_stock_all_present (quantities : list Z) :
  forall (rows : list Row) (q0 : Z) (tr : list Call) (out : list string),
    bookable q0 quantities = true ->
    lookup_row "id" key rows = None ->
    add_stock_all table distributor_id product_id quantities
      (MkWorld (rows ++ [stock_row key q0]) tr out)
    = (Return tt,
       MkWorld (rows ++ [stock_row key (q0 + total quantities)])
         (tr ++ map (add_stock_call key) quantities) out).
Proof.
  induction quantities as [| q qs IH]; intros rows q0 tr out Hb Habsent.
  - simpl. rewrite Z.add_0_r, app_nil_r. reflexivity.
  - cbn [bookable] in Hb. apply andb_true_iff in Hb as [Hb Hrest].
    apply andb_true_iff in Hb as [Hq Hsum].
    cbn [add_stock_all]. unfold bind at 1.
    rewrite (StockProps.add_stock_present page_size distributor_id product_id
               (rows ++ [stock_row key q0]) q0 q tr out Hq Hsum)
      by (apply StockProps.lookup_row_last; [exact Habsent | apply StockProps.has_key_stock_row]).
    rewrite (StockProps.store_row_last _ _ _ _ Habsent (StockProps.has_key_stock_row _ _)).
    rewrite (IH rows (q0 + q) _ out Hrest Habsent).
    cbn [total fold_right map]. fold (total qs).
    rewrite <- app_assoc, Z.add_assoc. reflexivity.
Qed.

(** X9: on the reference table, any number of bookings for a key that
    no row has leaves one new row, whose quantity is the sum of the
    increments, provided every increment and every quantity reached on
    the way has at most 38 digits; one request is sent for each booking,
    in order, nothing is printed and the other rows are as before. *)
Theorem add_stock_all_total (rows : list Row) (q : Z) (quantities : list Z)
    (tr : list Call) (out : list string) :
  bookable 0 (q :: quantities) = true ->
  lookup_row "id" key rows = None ->
  add_stock_all table distributor_id product_id (q :: quantities) (MkWorld rows tr out)
  = (Return tt,
     MkWorld (rows ++ [stock_row key (total (q :: quantities))])
       (tr ++ map (add_stock_call key) (q :: quantities)) out).
Proof.
  intros Hb Habsent. cbn [bookable] in Hb. apply andb_true_iff in Hb as [Hb Hrest].
  apply andb_true_iff in Hb as [Hq _]. rewrite Z.add_0_l in Hrest.
  cbn [add_stock_all]. unfold bind at 1.
  rewrite (StockProps.add_stock_absent page_size distributor_id product_id rows q tr out
             Hq Habsent).
  rewrite (add_stock_all_present quantities rows q _ out Hrest Habsent).
  cbn [total fold_right map]. rewrite <- app_assoc. reflexivity.
Qed.
End Bookings.

Lemma add_stock_all_sample :
  bookable 0 [3; 4; -2] = true
  /\ lookup_row "id" "d1#p1" [stock_row "d1#p2" 9] = None
  /\ add_stock_all (table_service "id" 25) "d1" "p1" [3; 4; -2]
       (MkWorld [stock_row "d1#p2" 9] [] [])
     = (Return tt,
        MkWorld [stock_row "d1#p2" 9; stock_row "d1#p1" 5]
          [add_stock_call "d1#p1" 3; add_stock_call "d1#p1" 4; add_stock_call "d1#p1" (-2)] []).
Proof.
  split; [reflexivity|]. split; [reflexivity|].
  exact (add_stock_all_total 25 "d1" "p1" [stock_row "d1#p2" 9] 3 [4; -2] [] []
           eq_refl eq_refl).
Defined.

End ManagerProps.

(** ** aws_dynamodb.py: what the converters return *)

Module ConverterProps.
Import Py DynamoDB Numeric Managers.

Section Elementwise.
Context {A : Type}.
Variable f : A -> Outcome A.
Variable good : A -> bool.

(** A converter that returns good fixed points does so on lists and on
    the values of dicts. *)
Lemma omap_list_fixed (l l' : list A) :
  Forall (fun v => forall v', f v = Return v' -> good v' = true /\ f v' = Return v') l ->
  omap_list f l = Return l' ->
  forallb good l' = true /\ omap_list f l' = Return l'.
Proof.
  intros H. revert l'. induction H as [| v l Hv _ IH]; intros l'; simpl.
  - intros [= <-]. auto.
  - destruct (f v) as [v1 | e] eqn:Hf; [|discriminate]. simpl.
    destruct (omap_list f l) as [l1 | e]; [|discriminate]. simpl.
    intros [= <-]. destruct (Hv v1 eq_refl) as [Hg Hfix].
    destruct (IH l1 eq_refl) as [Hgl Hfixl].
    simpl. rewrite Hg, Hgl, Hfix. simpl. rewrite Hfixl. auto.
Qed.

Lemma omap_values_fixed (kvs kvs' : list (string * A)) :
  Forall (fun kv => forall v', f (snd kv) = Return v' -> good v' = true /\ f v' = Return v') kvs ->
  omap_values f kvs = Return kvs' ->
  forallb (fun kv => good (snd kv)) kvs' = true
  /\ omap_values f kvs' = Return kvs'
  /\ map fst kvs' = map fst kvs.
Proof.
  intros H. revert kvs'. induction H as [| [k v] l Hv _ IH]; intros l'; simpl.
  - intros [= <-]. auto.
  - simpl in Hv. destruct (f v) as [v1 | e] eqn:Hf; [|discriminate]. simpl.
    destruct (omap_values f l) as [l1 | e]; [|discriminate]. simpl.
    intros [= <-]. destruct (Hv v1 eq_refl) as [Hg Hfix].
    destruct (IH l1 eq_refl) as (Hgl & Hfixl & Hk).
    simpl. rewrite Hg, Hgl, Hfix, Hk. simpl. rewrite Hfixl. auto.
Qed.
End Elementwise.

Lemma prepare_convert_fixed (v v' : PyVal) :
  prepare_convert v = Return v' ->
  float_free v' = true /\ prepare_convert v' = Return v'.
Proof.
  revert v'. induction v as [| b | n | f | d | s | s | l IH | l IH | kvs IH]
    using PyProps.PyVal_nested_ind; intros v'; cbn [prepare_convert];
    try (intros [= <-]; split; reflexivity).
  - destruct (Decimal_of_string (float_repr f)) as [d | e]; [|discriminate].
    intros [= <-]. split; reflexivity.
  - destruct (omap_list prepare_convert l) as [l1 | e] eqn:Hl; [|discriminate].
    intros [= <-].
    destruct (omap_list_fixed prepare_convert float_free l l1 IH Hl) as [Hg Hfix].
    cbn [float_free prepare_convert]. rewrite Hfix. auto.
  - destruct (omap_values prepare_convert kvs) as [l1 | e] eqn:Hl; [|discriminate].
    intros [= <-].
    destruct (omap_values_fixed prepare_convert float_free kvs l1 IH Hl) as (Hg & Hfix & _).
    cbn [float_free prepare_convert]. rewrite Hfix. auto.
Qed.

Lemma deserialize_convert_fixed (v v' : PyVal) :
  deserialize_convert v = Return v' ->
  decimal_free v' = true /\ deserialize_convert v' = Return v'.
Proof.
  revert v'. induction v as [| b | n | f | d | s | s | l IH | l IH | kvs IH]
    using PyProps.PyVal_nested_ind; intros v'; cbn [deserialize_convert];
    try (intros [= <-]; split; reflexivity).
  - destruct (Decimal_mod d (Decimal_of_Z 1)) as [r | e]; [|discriminate]. cbn [obind].
    destruct (Decimal_eq_Z r 0).
    + destruct (Decimal_int d) as [n | e]; [|discriminate].
      intros [= <-]. split; reflexivity.
    + intros [= <-]. split; reflexivity.
  - destruct (omap_list deserialize_convert l) as [l1 | e] eqn:Hl; [|discriminate].
    intros [= <-].
    destruct (omap_list_fixed deserialize_convert decimal_free l l1 IH Hl) as [Hg Hfix].
    cbn [decimal_free deserialize_convert]. rewrite Hfix. auto.
  - destruct (omap_values deserialize_convert kvs) as [l1 | e] eqn:Hl; [|discriminate].
    intros [= <-].
    destruct (omap_values_fixed deserialize_convert decimal_free kvs l1 IH Hl)
      as (Hg & Hfix & _).
    cbn [decimal_free deserialize_convert]. rewrite Hfix. auto.
Qed.

Lemma Forall_all {A} (P : A -> Prop) (l : list A) : (forall x, P x) -> Forall P l.
Proof. intros H. induction l; constructor; auto. Qed.

(** X12: what [_prepare_for_dynamo] returns has the attribute names of
    the item in their order, holds no float at the top, in a list or in
    a nested dict, and is left as it is by a second conversion.  A tuple
    is not a list: floats inside one are not converted. *)
Theorem prepare_for_dynamo_result (item item' : PyVal) :
  _prepare_for_dynamo item = Return item' ->
  keys item' = keys item
  /\ float_free item' = true
  /\ _prepare_for_dynamo item' = Return item'
  /\ forall k l, _prepare_for_dynamo (VDict [(k, VTuple l)]) = Return (VDict [(k, VTuple l)]).
Proof.
  unfold _prepare_for_dynamo. destruct item as [| | | | | | | | | kvs]; try discriminate.
  destruct (omap_values prepare_convert kvs) as [kvs1 | e] eqn:Hk; [|discriminate].
  intros [= <-].
  destruct (omap_values_fixed prepare_convert float_free kvs kvs1) as (Hg & Hfix & Hkeys);
    [| exact Hk |].
  { apply Forall_all. intros kv v'. apply prepare_convert_fixed. }
  cbn [keys float_free]. rewrite Hfix. auto.
Qed.

Lemma prepare_for_dynamo_sample :
  _prepare_for_dynamo (VDict sample_item)
  = Return (VDict
      [("sku", VStr "A-17"); ("price", VDecimal (DFinite false 25 (-1)));
       ("units", VDecimal (DFinite false 40 (-1)));
       ("ratios", VList [VDecimal (DFinite false 1 (-1)); VInt 3]);
       ("box", VDict [("mass", VDecimal (DFinite false 1 23)); ("fragile", VBool true)])])
  /\ float_free (VDict
      [("sku", VStr "A-17"); ("price", VDecimal (DFinite false 25 (-1)));
       ("units", VDecimal (DFinite false 40 (-1)));
       ("ratios", VList [VDecimal (DFinite false 1 (-1)); VInt 3]);
       ("box", VDict [("mass", VDecimal (DFinite false 1 23)); ("fragile", VBool true)])])
     = true.
Proof.
  assert (H : _prepare_for_dynamo (VDict sample_item)
    = Return (VDict
      [("sku", VStr "A-17"); ("price", VDecimal (DFinite false 25 (-1)));
       ("units", VDecimal (DFinite false 40 (-1)));
       ("ratios", VList [VDecimal (DFinite false 1 (-1)); VInt 3]);
       ("box", VDict [("mass", VDecimal (DFinite false 1 23)); ("fragile", VBool true)])]))
    by (vm_compute; reflexivity).
  split; [exact H|]. exact (proj1 (proj2 (prepare_for_dynamo_result _ _ H))).
Defined.

(** X13: what [_deserialize_item] returns is [None] for an item without
    attributes (or any other false value) and otherwise has the
    attribute names of the item in their order; it holds no Decimal at
    the top, in a list or in a nested dict, and a second conversion
    leaves it as it is. *)
Theorem deserialize_item_result (item item' : PyVal) :
  _deserialize_item item = Return item' ->
  (if truthy item then keys item' = keys item else item' = VNone)
  /\ decimal_free item' = true
  /\ _deserialize_item item' = Return item'.
Proof.
  unfold _deserialize_item. destruct (truthy item) eqn:Ht; cbn [negb].
  - destruct item as [| | | | | | | | | kvs]; try discriminate.
    destruct (omap_values deserialize_convert kvs) as [kvs1 | e] eqn:Hk; [|discriminate].
    intros [= <-].
    destruct (omap_values_fixed deserialize_convert decimal_free kvs kvs1)
      as (Hg & Hfix & Hkeys); [| exact Hk |].
    { apply Forall_all. intros kv v'. apply deserialize_convert_fixed. }
    assert (Ht1 : truthy (VDict kvs1) = true).
    { destruct kvs as [| kv kvs]; [discriminate|]. destruct kvs1; [discriminate | reflexivity]. }
    rewrite Ht1. cbn [keys decimal_free negb]. rewrite Hfix. auto.
  - intros [= <-]. auto.
Qed.

Lemma deserialize_item_sample :
  let row := VDict [("id", VStr "m3"); ("stock", VDecimal (DFinite false 120 0));
                    ("prices", VList [VDecimal (DFinite false 25 (-1))])] in
  let item := VDict [("id", VStr "m3"); ("stock", VInt 120);
                     ("prices", VList [VFloat f_2_5])] in
  _deserialize_item row = Return item
  /\ keys item = ["id"; "stock"; "prices"]
  /\ _deserialize_item item = Return item.
Proof.
  cbv zeta.
  pose proof (deserialize_item_result
                (VDict [("id", VStr "m3"); ("stock", VDecimal (DFinite false 120 0));
                        ("prices", VList [VDecimal (DFinite false 25 (-1))])])
                (VDict [("id", VStr "m3"); ("stock", VInt 120);
                        ("prices", VList [VFloat f_2_5])])
                ltac:(vm_compute; reflexivity)) as (Hk & _ & Hfix).
  split; [vm_compute; reflexivity|]. split; [exact Hk | exact Hfix].
Defined.

(** Decimals in range are converted, whatever the nesting. *)
Lemma deserialize_convert_total (v : PyVal) :
  decimals_in_range v = true -> exists v', deserialize_convert v = Return v'.
Proof.
  induction v as [| b | n | f | d | s | s | l IH | l IH | kvs IH]
    using PyProps.PyVal_nested_ind; intros Hr; try (eexists; reflexivity).
  - cbn [decimals_in_range] in Hr.
    pose proof (RoundTripProps.deserialize_convert_Decimal d Hr) as H.
    destruct (integral d); [destruct H as (n & -> & _) | rewrite H]; eexists; reflexivity.
  - cbn [decimals_in_range] in Hr. cbn [deserialize_convert].
    assert (H : exists l', omap_list deserialize_convert l = Return l').
    { induction IH as [| v l Hv _ IHl]; [eexists; reflexivity|].
      simpl in Hr. apply andb_true_iff in Hr as [Hv1 Hl1].
      destruct (Hv Hv1) as [v' Hv']. destruct (IHl Hl1) as [l' Hl'].
      simpl. rewrite Hv'. simpl. rewrite Hl'. eexists; reflexivity. }
    destruct H as [l' ->]. eexists; reflexivity.
  - cbn [decimals_in_range] in Hr. cbn [deserialize_convert].
    assert (H : exists l', omap_values deserialize_convert kvs = Return l').
    { induction IH as [| [k v] l Hv _ IHl]; [eexists; reflexivity|].
      simpl in Hr, Hv. apply andb_true_iff in Hr as [Hv1 Hl1].
      destruct (Hv Hv1) as [v' Hv']. destruct (IHl Hl1) as [l' Hl'].
      simpl. rewrite Hv'. simpl. rewrite Hl'. eexists; reflexivity. }
    destruct H as [l' ->]. eexists; reflexivity.
Qed.

(** X14: reading does not fail on an item whose numbers are all within
    the range of the default decimal context (exponent not below the
    least one, magnitude below [10^28]), at any depth: [_deserialize_item]
    returns, and the result holds no Decimal. *)
Theorem deserialize_item_in_range (kvs : list (string * PyVal)) :
  decimals_in_range (VDict kvs) = true ->
  exists item', _deserialize_item (VDict kvs) = Return item' /\ decimal_free item' = true.
Proof.
  intros Hr. unfold _deserialize_item.
  destruct (negb (truthy (VDict kvs))); [exists VNone; auto|].
  destruct (deserialize_convert_total (VDict kvs) Hr) as [v' Hv'].
  cbn [deserialize_convert] in Hv'.
  destruct (omap_values deserialize_convert kvs) as [kvs1 | e] eqn:Hk; [|discriminate].
  exists (VDict kvs1). split; [reflexivity|].
  destruct (omap_values_fixed deserialize_convert decimal_free kvs kvs1) as (Hg & _);
    [| exact Hk | exact Hg].
  apply Forall_all. intros kv v1. apply deserialize_convert_fixed.
Qed.

Lemma deserialize_item_in_range_sample :
  decimals_in_range (VDict (DynamoModel.stock_row "d1#p1" 7)) = true
  /\ exists item',
       _deserialize_item (VDict (DynamoModel.stock_row "d1#p1" 7)) = Return item'
       /\ decimal_free item' = true.
Proof.
  split; [reflexivity|].
  exact (deserialize_item_in_range (DynamoModel.stock_row "d1#p1" 7) eq_refl).
Defined.

End ConverterProps.

(** ** aws_s3.py: the constructor and the object operations *)

Module S3ObjectProps.
Import Py S3 S3Objects.

(** *** [strip] *)

Lemma rstrip_head (c : ascii) (s : string) :
  isspace c = false ->
  rstrip_with isspace (String c s) = String c (rstrip_with isspace s).
Proof.
  intros Hc. cbn [rstrip_with]. rewrite Hc.
  destruct (rstrip_with isspace s); reflexivity.
Qed.

Lemma rstrip_idem (s : string) :
  rstrip_with isspace (rstrip_with isspace s) = rstrip_with isspace s.
Proof.
  induction s as [| c s IH]; [reflexivity|].
  cbn [rstrip_with]. destruct (rstrip_with isspace s) as [| c' r] eqn:Hr.
  - destruct (isspace c) eqn:Hc; [reflexivity|]. cbn [rstrip_with]. rewrite Hc. reflexivity.
  - cbn [rstrip_with] in *. rewrite IH. reflexivity.
Qed.

Lemma lstrip_head (s : string) :
  match lstrip_with isspace s with
  | EmptyString => True
  | String c _ => isspace c = false
  end.
Proof.
  induction s as [| c s IH]; simpl; [exact I|].
  destruct (isspace c) eqn:Hc; [exact IH | exact Hc].
Qed.

(** Stripping a stripped string changes nothing. *)
Lemma strip_idem (s : string) : strip (strip s) = strip s.
Proof.
  unfold strip. pose proof (lstrip_head s) as Hl.
  destruct (lstrip_with isspace s) as [| c t]; [reflexivity|].
  rewrite (rstrip_head c t Hl). cbn [lstrip_with]. rewrite Hl.
  rewrite <- (rstrip_head c t Hl). apply rstrip_idem.
Qed.

Lemma truthy_str (s : string) : truthy (VStr s) = true <-> s <> EmptyString.
Proof. destruct s; simpl; split; congruence. Qed.

(** *** Requests are only added

    [extends m]: running [m] keeps the requests sent so far and adds to
    them. *)

Section Extends.
Context {R : Type}.

Lemma extends_ret {A} (a : A) (w : World R) :
  exists rest, trace (snd (ret a w)) = trace w ++ rest.
Proof. exists []. rewrite app_nil_r. reflexivity. Qed.

Lemma extends_raise {A} (e : exn) (w : World R) :
  exists rest, trace (snd (raise (A := A) e w)) = trace w ++ rest.
Proof. exists []. rewrite app_nil_r. reflexivity. Qed.

Lemma extends_lift {A} (o : Outcome A) (w : World R) :
  exists rest, trace (snd (lift o w)) = trace w ++ rest.
Proof. exists []. rewrite app_nil_r. reflexivity. Qed.

Lemma extends_print (line : string) (w : World R) :
  exists rest, trace (snd (print line w)) = trace w ++ rest.
Proof. exists []. rewrite app_nil_r. reflexivity. Qed.

Lemma extends_remote_call (svc : Service R) op args (w : World R) :
  exists rest, trace (snd (remote_call svc op args w)) = trace w ++ rest.
Proof.
  unfold remote_call. destruct (svc op args (remote w)) as [o r]. eexists. reflexivity.
Qed.

Lemma extends_bind {A B} (m : M R A) (k : A -> M R B) :
  (forall w, exists rest, trace (snd (m w)) = trace w ++ rest) ->
  (forall a w, exists rest, trace (snd (k a w)) = trace w ++ rest) ->
  forall w, exists rest, trace (snd (bind m k w)) = trace w ++ rest.
Proof.
  intros Hm Hk w. unfold bind. destruct (Hm w) as [r1 H1].
  destruct (m w) as [[a | e] w1]; simpl in H1.
  - destruct (Hk a w1) as [r2 H2]. exists (r1 ++ r2). rewrite H2, H1, app_assoc. reflexivity.
  - exists r1. exact H1.
Qed.

Lemma extends_try_except {A} (body : M R A) (catches : exn -> bool) (handler : exn -> M R A) :
  (forall w, exists rest, trace (snd (body w)) = trace w ++ rest) ->
  (forall e w, exists rest, trace (snd (handler e w)) = trace w ++ rest) ->
  forall w, exists rest, trace (snd (try_except body catches handler w)) = trace w ++ rest.
Proof.
  intros Hm Hk w. unfold try_except. destruct (Hm w) as [r1 H1].
  destruct (body w) as [[a | e] w1]; simpl in H1.
  - exists r1. exact H1.
  - destruct (catches e); [|exists r1; exact H1].
    destruct (Hk e w1) as [r2 H2]. exists (r1 ++ r2). rewrite H2, H1, app_assoc. reflexivity.
Qed.

Lemma ensure_bucket_exists_extends (s3 : Service R) (self : S3Manager) (w : World R) :
  exists rest, trace (snd (_ensure_bucket_exists s3 self w)) = trace w ++ rest.
Proof.
  revert w. unfold _ensure_bucket_exists.
  apply extends_try_except.
  - apply extends_bind; [intros w; apply extends_remote_call|]. intros response.
    apply extends_bind; [intros w; apply extends_lift|]. intros existing.
    destruct (negb (list_contains existing _)); [|intros w; apply extends_ret].
    apply extends_bind; [intros w; apply extends_print|]. intros _.
    apply extends_bind; [|intros _ w; apply extends_print].
    destruct (py_eq _ _); intros w; apply extends_remote_call.
  - intros e. apply extends_bind; [intros w; apply extends_print|].
    intros _ w. apply extends_raise.
Qed.
End Extends.

(** X15: whatever the endpoint answers, a manager that the constructor
    returns has a name that is not blank and carries no white space
    around it (the stripped argument), and a region that is the argument
    or, for a false one such as [None] or the empty string, us-east-1;
    the client was created for that region before anything else. *)
Theorem init_result {R} (s3 : Service R) (bucket_name region_name : PyVal)
    (w w' : World R) (self : S3Manager) :
  __init__ s3 bucket_name region_name w = (Return self, w') ->
  (exists s, bucket_name = VStr s /\ S3.bucket_name self = strip s)
  /\ S3.bucket_name self <> EmptyString
  /\ strip (S3.bucket_name self) = S3.bucket_name self
  /\ S3.region_name self = (if truthy region_name then region_name else VStr "us-east-1")
  /\ truthy (S3.region_name self) = true
  /\ exists rest,
       trace w' = trace w
                  ++ MkCall "boto3.client"
                       {[ "service_name" := VStr "s3"; "region_name" := S3.region_name self ]}
                     :: rest.
Proof.
  unfold __init__. destruct bucket_name as [| | | | | s | | | |]; try discriminate.
  destruct (truthy (VStr (strip s))) eqn:Hs; cbn [negb]; [|discriminate].
  unfold bind at 1. unfold remote_call at 1.
  destruct (s3 "boto3.client" _ (remote w)) as [[v | e] r0]; [|discriminate].
  unfold bind at 1.
  match goal with |- context [_ensure_bucket_exists s3 ?m ?w0] =>
    pose proof (ensure_bucket_exists_extends s3 m w0) as Htr;
    destruct (_ensure_bucket_exists s3 m w0) as [[u | e] w1]; [|discriminate]
  end.
  unfold ret. intros [= <- <-]. cbn [S3.bucket_name S3.region_name].
  split; [exists s; auto|]. split; [apply truthy_str, Hs|].
  split; [apply strip_idem|]. unfold py_or.
  split; [reflexivity|].
  split; [destruct (truthy region_name) eqn:Hr; [exact Hr | reflexivity]|].
  destruct Htr as [rest Hrest]. cbn [snd trace] in Hrest. rewrite Hrest.
  exists rest. rewrite <- app_assoc. reflexivity.
Qed.

Lemma init_result_sample :
  let w := MkWorld ["stock"] [] [] in
  exists w',
    __init__ S3Model.s3_service (VStr " parts ") VNone w
    = (Return (MkS3Manager "parts" (VStr "us-east-1")), w')
    /\ strip "parts" = "parts".
Proof.
  eexists. split; [vm_compute; reflexivity|].
  exact (proj1 (proj2 (proj2 (init_result S3Model.s3_service (VStr " parts ") VNone
                                 (MkWorld ["stock"] [] []) _ (MkS3Manager "parts" (VStr "us-east-1"))
                                 eq_refl)))).
Defined.


(** *** The constructor on the reference endpoint *)

Lemma bucket_names_listing (buckets : list string) :
  bucket_names (VList (map (fun b => VDict [("Name", VStr b)]) buckets))
  = Return (map VStr buckets).
Proof.
  unfold bucket_names. cbn [py_iter obind].
  induction buckets as [| b l IH]; [reflexivity|].
  cbn [map omap_list]. rewrite IH. reflexivity.
Qed.

Lemma list_contains_names (buckets : list string) (name : string) :
  list_contains (map VStr buckets) (VStr name) = existsb (String.eqb name) buckets.
Proof.
  unfold list_contains. induction buckets as [| b l IH]; [reflexivity|].
  cbn [map existsb py_eq]. rewrite IH, (String.eqb_sym b name). reflexivity.
Qed.

Lemma existsb_eqb_In (name : string) (buckets : list string) :
  existsb (String.eqb name) buckets = true <-> In name buckets.
Proof.
  rewrite existsb_exists. split.
  - intros (b & Hin & Hb). apply String.eqb_eq in Hb. congruence.
  - intros Hin. exists name. split; [exact Hin | apply String.eqb_refl].
Qed.

(** X16: on the reference endpoint, the constructor with a name that is
    not blank returns the manager, and the bucket of the stripped name
    exists afterwards.  When it existed before, the buckets are listed
    and nothing else happens: no bucket is created and nothing is
    printed, so constructing a second manager for the name creates
    nothing.  When it did not, it is created, once, after the others. *)
Theorem init_ensures_bucket (name : string) (region : PyVal) (buckets : list string)
    (tr : list Call) (out : list string) :
  strip name <> EmptyString ->
  let '(r, w) := __init__ S3Model.s3_service (VStr name) region (MkWorld buckets tr out) in
  r = Return (MkS3Manager (strip name) (py_or region (VStr "us-east-1")))
  /\ In (strip name) (remote w)
  /\ (if existsb (String.eqb (strip name)) buckets then
        remote w = buckets /\ stdout w = out
        /\ map call_op (trace w) = map call_op tr ++ ["boto3.client"; "list_buckets"]
      else
        remote w = buckets ++ [strip name]
        /\ map call_op (trace w)
           = map call_op tr ++ ["boto3.client"; "list_buckets"; "create_bucket"]).
Proof.
  intros Hname. apply truthy_str in Hname.
  unfold __init__. rewrite Hname. cbn [negb].
  unfold bind at 1. unfold remote_call at 1. cbn [remote trace stdout].
  unfold S3Model.s3_service at 1. cbn [String.eqb Ascii.eqb Bool.eqb].
  unfold bind at 1.
  unfold _ensure_bucket_exists, try_except.
  unfold bind at 1. unfold remote_call at 1. cbn [remote trace stdout].
  unfold S3Model.s3_service at 1. cbn [String.eqb Ascii.eqb Bool.eqb].
  unfold bind at 1, lift at 1. cbn [dict_get assoc String.eqb Ascii.eqb Bool.eqb obind].
  rewrite bucket_names_listing. cbn [bucket_name region_name].
  rewrite list_contains_names.
  destruct (existsb (String.eqb (strip name)) buckets) eqn:Hex; cbn [negb].
  - unfold ret. cbn [remote trace stdout]. split; [reflexivity|].
    split; [apply existsb_eqb_In, Hex|].
    repeat split. rewrite !map_app, <- app_assoc. reflexivity.
  - assert (Hcreate : forall args : gmap string PyVal,
              args !! "Bucket" = Some (VStr (strip name)) ->
              S3Model.s3_service "create_bucket" args buckets
              = (Return (VDict [("Location", VStr ("/" +:+ strip name))]),
                 buckets ++ [strip name])).
    { intros args Ha. unfold S3Model.s3_service.
      cbn [String.eqb Ascii.eqb Bool.eqb]. rewrite Ha, Hex. reflexivity. }
    unfold bind at 1, print at 1. cbn [remote trace stdout].
    unfold bind at 1.
    destruct (py_eq (py_or region (VStr "us-east-1")) (VStr "us-east-1"));
      unfold remote_call at 1; cbn [remote trace stdout];
      rewrite Hcreate by (repeat first [ rewrite lookup_insert_eq | rewrite lookup_singleton_eq
                                       | rewrite lookup_insert_ne by discriminate ]; reflexivity);
      unfold print, ret; cbn [remote trace stdout];
      (split; [reflexivity|]); (split; [apply in_or_app; right; left; reflexivity|]);
      (split; [reflexivity|]); rewrite !map_app, <- !app_assoc; reflexivity.
Qed.

Lemma init_ensures_bucket_twice :
  strip " parts " <> EmptyString
  /\ let '(r, w) := __init__ S3Model.s3_service (VStr " parts ") (VStr "eu-west-1")
                      (MkWorld ["stock"; "parts"] [] []) in
     remote w = ["stock"; "parts"] /\ stdout w = [].
Proof.
  split; [discriminate|].
  pose proof (init_ensures_bucket " parts " (VStr "eu-west-1") ["stock"; "parts"] [] []
                ltac:(discriminate)) as H.
  destruct (__init__ _ _ _ _) as [r w].
  destruct H as (_ & _ & H). change (existsb _ _) with true in H. cbv iota in H.
  split; apply H.
Defined.

(** *** The object operations *)

(** X17: [upload_file], [upload_fileobj], [download_file] and
    [delete_file] send one request each, for the manager's bucket and
    the key.  After a response the success line is printed.  An
    exception of the request always reaches the caller unchanged; a line
    is printed for it only when it is a ClientError. *)
Theorem object_operations_reraise {R} (s3 : Service R) (self : S3Manager)
    (file_path key download_path : string) (object_name : option string)
    (file_obj : PyVal) (w : World R) :
  let b := bucket_name self in
  let name := key_for file_path object_name in
  reraised s3
    (MkCall "upload_file"
       {[ "Filename" := VStr file_path; "Bucket" := VStr b; "Key" := VStr name ]})
    ("File uploaded to S3: " +:+ b +:+ "/" +:+ name) "Upload failed: " w
    (upload_file s3 self file_path object_name w)
  /\ reraised s3
       (MkCall "upload_fileobj" {[ "Fileobj" := file_obj; "Bucket" := VStr b; "Key" := VStr key ]})
       ("File object uploaded: " +:+ b +:+ "/" +:+ key) "File upload failed: " w
       (upload_fileobj s3 self file_obj key w)
  /\ reraised s3
       (MkCall "download_file"
          {[ "Bucket" := VStr b; "Key" := VStr key; "Filename" := VStr download_path ]})
       ("File downloaded: " +:+ b +:+ "/" +:+ key) "Download failed: " w
       (download_file s3 self key download_path w)
  /\ reraised s3
       (MkCall "delete_object" {[ "Bucket" := VStr b; "Key" := VStr key ]})
       ("Deleted object: " +:+ b +:+ "/" +:+ key) "Error deleting object: " w
       (delete_file s3 self key w).
Proof.
  cbv zeta.
  unfold reraised, upload_file, upload_fileobj, download_file, delete_file,
    try_except, bind, remote_call, print, raise.
  cbn [call_op call_args].
  repeat split;
    match goal with
    | |- context [s3 ?op ?args (remote w)] =>
        destruct (s3 op args (remote w)) as [[v | e] r]; cbn [remote trace stdout];
        [reflexivity | destruct (is_ClientError e); reflexivity]
    end.
Qed.

(** *** The default key of [upload_file] *)

Lemma has_slash_basename (p : string) : has_slash (basename p) = false.
Proof.
  induction p as [| c p IH]; [reflexivity|].
  cbn [basename]. destruct (has_slash p) eqn:Hp; [exact IH|].
  destruct (Ascii.eqb c "/") eqn:Hc; [exact Hp|].
  cbn [has_slash]. rewrite Hc, Hp. reflexivity.
Qed.

Lemma basename_suffix (p : string) :
  exists dir, p = dir +:+ basename p /\ (dir = EmptyString \/ exists d, dir = d +:+ "/").
Proof.
  induction p as [| c p IH]; [exists EmptyString; auto|].
  cbn [basename]. destruct (has_slash p) eqn:Hp.
  - destruct IH as (dir & Hd & Hor). exists (String c dir). split.
    + change (String c p = String c (dir +:+ basename p)). rewrite <- Hd. reflexivity.
    + right. destruct Hor as [-> | (d & ->)].
      * destruct p as [| c' p']; [discriminate|].
        cbn [basename] in Hd. cbn [has_slash] in Hp.
        exfalso. change (String c' p' = basename (String c' p')) in Hd.
        pose proof (has_slash_basename (String c' p')) as Hb. rewrite <- Hd in Hb.
        cbn [has_slash] in Hb. congruence.
      * exists (String c d). reflexivity.
  - destruct (Ascii.eqb c "/") eqn:Hc.
    + apply Ascii.eqb_eq in Hc. subst c. exists "/". split; [reflexivity|].
      right. exists EmptyString. reflexivity.
    + exists EmptyString. auto.
Qed.

Lemma basename_no_slash (p : string) : has_slash p = false -> basename p = p.
Proof.
  destruct p as [| c p]; [reflexivity|]. cbn [has_slash basename].
  intros H. apply orb_false_iff in H as [Hc Hp]. rewrite Hp, Hc. reflexivity.
Qed.

(** X18: without an object name, or with an empty one, [upload_file]
    stores the file under the last component of its path: the key holds
    no slash, the path is a directory part (empty, or ending in a slash)
    followed by the key, and a path without a slash is its own key.  A
    name that is not empty is the key as it is, slashes included. *)
Theorem upload_file_default_key {R} (s3 : Service R) (self : S3Manager)
    (file_path : string) (c : ascii) (name : string) :
  let key := basename file_path in
  upload_file s3 self file_path None = upload_file s3 self file_path (Some key)
  /\ upload_file s3 self file_path (Some EmptyString) = upload_file s3 self file_path None
  /\ key_for file_path (Some (String c name)) = String c name
  /\ has_slash key = false
  /\ (exists dir, file_path = dir +:+ key /\ (dir = EmptyString \/ exists d, dir = d +:+ "/"))
  /\ (if has_slash file_path then True else key = file_path).
Proof.
  cbv zeta. split; [|split; [reflexivity|split; [reflexivity|]]].
  - unfold upload_file. replace (key_for file_path (Some (basename file_path)))
      with (key_for file_path None); [reflexivity|].
    unfold key_for. destruct (basename file_path); reflexivity.
  - split; [apply has_slash_basename|]. split; [apply basename_suffix|].
    destruct (has_slash file_path) eqn:H; [exact I | apply basename_no_slash, H].
Qed.

(** *** Listing *)

Lemma listed_keys_contents (entries : list (PyVal * list (string * PyVal)))
    (others : list (string * PyVal)) :
  listed_keys (VDict (("Contents", VList (map (fun e => VDict (("Key", fst e) :: snd e)) entries))
                        :: others))
  = Return (map fst entries).
Proof.
  unfold listed_keys. cbn [dict_get assoc String.eqb Ascii.eqb Bool.eqb obind py_iter].
  induction entries as [| [k rest] entries IH]; [reflexivity|].
  cbn [map omap_list dict_item assoc String.eqb Ascii.eqb Bool.eqb obind fst snd].
  rewrite IH. reflexivity.
Qed.

(** X19: [list_objects] never raises.  For a manager with a name it
    sends one request, for the bucket and the prefix (the empty string
    for a false one), and never a second one: a listing is not
    continued.  It returns the key of every entry of the [Contents] of
    the response, in order, and the empty list for a response without
    [Contents], and prints nothing.  When the request raises, or the
    response cannot be read, it prints one line, [S3 list error: ] and the
    error, and returns the empty list; for a manager whose name is blank
    it does so without a request. *)
Theorem list_objects_outcome {R} (s3 : Service R) (self : S3Manager)
    (prefix : PyVal) (w : World R) :
  let args : gmap string PyVal :=
    {[ "Bucket" := VStr (bucket_name self); "Prefix" := py_or prefix (VStr "") ]} in
  let sent := trace w ++ [MkCall "list_objects_v2" args] in
  let failed (e : exn) := stdout w ++ ["S3 list error: " +:+ exn_str e] in
  list_objects s3 self prefix w
  = (if negb (truthy (VStr (strip (bucket_name self)))) then
       (Return [],
        MkWorld (remote w) (trace w)
          (stdout w ++ ["S3 list error: Invalid bucket name provided for list_objects()."]))
     else
       match s3 "list_objects_v2" args (remote w) with
       | (Return response, r) =>
           match listed_keys response with
           | Return keys => (Return keys, MkWorld r sent (stdout w))
           | Raise e => (Return [], MkWorld r sent (failed e))
           end
       | (Raise e, r) => (Return [], MkWorld r sent (failed e))
       end)
  /\ (forall entries others,
        listed_keys (VDict (("Contents",
                             VList (map (fun e => VDict (("Key", fst e) :: snd e)) entries))
                              :: others))
        = Return (map fst entries))
  /\ (forall kvs, assoc "Contents" kvs = None -> listed_keys (VDict kvs) = Return []).
Proof.
  cbv zeta. split; [|split].
  - unfold list_objects, try_except, bind, raise, remote_call, lift, print, ret, any_Exception.
    destruct (negb (truthy (VStr (strip (bucket_name self))))); [reflexivity|].
    destruct (s3 "list_objects_v2" _ (remote w)) as [[response | e] r]; [|reflexivity].
    destruct (listed_keys response) as [keys | e]; reflexivity.
  - apply listed_keys_contents.
  - intros kvs H. unfold listed_keys. cbn [dict_get]. rewrite H. reflexivity.
Qed.

(** *** Upload, list and delete on the reference store *)

Section ReferenceStore.
Import S3ObjectModel.
Variable self : S3Manager.
Hypothesis named : strip (bucket_name self) <> EmptyString.

Local Abbreviation b := (bucket_name self).

Ltac map_lookup :=
  repeat first
    [ rewrite lookup_insert_eq
    | rewrite lookup_singleton_eq
    | rewrite lookup_insert_ne by discriminate ].

Lemma keys_listing (ks : list string) :
  omap_list (fun item => dict_item item "Key") (map (fun k => VDict [("Key", VStr k)]) ks)
  = Return (map VStr ks).
Proof.
  induction ks as [| k ks IH]; [reflexivity|].
  cbn [map omap_list]. rewrite IH. reflexivity.
Qed.

(** A listing on the reference store: the first 1000 keys of the bucket
    under the prefix; the keys after them are not asked for. *)
Lemma list_objects_run (p : string) (st : Store) (tr : list Call) (out : list string) :
  exists call,
    list_objects object_service self (VStr p) (MkWorld st tr out)
    = (Return (map VStr (firstn max_keys (keys_of b p st))), MkWorld st (tr ++ [call]) out).
Proof.
  unfold list_objects, try_except.
  apply truthy_str in named. rewrite named. cbn [negb].
  assert (Hp : py_or (VStr p) (VStr "") = VStr p) by (destruct p; reflexivity).
  rewrite Hp. unfold bind, remote_call, lift, listed_keys. cbn [remote trace stdout].
  unfold object_service. cbn [String.eqb Ascii.eqb Bool.eqb orb]. map_lookup.
  destruct (firstn max_keys (keys_of b p st)) as [| k ks] eqn:Hk.
  - eexists. reflexivity.
  - cbn [dict_get assoc String.eqb Ascii.eqb Bool.eqb obind py_iter].
    rewrite keys_listing. eexists. reflexivity.
Qed.

Lemma upload_fileobj_run (file_obj : PyVal) (k : string) (st : Store)
    (tr : list Call) (out : list string) :
  exists call,
    upload_fileobj object_service self file_obj k (MkWorld st tr out)
    = (Return tt,
       MkWorld (put_object b k st) (tr ++ [call])
         (out ++ ["File object uploaded: " +:+ b +:+ "/" +:+ k])).
Proof.
  unfold upload_fileobj, try_except, bind, remote_call, print. cbn [remote trace stdout].
  unfold object_service. cbn [String.eqb Ascii.eqb Bool.eqb orb]. map_lookup.
  eexists. reflexivity.
Qed.

Lemma delete_file_run (k : string) (st : Store) (tr : list Call) (out : list string) :
  exists call,
    delete_file object_service self k (MkWorld st tr out)
    = (Return tt,
       MkWorld (remove_object b k st) (tr ++ [call])
         (out ++ ["Deleted object: " +:+ b +:+ "/" +:+ k])).
Proof.
  unfold delete_file, try_except, bind, remote_call, print. cbn [remote trace stdout].
  unfold object_service. cbn [String.eqb Ascii.eqb Bool.eqb orb]. map_lookup.
  eexists. reflexivity.
Qed.

Lemma In_insert_key (x k : string) (l : list string) :
  In x (insert_key k l) <-> x = k \/ In x l.
Proof.
  induction l as [| k' l IH]; cbn [insert_key].
  - simpl. intuition.
  - destruct (String.leb k k'); simpl in *; intuition.
Qed.

Lemma In_sort_keys (x : string) (l : list string) : In x (sort_keys l) <-> In x l.
Proof.
  unfold sort_keys. induction l as [| k l IH]; cbn [fold_right]; [reflexivity|].
  rewrite In_insert_key, IH. simpl. intuition.
Qed.

(** The keys of a listing are the stored keys of the bucket that start
    with the prefix. *)
Lemma In_keys_of (x p : string) (st : Store) :
  In x (keys_of b p st) <-> In (b, x) st /\ String.prefix p x = true.
Proof.
  unfold keys_of. rewrite In_sort_keys, in_map_iff. split.
  - intros ([b' k'] & Hk & Hin). simpl in Hk. subst k'.
    apply filter_In in Hin as [Hin Hf]. cbn [fst snd] in Hf.
    apply andb_true_iff in Hf as [Hb Hp]. apply String.eqb_eq in Hb. subst b'. auto.
  - intros [Hin Hp]. exists (b, x). split; [reflexivity|].
    apply filter_In. split; [exact Hin|]. cbn [fst snd].
    rewrite String.eqb_refl, Hp. reflexivity.
Qed.

Lemma In_put_object (x k : string) (st : Store) :
  In (b, x) (put_object b k st) <-> x = k \/ In (b, x) st.
Proof.
  unfold put_object, stored. destruct (existsb (same b k) st) eqn:Hex.
  - split; [auto|]. intros [-> | H]; [|exact H].
    apply existsb_exists in Hex as ([b' k'] & Hin & Hs). unfold same in Hs.
    apply andb_true_iff in Hs as [Hb Hk]. apply String.eqb_eq in Hb, Hk.
    simpl in Hb, Hk. subst. exact Hin.
  - rewrite in_app_iff. simpl. split.
    + intros [H | [H | []]]; [auto|]. injection H as ->. auto.
    + intros [-> | H]; auto.
Qed.

Lemma In_remove_object (x k : string) (st : Store) :
  In (b, x) (remove_object b k st) <-> x <> k /\ In (b, x) st.
Proof.
  unfold remove_object. rewrite filter_In. unfold same. cbn [fst snd].
  rewrite String.eqb_refl. cbn [andb].
  destruct (String.eqb_spec k x) as [-> | Hne]; cbn [negb]; split.
  - intros [_ H]. discriminate.
  - intros [H _]. congruence.
  - intros [H _]. split; [congruence | exact H].
  - intros [_ H]. auto.
Qed.

(** X20: on the reference store and for a manager with a name.  A
    listing returns the first 1000 keys of the bucket under the prefix,
    in key order, and no more: the listing is not continued.  An object
    uploaded under a key is stored, and it is listed under a prefix of
    its key when the bucket holds at most 1000 keys under that prefix.
    After [delete_file] the key is stored no longer and never listed;
    the other keys are stored as before.  Each step prints its success
    line and no error. *)
Theorem upload_list_delete (file_obj : PyVal) (k p : string) (st : Store)
    (tr : list Call) (out : list string) :
  let '(r1, w1) := upload_fileobj object_service self file_obj k (MkWorld st tr out) in
  let '(r2, w2) := list_objects object_service self (VStr p) w1 in
  let '(r3, w3) := delete_file object_service self k w2 in
  let '(r4, w4) := list_objects object_service self (VStr p) w3 in
  let keys1 := keys_of b p (remote w1) in
  let keys3 := keys_of b p (remote w3) in
  r1 = Return tt /\ r3 = Return tt
  /\ r2 = Return (map VStr (firstn max_keys keys1))
  /\ r4 = Return (map VStr (firstn max_keys keys3))
  /\ (String.prefix p k = true -> In k keys1)
  /\ (String.prefix p k = true -> (length keys1 <= max_keys)%nat ->
      In k (firstn max_keys keys1))
  /\ (forall k', In k' keys3 <-> k' <> k /\ In k' keys1)
  /\ ~ In k (firstn max_keys keys3)
  /\ stdout w4 = out ++ ["File object uploaded: " +:+ b +:+ "/" +:+ k;
                         "Deleted object: " +:+ b +:+ "/" +:+ k].
Proof.
  destruct (upload_fileobj_run file_obj k st tr out) as [c1 ->].
  destruct (list_objects_run p (put_object b k st) (tr ++ [c1])
              (out ++ ["File object uploaded: " +:+ b +:+ "/" +:+ k])) as [c2 ->].
  destruct (delete_file_run k (put_object b k st) ((tr ++ [c1]) ++ [c2])
              (out ++ ["File object uploaded: " +:+ b +:+ "/" +:+ k])) as [c3 ->].
  destruct (list_objects_run p (remove_object b k (put_object b k st))
              (((tr ++ [c1]) ++ [c2]) ++ [c3])
              ((out ++ ["File object uploaded: " +:+ b +:+ "/" +:+ k])
                 ++ ["Deleted object: " +:+ b +:+ "/" +:+ k])) as [c4 ->].
  cbv zeta. cbn [remote stdout].
  assert (Hstored : String.prefix p k = true -> In k (keys_of b p (put_object b k st))).
  { intros Hp. apply In_keys_of. split; [apply In_put_object; auto | exact Hp]. }
  assert (Hrest : forall k', In k' (keys_of b p (remove_object b k (put_object b k st)))
                             <-> k' <> k /\ In k' (keys_of b p (put_object b k st))).
  { intros k'. rewrite !In_keys_of, In_remove_object. tauto. }
  split; [reflexivity|]. split; [reflexivity|]. split; [reflexivity|].
  split; [reflexivity|]. split; [exact Hstored|]. split.
  { intros Hp Hlen. rewrite firstn_all2 by exact Hlen. apply Hstored, Hp. }
  split; [exact Hrest|]. split.
  { intros Hin.
    assert (Hall : In k (keys_of b p (remove_object b k (put_object b k st)))).
    { rewrite <- (firstn_skipn max_keys). apply in_or_app. left. exact Hin. }
    apply Hrest in Hall. tauto. }
  rewrite <- app_assoc. reflexivity.
Qed.
End ReferenceStore.

Lemma upload_list_delete_sample :
  let self := MkS3Manager "parts" (VStr "us-east-1") in
  let st := [("parts", "img/b.png"); ("stock", "img/c.png")] in
  strip (bucket_name self) <> EmptyString
  /\ let '(r1, w1) := upload_fileobj S3ObjectModel.object_service self (VBytes "x") "img/a.png"
                       (MkWorld st [] []) in
     let '(r2, w2) := list_objects S3ObjectModel.object_service self (VStr "img/") w1 in
     let '(r3, w3) := delete_file S3ObjectModel.object_service self "img/a.png" w2 in
     let '(r4, w4) := list_objects S3ObjectModel.object_service self (VStr "img/") w3 in
     r2 = Return [VStr "img/a.png"; VStr "img/b.png"] /\ r4 = Return [VStr "img/b.png"].
Proof.
  cbv zeta. split; [discriminate|].
  pose proof (upload_list_delete (MkS3Manager "parts" (VStr "us-east-1")) ltac:(discriminate)
                (VBytes "x") "img/a.png" "img/" [("parts", "img/b.png"); ("stock", "img/c.png")]
                [] []) as H.
  destruct (upload_fileobj _ _ _ _ _) as [r1 w1] eqn:E1.
  injection E1 as <- <-.
  destruct (list_objects _ _ _ _) as [r2 w2] eqn:E2.
  vm_compute in E2. injection E2 as <- <-.
  destruct (delete_file _ _ _ _) as [r3 w3] eqn:E3.
  vm_compute in E3. injection E3 as <- <-.
  destruct (list_objects _ _ _ _) as [r4 w4] eqn:E4.
  vm_compute in E4. injection E4 as <- <-.
  destruct H as (_ & _ & H2 & H4 & _).
  split; reflexivity.
Defined.

End S3ObjectProps.

(** ** aws_sns.py: errors, and the operations on the reference endpoint *)

Module SNSMoreProps.
Import Py SNS.

Ltac map_lookup :=
  repeat first
    [ rewrite lookup_insert_eq
    | rewrite lookup_singleton_eq
    | rewrite lookup_insert_ne by discriminate ].

Section Failing.
Context {R : Type}.
Variable client : Service R.
Variable w : World R.
Variable e : exn.
(** Every request fails with [e] in the state of [w]. *)
Hypothesis failing : forall op args, fst (client op args (remote w)) = Raise e.

Lemma remote_call_failing op args :
  exists r, remote_call client op args w = (Raise e, MkWorld r (trace w ++ [MkCall op args]) (stdout w)).
Proof.
  unfold remote_call. pose proof (failing op args) as H.
  destruct (client op args (remote w)) as [o r]. simpl in H. subst o. eexists. reflexivity.
Qed.

(** X21: with a topic set, a request that fails with a ClientError
    makes the method raise RuntimeError, with the method's prefix put
    before the message of the error; any other exception of the request
    reaches the caller as it is.  [send_low_stock_alert] fails as
    [publish_message] does, and [ensure_customer_subscription] fails with
    the error of its listing. *)
Theorem errors_translated (self : SNSManager) (topic_name product_name customer_email : string)
    (protocol endpoint filter_policy subject message message_attributes : PyVal)
    (quantity : Z) :
  truthy (topic_arn self) = true ->
  raises (json_dumps filter_policy) = false ->
  let failure (prefix : string) :=
    if is_ClientError e then Exn RuntimeError (prefix +:+ exn_msg e) else e in
  fst (create_topic client self topic_name w) = Raise (failure "Error creating topic: ")
  /\ fst (list_topics client self w) = Raise (failure "Error listing topics: ")
  /\ fst (subscribe client self protocol endpoint filter_policy w)
     = Raise (failure "Error subscribing endpoint: ")
  /\ fst (list_subscriptions client self w) = Raise (failure "Error listing subscriptions: ")
  /\ fst (publish_message client self subject message message_attributes w)
     = Raise (failure "Failed to send SNS message: ")
  /\ fst (send_low_stock_alert client self product_name quantity w)
     = Raise (failure "Failed to send SNS message: ")
  /\ fst (ensure_customer_subscription client self customer_email w)
     = Raise (failure "Error listing subscriptions: ").
Proof.
  intros Ht Hj. cbv zeta.
  assert (Hlist : fst (list_subscriptions client self w)
                  = Raise (if is_ClientError e
                           then Exn RuntimeError ("Error listing subscriptions: " +:+ exn_msg e)
                           else e)).
  { unfold list_subscriptions. rewrite Ht. cbn [negb]. unfold try_except, bind.
    destruct (remote_call_failing "list_subscriptions_by_topic" {[ "TopicArn" := topic_arn self ]})
      as [r ->].
    destruct (is_ClientError e); reflexivity. }
  assert (Hpub : forall subject message message_attributes,
            fst (publish_message client self subject message message_attributes w)
            = Raise (if is_ClientError e
                     then Exn RuntimeError ("Failed to send SNS message: " +:+ exn_msg e)
                     else e)).
  { intros s m a. unfold publish_message. rewrite Ht. cbn [negb]. unfold try_except.
    match goal with |- context [remote_call client ?op ?args w] =>
      destruct (remote_call_failing op args) as [r ->] end.
    destruct (is_ClientError e); reflexivity. }
  repeat split.
  - unfold create_topic, try_except, bind.
    destruct (remote_call_failing "create_topic" {[ "Name" := VStr topic_name ]}) as [r ->].
    destruct (is_ClientError e); reflexivity.
  - unfold list_topics, try_except, bind.
    destruct (remote_call_failing "list_topics" ∅) as [r ->].
    destruct (is_ClientError e); reflexivity.
  - unfold subscribe. rewrite Ht. cbn [negb].
    destruct (json_dumps filter_policy) as [policy | e'] eqn:Hd; [|discriminate].
    unfold bind at 1.
    destruct (truthy filter_policy); unfold bind, lift, ret, try_except;
      match goal with |- context [remote_call client ?op ?args w] =>
        destruct (remote_call_failing op args) as [r ->] end;
      destruct (is_ClientError e); reflexivity.
  - exact Hlist.
  - apply Hpub.
  - unfold send_low_stock_alert. apply Hpub.
  - unfold ensure_customer_subscription. rewrite Ht. cbn [negb]. unfold bind at 1.
    destruct (list_subscriptions client self w) as [[v | e'] w1]; simpl in Hlist;
      [discriminate | exact Hlist].
Qed.
End Failing.

Lemma errors_translated_unreachable :
  let client := LambdaModel.unreachable_service in
  let self := MkSNSManager (VStr "arn:alerts") in
  let w := MkWorld [] [] [] in
  let e := Exn BotoCoreError "EndpointConnectionError" in
  (forall op args, fst (client op args (remote w)) = Raise e)
  /\ fst (create_topic client self "alerts" w) = Raise e
  /\ fst (send_low_stock_alert client self "bolt" 3 w) = Raise e.
Proof.
  cbv zeta. split; [reflexivity|].
  pose proof (errors_translated LambdaModel.unreachable_service (MkWorld [] [] [])
                (Exn BotoCoreError "EndpointConnectionError") (fun _ _ => eq_refl)
                (MkSNSManager (VStr "arn:alerts")) "alerts" "bolt" "ana@example.org"
                VNone VNone VNone VNone VNone VNone 3 eq_refl eq_refl) as H.
  split; apply H.
Defined.

(** *** On the reference endpoint *)

Section Reference.
Import SNSModel.

(** What the adapter reads of a page: the entries of the page. *)
Lemma page_entries (name : string) (entries : list PyVal) :
  obind (dict_get (page name 0 entries) name (VList [])) py_iter
  = Return (firstn page_size entries).
Proof.
  unfold page. cbn [skipn dict_get assoc]. rewrite String.eqb_refl. reflexivity.
Qed.

Lemma page_subscriptions (entries : list PyVal) :
  dict_get (page "Subscriptions" 0 entries) "Subscriptions" (VList [])
  = Return (VList (firstn page_size entries)).
Proof. reflexivity. Qed.

Lemma topics_listing (l : list string) :
  omap_list (fun t => dict_item t "TopicArn") (map (fun t => VDict [("TopicArn", VStr t)]) l)
  = Return (map VStr l).
Proof.
  induction l as [| t l IH]; [reflexivity|]. cbn [map omap_list]. rewrite IH. reflexivity.
Qed.

Lemma list_topics_run (self : SNSManager) (st : State) (tr : list Call) (out : list string) :
  list_topics sns_service self (MkWorld st tr out)
  = (Return (map VStr (firstn page_size (topics st))),
     MkWorld st (tr ++ [MkCall "list_topics" ∅]) out).
Proof.
  unfold list_topics, try_except, bind, remote_call, lift. cbn [remote trace stdout].
  unfold sns_service. cbn [String.eqb Ascii.eqb Bool.eqb]. rewrite lookup_empty.
  cbn [position]. rewrite page_entries. cbn [obind].
  rewrite List.firstn_map, topics_listing. reflexivity.
Qed.

Lemma list_subscriptions_run (topic : string) (st : State) (tr : list Call)
    (out : list string) :
  truthy (VStr topic) = true ->
  list_subscriptions sns_service (MkSNSManager (VStr topic)) (MkWorld st tr out)
  = (Return (VList (map VDict
               (firstn page_size (List.filter (of_topic (VStr topic)) (subscriptions st))))),
     MkWorld st (tr ++ [listing_call topic]) out).
Proof.
  intros Ht. unfold list_subscriptions. cbn [topic_arn]. rewrite Ht. cbn [negb].
  unfold try_except, bind, remote_call, lift. cbn [remote trace stdout].
  unfold sns_service. cbn [String.eqb Ascii.eqb Bool.eqb]. map_lookup.
  rewrite lookup_singleton_ne by discriminate. cbn [position].
  rewrite page_subscriptions, List.firstn_map. reflexivity.
Qed.

(** X22: on the reference endpoint, [create_topic] returns the handle of
    the topic and a manager that holds it, whatever handle the manager
    had; the topic is created when there was none of the name and is
    left alone when there was one, so that a second call returns the
    same handle and adds nothing.  The handle is not empty, so the
    operations that need a topic do not refuse the manager.
    [list_topics] then returns the first page of the handles, 100 at
    most: the new handle is among them when at most 100 topics exist. *)
Theorem create_topic_then_list (self : SNSManager) (topic_name : string) (st : State)
    (tr : list Call) (out : list string) :
  let arn := topic_arn_of topic_name in
  let '(r1, w1) := create_topic sns_service self topic_name (MkWorld st tr out) in
  r1 = Return (VStr arn, MkSNSManager (VStr arn))
  /\ truthy (VStr arn) = true
  /\ topics (remote w1)
     = (if existsb (String.eqb arn) (topics st) then topics st else topics st ++ [arn])
  /\ subscriptions (remote w1) = subscriptions st
  /\ stdout w1 = out
  /\ fst (list_topics sns_service (MkSNSManager (VStr arn)) w1)
     = Return (map VStr (firstn page_size (topics (remote w1))))
  /\ ((length (topics (remote w1)) <= page_size)%nat ->
      exists handles,
        fst (list_topics sns_service (MkSNSManager (VStr arn)) w1) = Return handles
        /\ In (VStr arn) handles).
Proof.
  cbv zeta. unfold create_topic, try_except, bind, remote_call, lift, ret.
  cbn [remote trace stdout]. unfold sns_service at 1.
  cbn [String.eqb Ascii.eqb Bool.eqb]. map_lookup.
  cbn [dict_item assoc String.eqb Ascii.eqb Bool.eqb].
  split; [reflexivity|]. split; [reflexivity|].
  set (arn := topic_arn_of topic_name).
  set (st1 := if existsb (String.eqb arn) (topics st) then st
              else MkState (topics st ++ [arn]) (subscriptions st) (counter st)).
  assert (Htopics : topics st1
                    = if existsb (String.eqb arn) (topics st) then topics st
                      else topics st ++ [arn]).
  { unfold st1. destruct (existsb _ _); reflexivity. }
  assert (Hsubs : subscriptions st1 = subscriptions st).
  { unfold st1. destruct (existsb _ _); reflexivity. }
  split; [exact Htopics|]. split; [exact Hsubs|]. split; [reflexivity|].
  rewrite list_topics_run. cbn [fst remote].
  split; [reflexivity|]. intros Hlen.
  eexists. split; [reflexivity|]. rewrite firstn_all2 by exact Hlen.
  apply in_map. rewrite Htopics.
  destruct (existsb (String.eqb arn) (topics st)) eqn:Hex.
  - apply existsb_exists in Hex as (t & Hin & Ht). apply String.eqb_eq in Ht.
    subst t. exact Hin.
  - apply in_or_app. right. left. reflexivity.
Qed.

(** X23: on the reference endpoint, with a topic set and a filter policy
    that can be written as JSON ([None] included), [subscribe] returns
    the handle of the subscription of the topic for the protocol and the
    endpoint: of the one there is, or of the one it creates when there
    is none, so that a second call returns the same handle and creates
    nothing.  The subscription is among the subscriptions of the topic,
    and [list_subscriptions] then returns the first page of them, 100 at
    most. *)
Theorem subscribe_then_list (topic : string) (protocol endpoint filter_policy : PyVal)
    (st : State) (tr : list Call) (out : list string) :
  truthy (VStr topic) = true ->
  raises (json_dumps filter_policy) = false ->
  let self := MkSNSManager (VStr topic) in
  let found := List.find (subscribed topic protocol endpoint) (subscriptions st) in
  let sub :=
    match found with
    | Some sub => sub
    | None => make_subscription topic protocol endpoint (counter st)
    end in
  let '(r1, w1) := subscribe sns_service self protocol endpoint filter_policy
                     (MkWorld st tr out) in
  let '(r2, w2) := list_subscriptions sns_service self w1 in
  let listed := List.filter (of_topic (VStr topic)) (subscriptions (remote w1)) in
  r1 = Return (handle sub)
  /\ subscriptions (remote w1)
     = (match found with Some _ => subscriptions st | None => subscriptions st ++ [sub] end)
  /\ In sub listed
  /\ r2 = Return (VList (map VDict (firstn page_size listed)))
  /\ stdout w2 = out.
Proof.
  intros Ht Hj. cbv zeta.
  set (found := List.find (subscribed topic protocol endpoint) (subscriptions st)).
  set (sub := match found with
              | Some sub => sub
              | None => make_subscription topic protocol endpoint (counter st)
              end).
  set (st1 := match found with
              | Some _ => st
              | None => MkState (topics st) (subscriptions st ++ [sub]) (counter st + 1)
              end).
  assert (Hsub : exists call,
    subscribe sns_service (MkSNSManager (VStr topic)) protocol endpoint filter_policy
      (MkWorld st tr out)
    = (Return (handle sub), MkWorld st1 (tr ++ [call]) out)).
  { unfold subscribe. cbn [topic_arn]. rewrite Ht. cbn [negb].
    destruct (json_dumps filter_policy) as [policy | e'] eqn:Hd; [|discriminate].
    unfold bind at 1.
    destruct (truthy filter_policy); unfold bind, lift, ret, try_except, remote_call;
      cbn [remote trace stdout]; unfold sns_service;
      cbn [String.eqb Ascii.eqb Bool.eqb]; map_lookup;
      fold found; unfold st1, sub; destruct found;
      cbn [dict_item assoc String.eqb Ascii.eqb Bool.eqb];
      eexists; reflexivity. }
  destruct Hsub as [call ->].
  rewrite (list_subscriptions_run topic st1 _ out Ht). cbn [remote stdout].
  assert (Hsubs : subscriptions st1
                  = match found with
                    | Some _ => subscriptions st
                    | None => subscriptions st ++ [sub]
                    end).
  { unfold st1. destruct found; reflexivity. }
  split; [reflexivity|]. split; [exact Hsubs|]. split; [|split; reflexivity].
  apply filter_In. rewrite Hsubs. unfold sub.
  destruct found as [s |] eqn:Hf.
  - apply find_some in Hf as [Hin Hs]. split; [exact Hin|].
    unfold subscribed in Hs. apply andb_true_iff in Hs as [Hs _].
    apply andb_true_iff in Hs as [Hs _]. exact Hs.
  - split; [apply in_or_app; right; left; reflexivity|].
    unfold of_topic. cbn [make_subscription assoc String.eqb Ascii.eqb Bool.eqb py_eq].
    apply String.eqb_refl.
Qed.
End Reference.

Lemma subscribe_then_list_sample :
  truthy (VStr "arn:alerts") = true
  /\ raises (json_dumps (VDict [("kind", VList [VStr "low"])])) = false
  /\ let self := MkSNSManager (VStr "arn:alerts") in
     let sub := SNSModel.make_subscription "arn:alerts" (VStr "sms") (VStr "+3530000") 7 in
     let '(r1, w1) := subscribe SNSModel.sns_service self (VStr "sms") (VStr "+3530000")
                        (VDict [("kind", VList [VStr "low"])])
                        (MkWorld (SNSModel.MkState [] [] 7) [] []) in
     let '(r2, w2) := list_subscriptions SNSModel.sns_service self w1 in
     r1 = Return (VStr "arn:alerts:7")
     /\ SNSModel.subscriptions (remote w1) = [sub]
     /\ r2 = Return (VList [VDict sub])
     /\ stdout w2 = [].
Proof.
  split; [reflexivity|]. split; [reflexivity|].
  pose proof (subscribe_then_list "arn:alerts" (VStr "sms") (VStr "+3530000")
                (VDict [("kind", VList [VStr "low"])]) (SNSModel.MkState [] [] 7) [] []
                eq_refl eq_refl) as H.
  cbv zeta in H |- *.
  destruct (subscribe _ _ _ _ _ _) as [r1 w1].
  destruct (list_subscriptions _ _ w1) as [r2 w2].
  destruct H as (H1 & Hs & _ & H2 & Hout).
  cbn [List.find SNSModel.subscriptions app] in Hs.
  split; [exact H1|]. split; [exact Hs|]. split; [|exact Hout].
  rewrite H2, Hs. reflexivity.
Defined.

End SNSMoreProps.

(** ** aws_sns.py: the requests of ensure_customer_subscription *)

Module SubscriptionProps.
Import Py SNS.

(** The filter policy of a customer, as JSON. *)
Lemma filter_policy_json (email : string) :
  json_dumps (VDict [("customer_email", VList [VStr email])])
  = Return ("{" +:+ dquote +:+ "customer_email" +:+ dquote +:+ ": ["
              +:+ dquote +:+ json_escape email +:+ dquote +:+ "]}").
Proof.
  cbn [json_dumps obind]. unfold json_string.
  rewrite !StringProps.append_nil_r. rewrite !StringProps.append_assoc. reflexivity.
Qed.

(** X24: whatever the endpoint does, when its listing holds no
    subscription with the address, [ensure_customer_subscription] sends
    the listing and then one [subscribe] request: for the protocol
    [email] and the address, with the filter policy
    [{"customer_email": ["<address>"]}] written as JSON (the address
    escaped) and asking for the handle; the result is the handle of the
    response.  When the listing holds one, its handle is returned and the
    listing is the only request. *)
Theorem ensure_customer_subscription_requests {R} (client : Service R) (topic : PyVal)
    (email : string) (rows : list (list (string * PyVal))) (others : list (string * PyVal))
    (r : R) (w : World R) :
  truthy topic = true ->
  client "list_subscriptions_by_topic" {[ "TopicArn" := topic ]} (remote w)
  = (Return (VDict (("Subscriptions", VList (map VDict rows)) :: others)), r) ->
  let listing := MkCall "list_subscriptions_by_topic" {[ "TopicArn" := topic ]} in
  let policy :=
    "{" +:+ dquote +:+ "customer_email" +:+ dquote +:+ ": ["
      +:+ dquote +:+ json_escape email +:+ dquote +:+ "]}" in
  let request :=
    MkCall "subscribe"
      {[ "TopicArn" := topic;
         "Protocol" := VStr "email";
         "Endpoint" := VStr email;
         "Attributes" := VDict [("FilterPolicy", VStr policy)];
         "ReturnSubscriptionArn" := VBool true ]} in
  let '(res, w') := ensure_customer_subscription client (MkSNSManager topic) email w in
  match List.find (SNSModel.has_endpoint email) rows with
  | Some sub =>
      res = Return (SNSModel.handle sub) /\ trace w' = trace w ++ [listing] /\ remote w' = r
  | None =>
      trace w' = trace w ++ [listing; request]
      /\ match client "subscribe" (call_args request) r with
         | (Return response, r') => res = dict_item response "SubscriptionArn" /\ remote w' = r'
         | (Raise e, r') =>
             res = Raise (if is_ClientError e
                          then Exn RuntimeError ("Error subscribing endpoint: " +:+ exn_msg e)
                          else e)
             /\ remote w' = r'
         end
  end.
Proof.
  intros Ht Hlist. cbv zeta.
  destruct (List.find (SNSModel.has_endpoint email) rows) as [sub|] eqn:Hfind.
  - rewrite (SNSProps.ensure_customer_subscription_existing client topic email rows sub others
               r w Ht Hlist Hfind).
    auto.
  - unfold ensure_customer_subscription, list_subscriptions. cbn [topic_arn]. rewrite Ht.
    cbn [negb]. unfold bind at 1. unfold try_except at 1. unfold bind at 1.
    unfold remote_call at 1. rewrite Hlist. unfold lift at 1.
    cbn [dict_get assoc String.eqb Ascii.eqb Bool.eqb].
    unfold bind at 1. unfold lift at 1. cbn [py_iter obind].
    rewrite SNSProps.find_subscription_rows, Hfind. cbn [option_map].
    unfold subscribe. cbn [topic_arn]. rewrite Ht. cbn [negb].
    replace (truthy (VDict [("customer_email", VList [VStr email])])) with true by reflexivity.
    unfold bind at 1. unfold bind at 1. unfold lift at 1.
    rewrite filter_policy_json. unfold ret at 1.
    unfold try_except, bind, remote_call, lift. cbn [remote trace stdout call_args].
    destruct (client "subscribe" _ r) as [[response | e] r']; cbn [remote trace stdout].
    + rewrite <- app_assoc.
      destruct (dict_item response "SubscriptionArn") as [arn | e] eqn:Hd; [auto|].
      replace (is_ClientError e) with false; [auto|].
      unfold dict_item in Hd. destruct response; try (injection Hd as <-; reflexivity).
      destruct (assoc "SubscriptionArn" kvs); [discriminate|]. injection Hd as <-. reflexivity.
    + rewrite <- app_assoc. destruct (is_ClientError e); unfold raise; auto.
Qed.

Lemma ensure_customer_subscription_first :
  let topic := VStr "arn:alerts" in
  let w := MkWorld (SNSModel.MkState [] [] 7) [] [] in
  truthy topic = true
  /\ SNSModel.sns_service "list_subscriptions_by_topic" {[ "TopicArn" := topic ]} (remote w)
     = (Return (VDict [("Subscriptions", VList (map VDict []))]), remote w)
  /\ map call_op
       (trace (snd (ensure_customer_subscription SNSModel.sns_service (MkSNSManager topic)
                      "ana@example.org" w)))
     = ["list_subscriptions_by_topic"; "subscribe"].
Proof.
  cbv zeta. split; [reflexivity|]. split; [reflexivity|].
  pose proof (ensure_customer_subscription_requests SNSModel.sns_service (VStr "arn:alerts")
                "ana@example.org" [] [] (SNSModel.MkState [] [] 7)
                (MkWorld (SNSModel.MkState [] [] 7) [] []) eq_refl eq_refl) as H.
  cbv zeta in H.
  destruct (ensure_customer_subscription _ _ _ _) as [res w'].
  cbn [List.find] in H. destruct H as [H _]. cbn [snd]. rewrite H. reflexivity.
Defined.

End SubscriptionProps.

(** ** utility.py: when the threshold check raises *)

Module ThresholdProps.
Import Py Utility.

Lemma py_int_overflow (v : PyVal) (e : exn) :
  py_int v = Raise e ->
  if caught e then infinite_sign v = None else infinite_sign v <> None.
Proof.
  destruct v as [| b | n | f | d | s | s | l | l | kvs]; simpl;
    try discriminate; try (intros [= <-]; reflexivity).
  - destruct f as [sg | sg | | sg m ex]; simpl; try discriminate;
      intros [= <-]; simpl; congruence.
  - destruct d as [sg c ex | sg |]; simpl; try discriminate;
      intros [= <-]; simpl; congruence.
  - intros H. apply UtilityProps.int_of_string_raises in H.
    unfold caught, isinstance_exn. rewrite H. reflexivity.
  - intros H. apply UtilityProps.int_of_string_raises in H.
    unfold caught, isinstance_exn. rewrite H. reflexivity.
Qed.

Lemma py_int_infinite (v : PyVal) :
  infinite_sign v <> None ->
  exists e, py_int v = Raise e /\ caught e = false.
Proof.
  destruct v as [| b | n | f | d | s | s | l | l | kvs]; simpl; try congruence.
  - destruct f as [sg | sg | | sg m ex]; try congruence. intros _. eexists. split; reflexivity.
  - destruct d as [sg c ex | sg |]; try congruence. intros _. eexists. split; reflexivity.
Qed.

(** X25: [below_threshold] raises exactly when the quantity is an
    infinite float or Decimal, or the quantity can be read as an integer
    and the threshold is an infinite float or Decimal; in every other
    case it returns a truth value. *)
Theorem below_threshold_raises_iff (quantity threshold : PyVal) :
  raises (below_threshold quantity threshold) = true
  <-> infinite_sign quantity <> None
      \/ (raises (py_int quantity) = false /\ infinite_sign threshold <> None).
Proof.
  unfold below_threshold.
  destruct (py_int quantity) as [q | e] eqn:Hq; cbn [obind].
  - destruct (py_int threshold) as [t | e] eqn:Ht; cbn [obind raises].
    + split; [discriminate|]. intros [H | [_ H]].
      * destruct (py_int_infinite _ H) as (e & He & _). congruence.
      * destruct (py_int_infinite _ H) as (e & He & _). congruence.
    + pose proof (py_int_overflow _ _ Ht) as Ho. fold (caught e).
      destruct (caught e); cbn [raises].
      * split; [discriminate|]. intros [H | [_ H]]; [|congruence].
        destruct (py_int_infinite _ H) as (e' & He & _). congruence.
      * split; [auto | reflexivity].
  - pose proof (py_int_overflow _ _ Hq) as Ho. fold (caught e).
    destruct (caught e); cbn [raises].
    + split; [discriminate|]. intros [H | [H _]]; [congruence | discriminate].
    + split; [auto | reflexivity].
Qed.

End ThresholdProps.
